(** * W3C Trace Context codec of the New Relic Node agent

    A shallow embedding of [lib/transaction/tracecontext.js] (class
    [TraceContext]) and of the JavaScript built-ins it calls, followed by the
    properties of the header codec.

    Conventions of the embedding.
    - A JavaScript string is a [string] whose characters are the code units
      of the header value.  HTTP header values reach the agent as Latin-1
      strings, so every code unit fits the 8 bits of [ascii].
    - [null] and [undefined] are both [None]: the code only distinguishes
      them from proper values (with [== null], truthiness, or by handing them
      to [parseInt], which answers [NaN] for both).
    - A JavaScript number is [JS.NaN], an infinity, or the exact mathematical
      value (the MV of ECMA-262) of the decimal notation it was read from;
      the rounding of that value to a double, and the sign of zero, are not
      represented.  The properties state the value of a number only where
      the two agree: an integer below 2^53 in size, a decimal with at most
      six places standing for the double nearest to it, and whether a
      number is zero or NaN.
    - An exception is a result of its own ([JS.Throw]); calls that may raise
      are sequenced with [JS.andc] and [JS.bind].
    - Logging is left out; the counters recorded through
      [agent.recordSupportability] are kept in the instance state. *)

From Stdlib Require Import ZArith QArith Qround List Bool Ascii String Lia.
Import ListNotations.

Local Open Scope string_scope.
Local Open Scope Z_scope.

(** ** JavaScript built-ins used by the codec *)
Module JS.

(** *** Completions *)

Inductive error : Type :=
| TypeError.

Inductive completion (A : Type) : Type :=
| Normal (a : A)
| Throw (e : error).

Arguments Normal {A} a.
Arguments Throw {A} e.

Definition bind {A B} (c : completion A) (k : A -> completion B) : completion B :=
  match c with
  | Normal a => k a
  | Throw e => Throw e
  end.

(** [a && b] where evaluating either side may raise: [b] is only looked at
    when [a] is truthy. *)
Definition andc (a b : completion bool) : completion bool :=
  match a with
  | Normal true => b
  | Normal false => Normal false
  | Throw e => Throw e
  end.

(** *** Strings *)

Fixpoint forallb_string (p : ascii -> bool) (s : string) : bool :=
  match s with
  | EmptyString => true
  | String c r => p c && forallb_string p r
  end.

Fixpoint existsb_string (p : ascii -> bool) (s : string) : bool :=
  match s with
  | EmptyString => false
  | String c r => p c || existsb_string p r
  end.

(** [s.split(sep)] for a one-character separator and no limit. *)
Fixpoint split (sep : ascii) (s : string) : list string :=
  match s with
  | EmptyString => [EmptyString]
  | String c r =>
      if Ascii.eqb c sep then EmptyString :: split sep r
      else match split sep r with
           | [] => [String c EmptyString]
           | h :: t => String c h :: t
           end
  end.

(** [a.join(sep)] on an array of strings. *)
Definition join (sep : string) (l : list string) : string := String.concat sep l.

(** [a.join(sep)] on an array that may hold [undefined]: those elements are
    rendered as the empty string. *)
Definition join_opt (sep : string) (l : list (option string)) : string :=
  join sep (map (fun o => match o with Some s => s | None => "" end) l).

Fixpoint repeat_char (c : ascii) (n : nat) : string :=
  match n with
  | O => EmptyString
  | S k => String c (repeat_char c k)
  end.

(** [s.padStart(n, c)] for a one-character filler. *)
Definition padStart (n : nat) (c : ascii) (s : string) : string :=
  repeat_char c (n - String.length s) ++ s.

(** Truthiness of a string. *)
Definition truthy_string (s : string) : bool :=
  negb (String.eqb s "").

(** Template-literal rendering of a value that may be [null]. *)
Definition ToString (v : option string) : string :=
  match v with
  | Some s => s
  | None => "null"
  end.

(** *** Array helpers *)

Fixpoint findIndex {A} (p : A -> bool) (l : list A) : option nat :=
  match l with
  | [] => None
  | x :: r => if p x then Some O
              else match findIndex p r with
                   | Some i => Some (S i)
                   | None => None
                   end
  end.

(** [a.splice(i, 1)]: the removed elements and the array that is left. *)
Fixpoint splice1 {A} (i : nat) (l : list A) : list A * list A :=
  match l, i with
  | [], _ => ([], [])
  | x :: r, O => ([x], r)
  | x :: r, S k => let (removed, rest) := splice1 k r in (removed, x :: rest)
  end.

(** *** Numbers *)

Inductive number : Type :=
| NaN
| Infinity (negative : bool)
| Fin (q : Q).

Definition isNaN (n : number) : bool :=
  match n with
  | NaN => true
  | _ => false
  end.

(** [Boolean(n)]. *)
Definition truthy_number (n : number) : bool :=
  match n with
  | NaN => false
  | Infinity _ => true
  | Fin q => negb (Qeq_bool q 0)
  end.

Definition of_Z (z : Z) : number := Fin (inject_Z z).

(** White space and line terminators among the Latin-1 code units. *)
Definition is_white_space (c : ascii) : bool :=
  let n := nat_of_ascii c in
  ((9 <=? n) && (n <=? 13))%nat || (n =? 32)%nat || (n =? 160)%nat.

Fixpoint trim_start (s : string) : string :=
  match s with
  | EmptyString => EmptyString
  | String c r => if is_white_space c then trim_start r else s
  end.

(** Value of a character as a digit: 0-9, then a-z or A-Z for 10-35. *)
Definition digit_value (c : ascii) : option Z :=
  let n := Z.of_nat (nat_of_ascii c) in
  if (48 <=? n) && (n <=? 57) then Some (n - 48)
  else if (97 <=? n) && (n <=? 122) then Some (n - 87)
  else if (65 <=? n) && (n <=? 90) then Some (n - 55)
  else None.

Definition radix_digit (R : Z) (c : ascii) : option Z :=
  match digit_value c with
  | Some d => if d <? R then Some d else None
  | None => None
  end.

(** The longest prefix of radix-[R] digits, and what follows it. *)
Fixpoint span_digits (R : Z) (s : string) : list Z * string :=
  match s with
  | EmptyString => ([], EmptyString)
  | String c r =>
      match radix_digit R c with
      | Some d => let (ds, rest) := span_digits R r in (d :: ds, rest)
      | None => ([], s)
      end
  end.

Definition digits_value (R : Z) (ds : list Z) : Z :=
  fold_left (fun acc d => acc * R + d) ds 0.

(** Sign prefix of a numeric string: the factor and the remaining text. *)
Definition strip_sign (s : string) : Z * string :=
  match s with
  | String "-" r => (-1, r)
  | String "+" r => (1, r)
  | _ => (1, s)
  end.

Definition strip_hex_prefix (s : string) : option string :=
  match s with
  | String "0" (String "x" r) => Some r
  | String "0" (String "X" r) => Some r
  | _ => None
  end.

(** [parseInt(s, radix)]; radix [0] stands for a call without radix. *)
Definition parseInt (s : string) (radix : Z) : number :=
  let (sign, S1) := strip_sign (trim_start s) in
  if negb (radix =? 0) && ((radix <? 2) || (36 <? radix)) then NaN
  else
    let stripPrefix := (radix =? 0) || (radix =? 16) in
    let R0 := if radix =? 0 then 10 else radix in
    let (R, S2) :=
      match (if stripPrefix then strip_hex_prefix S1 else None) with
      | Some r => (16, r)
      | None => (R0, S1)
      end in
    match fst (span_digits R S2) with
    | [] => NaN
    | ds => of_Z (sign * digits_value R ds)
    end.

(** The number [m * 10^e]. *)
Definition scale10 (m e : Z) : Q :=
  if 0 <=? e then inject_Z (m * 10 ^ e)
  else Qmake m (Z.to_pos (10 ^ (- e))).

(** The exponent part of a decimal literal, if one starts the string. *)
Definition exponent_part (s : string) : Z :=
  match s with
  | String c r =>
      if Ascii.eqb c "e" || Ascii.eqb c "E" then
        let (sign, r') := strip_sign r in
        match fst (span_digits 10 r') with
        | [] => 0
        | ds => sign * digits_value 10 ds
        end
      else 0
  | EmptyString => 0
  end.

(** [parseFloat(s)]: the value of the longest prefix of the trimmed string
    that is a StrDecimalLiteral. *)
Definition parseFloat (s : string) : number :=
  let (sign, S1) := strip_sign (trim_start s) in
  if String.prefix "Infinity" S1 then Infinity (sign <? 0)
  else
    let (ds1, r1) := span_digits 10 S1 in
    let (ds2, r2) :=
      match r1 with
      | String "." r => span_digits 10 r
      | _ => ([], r1)
      end in
    match (ds1 ++ ds2)%list with
    | [] => NaN
    | ds => Fin (scale10 (sign * digits_value 10 ds)
                         (exponent_part r2 - Z.of_nat (List.length ds2)))
    end.

(** Decimal digits of a natural number, most significant first. *)
Definition digit_char (d : Z) : ascii := ascii_of_nat (Z.to_nat (48 + d)).

Fixpoint digits_of (fuel : nat) (n : Z) (acc : string) : string :=
  match fuel with
  | O => acc
  | S f =>
      let acc' := String (digit_char (n mod 10)) acc in
      if n / 10 =? 0 then acc' else digits_of f (n / 10) acc'
  end.

(** [String(n)] for an integer below 10^21 in magnitude. *)
Definition string_of_Z (n : Z) : string :=
  let m := Z.abs n in
  let ds := digits_of (S (Z.to_nat (Z.log2 m))) m "" in
  if n <? 0 then String "-" ds else ds.

(** [x.toFixed(f)] for a finite [x] below 10^21 in magnitude: the digits of
    the integer nearest to [x * 10^f] (the larger one on a tie), with the
    point before the last [f] of them. *)
Definition toFixed_Q (f : nat) (x : Q) : string :=
  let neg := Qlt_le_dec x 0 in
  let ax := if neg then Qopp x else x in
  let n := Qfloor (ax * inject_Z (10 ^ Z.of_nat f) + (1 # 2)) in
  let m := padStart (S f) "0" (string_of_Z n) in
  let k := String.length m in
  let body :=
    if (f =? 0)%nat then m
    else substring 0 (k - f) m ++ "." ++ substring (k - f) f m in
  if neg then String "-" body else body.

Definition toFixed (f : nat) (x : number) : string :=
  match x with
  | NaN => "NaN"
  | Infinity false => "Infinity"
  | Infinity true => "-Infinity"
  | Fin q => toFixed_Q f q
  end.

(** [n.toString(16)] for a natural number. *)
Definition hex_char (d : Z) : ascii :=
  if d <? 10 then ascii_of_nat (Z.to_nat (48 + d))
  else ascii_of_nat (Z.to_nat (87 + d)).

Fixpoint hex_digits_of (fuel : nat) (n : Z) (acc : string) : string :=
  match fuel with
  | O => acc
  | S f =>
      let acc' := String (hex_char (n mod 16)) acc in
      if n / 16 =? 0 then acc' else hex_digits_of f (n / 16) acc'
  end.

Definition toString16 (n : Z) : string :=
  hex_digits_of (S (Z.to_nat (Z.log2 n))) n "".

End JS.

Module JSNum.
Import JS.

(** [a - b] *)
Definition sub (a b : number) : number :=
  match a, b with
  | NaN, _ | _, NaN => NaN
  | Infinity s, Infinity t => if Bool.eqb s t then NaN else Infinity s
  | Infinity s, Fin _ => Infinity s
  | Fin _, Infinity t => Infinity (negb t)
  | Fin x, Fin y => Fin (x - y)
  end.

(** [a / d] for a positive constant [d] *)
Definition div_pos (a : number) (d : positive) : number :=
  match a with
  | NaN => NaN
  | Infinity s => Infinity s
  | Fin x => Fin (x / inject_Z (Zpos d))
  end.

(** [Math.max(a, b)] *)
Definition max (a b : number) : number :=
  match a, b with
  | NaN, _ | _, NaN => NaN
  | Infinity false, _ | _, Infinity false => Infinity false
  | Infinity true, y => y
  | x, Infinity true => x
  | Fin x, Fin y => if Qle_bool x y then Fin y else Fin x
  end.

(** [a[n]] for an array [a] and a number [n]: only a non-negative integer
    names an element. *)
Definition array_at {A} (a : list A) (n : number) : option A :=
  match n with
  | Fin q =>
      let i := Qfloor q in
      if Qeq_bool (inject_Z i) q && (0 <=? i) then nth_error a (Z.to_nat i)
      else None
  | _ => None
  end.

(** [ToInt32(n)]: the integer part, wrapped to 32 signed bits. *)
Definition ToInt32 (n : number) : Z :=
  match n with
  | Fin q =>
      let i := Z.quot (Qnum q) (Zpos (Qden q)) in
      (i + 2 ^ 31) mod 2 ^ 32 - 2 ^ 31
  | _ => 0
  end.

(** [a & b] *)
Definition bitand (a b : number) : number :=
  of_Z (Z.land (ToInt32 a) (ToInt32 b)).

End JSNum.

(** A plain object as a list of its own properties in insertion order, for
    keys that are neither array indices nor [__proto__]. *)
Module JSObject.

Definition t (V : Type) : Type := list (string * V).

(** [o[key]] *)
Fixpoint get {V} (o : t V) (key : string) : option V :=
  match o with
  | [] => None
  | (k, v) :: r => if String.eqb k key then Some v else get r key
  end.

(** [o[key] = value] *)
Fixpoint set {V} (o : t V) (key : string) (value : V) : t V :=
  match o with
  | [] => [(key, value)]
  | (k, v) :: r =>
      if String.eqb k key then (k, value) :: r else (k, v) :: set r key value
  end.

(** [Object.assign(target, source)] *)
Definition assign {V} (target source : t V) : t V :=
  fold_left (fun o kv => set o (fst kv) (snd kv)) source target.

End JSObject.

(** ** Constants of the module *)

Definition TRACE_CONTEXT_PARENT_HEADER : string := "traceparent".
Definition TRACE_CONTEXT_STATE_HEADER : string := "tracestate".
Definition PARENT_TYPES : list string := ["App"; "Browser"; "Mobile"].

Definition W3C_TRACEPARENT_VERSION : string := "00".
Definition NR_TRACESTATE_VERSION : Z := 0.

Definition lower_hex (c : ascii) : bool :=
  let n := nat_of_ascii c in
  (((48 <=? n) && (n <=? 57)) || ((97 <=? n) && (n <=? 102)))%nat.

(** [^(?![c]{n}) ...]: the lookahead fails on [n] copies of [c]. *)
Definition not_repeat (c : ascii) (n : nat) (s : string) : bool :=
  negb (String.prefix (JS.repeat_char c n) s).

(** [^([a-f0-9]{n})$] *)
Definition hex_exactly (n : nat) (s : string) : bool :=
  (String.length s =? n)%nat && JS.forallb_string lower_hex s.

(** 255 (ff) explicitly not allowed for version *)
Definition VERSION_VALID_RGX (s : string) : bool := not_repeat "f" 2 s && hex_exactly 2 s.
Definition TRACEID_VALID_RGX (s : string) : bool := not_repeat "0" 32 s && hex_exactly 32 s.
Definition PARENTID_VALID_RGX (s : string) : bool := not_repeat "0" 16 s && hex_exactly 16 s.
Definition FLAGS_VALID_RGX (s : string) : bool := hex_exactly 2 s.

Definition FLAGS : list (string * Z) := [("sampled", 1)].

(** [field.match(rgx)], as a truth value; [field] may be [undefined]. *)
Definition match_rgx (field : option string) (rgx : string -> bool) : JS.completion bool :=
  match field with
  | Some s => JS.Normal (rgx s)
  | None => JS.Throw JS.TypeError
  end.

Notation "a &&& b" := (JS.andc a b) (at level 40, left associativity).

(** ** Data of the codec *)

Module Config.
Record t : Type := mk {
  trusted_account_key : string;
  account_id : string;
  primary_application_id : string;
  span_events_enabled : bool;
  transaction_events_enabled : bool
}.
End Config.

(** The owning transaction as the codec reads it: [getTraceId()], the id of
    [agent.tracer.getSegment()] when a segment is in context, and
    [agent.config]. *)
Module Transaction.
Record t : Type := mk {
  id : string;
  traceId : string;
  sampled : option bool;
  priority : option JS.number;
  segment : option string;
  config : Config.t
}.
End Transaction.

Module TraceParentInfo.
Record t : Type := mk {
  entryValid : bool;
  version : option string;
  traceId : option string;
  parentId : option string;
  flags : option string
}.
Definition invalid : t := mk false None None None None.
End TraceParentInfo.

(** The nine positional fields as [_extractTraceStateIntrinsics] returns them. *)
Module RawIntrinsics.
Record t : Type := mk {
  version : option string;
  parentType : option string;
  accountId : option string;
  appId : option string;
  spanId : option string;
  transactionId : option string;
  sampled : option string;
  priority : option string;
  timestamp : option string
}.
End RawIntrinsics.

(** The fields after the conversions of [_parseIntrinsics]. *)
Module Intrinsics.
Record t : Type := mk {
  version : JS.number;
  parentType : JS.number;
  accountId : option string;
  appId : option string;
  spanId : option string;
  transactionId : option string;
  sampled : option JS.number;
  priority : option JS.number;
  timestamp : JS.number
}.
End Intrinsics.

(** The object [_validateAndParseIntrinsics] returns. *)
Module Validated.
Record t : Type := mk {
  version : JS.number;
  parentType : option string;
  accountId : option string;
  appId : option string;
  spanId : option string;
  transactionId : option string;
  sampled : bool;
  priority : option JS.number;
  timestamp : JS.number;
  entryValid : bool;
  entryInvalidReason : option string
}.
End Validated.

Module TraceStateData.
Record t : Type := mk {
  entryFound : bool;
  entryValid : option bool;
  entryInvalidReason : option string;
  traceStateValid : option bool;
  intrinsics : option Validated.t;
  newTraceState : option string;
  vendors : list (option string)
}.
End TraceStateData.

Module TraceContextData.
Record t : Type := mk {
  acceptedTraceparent : bool;
  acceptedTracestate : bool;
  acceptedNRTracestate : bool;
  traceId : option string;
  parentSpanId : option string;
  parentType : option string;
  accountId : option string;
  appId : option string;
  transactionId : option string;
  sampled : option bool;
  priority : option JS.number;
  transportDuration : option JS.number
}.
End TraceContextData.

(** The codec instance; [supportability] lists the counters recorded on the
    agent, oldest first. *)
Module TraceContext.
Record t : Type := mk {
  transaction : Transaction.t;
  tracingVendors : option string;
  trustedParentId : option string;
  _traceStateRaw : option string;
  supportability : list string
}.

Definition constructor (transaction : Transaction.t) : t :=
  mk transaction None None None [].

Definition recordSupportability (self : t) (name : string) : t :=
  mk (transaction self) (tracingVendors self) (trustedParentId self)
     (_traceStateRaw self) (supportability self ++ [name]).

Definition set_traceStateRaw (self : t) (v : option string) : t :=
  mk (transaction self) (tracingVendors self) (trustedParentId self)
     v (supportability self).

Definition set_tracingVendors (self : t) (v : option string) : t :=
  mk (transaction self) v (trustedParentId self)
     (_traceStateRaw self) (supportability self).

Definition set_trustedParentId (self : t) (v : option string) : t :=
  mk (transaction self) (tracingVendors self) v
     (_traceStateRaw self) (supportability self).
End TraceContext.

(** ** Encoding *)

Definition truthy_flag (v : option bool) : bool :=
  match v with
  | Some b => b
  | None => false
  end.

Definition truthy_opt_number (v : option JS.number) : bool :=
  match v with
  | Some n => JS.truthy_number n
  | None => false
  end.

(** The [flags] object of the constructor: one getter, [sampled]. *)
Definition flags (self : TraceContext.t) (key : string) : bool :=
  if String.eqb key "sampled"
  then truthy_flag (Transaction.sampled (TraceContext.transaction self))
  else false.

Definition createFlagsHex (self : TraceContext.t) : string :=
  let flagsNum :=
    fold_left (fun num kv => if flags self (fst kv) then num + snd kv else num)
              FLAGS 0 in
  JS.padStart 2 "0" (JS.toString16 flagsNum).

(** Not used now, but will be useful when traceparent has more flags *)
Definition parseFlagsHex (flags : string) : JSObject.t bool :=
  let flagsInt := JS.parseInt flags 16 in
  fold_left
    (fun (o : JSObject.t bool) (kv : string * Z) =>
       JSObject.set o (fst kv)
         (JS.truthy_number (JSNum.bitand flagsInt (JS.of_Z (snd kv)))))
    FLAGS [].

(** [get traceparent]; [makeId] is what [hashes.makeId()] would answer. *)
Definition traceparent (self : TraceContext.t) (makeId : string) : string :=
  let tx := TraceContext.transaction self in
  let traceId := JS.padStart 32 "0" (Transaction.traceId tx) in
  let parentId :=
    match Transaction.segment tx with
    | Some segment_id => if JS.truthy_string segment_id then segment_id else makeId
    | None => makeId
    end in
  let parentId := JS.padStart 16 "0" parentId in
  W3C_TRACEPARENT_VERSION ++ "-" ++ traceId ++ "-" ++ parentId ++ "-"
    ++ createFlagsHex self.

Fixpoint indexOf (x : string) (l : list string) : Z :=
  match l with
  | [] => -1
  | y :: r => if String.eqb y x then 0
              else let i := indexOf x r in if i <? 0 then -1 else i + 1
  end.

(** [get tracestate]; [now] is what [Date.now()] answers. *)
Definition tracestate (self : TraceContext.t) (now : Z) : string :=
  let tx := TraceContext.transaction self in
  let config := Transaction.config tx in
  let trustedAccountKey := Config.trusted_account_key config in
  let version := NR_TRACESTATE_VERSION in
  let parentType := indexOf "App" PARENT_TYPES in
  let appId := Config.primary_application_id config in
  let accountId := Config.account_id config in
  let spanId :=
    if Config.span_events_enabled config then
      match Transaction.segment tx with
      | Some segment_id => segment_id
      | None => ""
      end
    else "" in
  let transactionId :=
    if Config.transaction_events_enabled config then Transaction.id tx else "" in
  let sampled := if truthy_flag (Transaction.sampled tx) then "1" else "0" in
  let priority :=
    match Transaction.priority tx with
    | Some p => if JS.truthy_number p then JS.toFixed 6 p else ""
    | None => ""
    end in
  let timestamp := now in
  let nrTraceState :=
    trustedAccountKey ++ "@nr=" ++ JS.string_of_Z version ++ "-"
      ++ JS.string_of_Z parentType ++ "-" ++ accountId
      ++ "-" ++ appId ++ "-" ++ spanId ++ "-" ++ transactionId ++ "-" ++ sampled
      ++ "-" ++ priority ++ "-" ++ JS.string_of_Z timestamp in
  match TraceContext._traceStateRaw self with
  | Some raw => if JS.truthy_string raw then nrTraceState ++ "," ++ raw
                else nrTraceState
  | None => nrTraceState
  end.

(** The two header values, and the instance with the counter recorded. *)
Definition createTraceContextPayload (self : TraceContext.t) (makeId : string) (now : Z)
  : (string * string) * TraceContext.t :=
  let self' := TraceContext.recordSupportability self "TraceContext/Create/Success" in
  ((traceparent self' makeId, tracestate self' now), self').

(** Takes a headers object and adds the Trace Context headers to it; the
    object after the call, and the instance. *)
Definition addTraceContextHeaders (self : TraceContext.t) (makeId : string)
  (now : Z) (headers : JSObject.t string) : JSObject.t string * TraceContext.t :=
  let (traceContextHeaders, self') := createTraceContextPayload self makeId now in
  (JSObject.assign headers
     [ (TRACE_CONTEXT_PARENT_HEADER, fst traceContextHeaders);
       (TRACE_CONTEXT_STATE_HEADER, snd traceContextHeaders) ],
   self').

(** ** Decoding *)

Definition _validateAndParseTraceParentHeader (traceparent : string)
  : JS.completion TraceParentInfo.t :=
  let traceParentInfo := TraceParentInfo.invalid in
  if negb (JS.truthy_string traceparent) then JS.Normal traceParentInfo
  else
    let parts := JS.split "-" traceparent in
    (* No extra data allowed this version. *)
    if match nth_error parts 0 with
       | Some p0 => String.eqb p0 W3C_TRACEPARENT_VERSION
       | None => false
       end && negb (List.length parts =? 4)%nat
    then JS.Normal traceParentInfo
    else
      let version := nth_error parts 0 in
      let traceId := nth_error parts 1 in
      let parentId := nth_error parts 2 in
      let flags := nth_error parts 3 in
      JS.bind (match_rgx version VERSION_VALID_RGX
               &&& match_rgx traceId TRACEID_VALID_RGX
               &&& match_rgx parentId PARENTID_VALID_RGX
               &&& match_rgx flags FLAGS_VALID_RGX)
        (fun isValid =>
           JS.Normal (if isValid
                      then TraceParentInfo.mk true version traceId parentId flags
                      else traceParentInfo)).

(** A positional field: the empty string has been replaced by [null], and a
    missing position reads as [undefined]. *)
Definition positional (splitValues : list string) (i : nat) : option string :=
  match nth_error splitValues i with
  | Some v => if String.eqb v "" then None else Some v
  | None => None
  end.

Definition _extractTraceStateIntrinsics (nrTracestate : string) : RawIntrinsics.t :=
  let splitValues := JS.split "-" nrTracestate in
  RawIntrinsics.mk
    (positional splitValues 0) (positional splitValues 1)
    (positional splitValues 2) (positional splitValues 3)
    (positional splitValues 4) (positional splitValues 5)
    (positional splitValues 6) (positional splitValues 7)
    (positional splitValues 8).

(** [v == null ? v : f(v)] *)
Definition unless_null {A B} (f : A -> B) (v : option A) : option B :=
  match v with
  | Some x => Some (f x)
  | None => None
  end.

Definition _parseIntrinsics (nrTracestateValue : string) : Intrinsics.t :=
  let intrinsics := _extractTraceStateIntrinsics nrTracestateValue in
  Intrinsics.mk
    (JS.parseInt (JS.ToString (RawIntrinsics.version intrinsics)) 0)
    (JS.parseInt (JS.ToString (RawIntrinsics.parentType intrinsics)) 0)
    (RawIntrinsics.accountId intrinsics)
    (RawIntrinsics.appId intrinsics)
    (RawIntrinsics.spanId intrinsics)
    (RawIntrinsics.transactionId intrinsics)
    (* these two can be null, don't try to parse a null *)
    (unless_null (fun v => JS.parseInt v 10) (RawIntrinsics.sampled intrinsics))
    (unless_null JS.parseFloat (RawIntrinsics.priority intrinsics))
    (JS.parseInt (JS.ToString (RawIntrinsics.timestamp intrinsics)) 0).

Definition isNull {A} (v : option A) : bool :=
  match v with
  | None => true
  | Some _ => false
  end.

(** [v == null] for a number [v]: never. *)
Definition isNull_number (v : JS.number) : bool := false.

(** [v == null ? false : isNaN(v)] *)
Definition present_and_NaN (v : option JS.number) : bool :=
  match v with
  | None => false
  | Some n => JS.isNaN n
  end.

(** Functions that return true when the field is invalid, each applied to its
    own field, in the order of the object's keys. *)
Definition intrinsicInvalidations : list (string * (Intrinsics.t -> bool)) :=
  [ ("version", fun i => JS.isNaN (Intrinsics.version i));
    ("parentType", fun i => isNull_number (Intrinsics.parentType i));
    ("accountId", fun i => isNull (Intrinsics.accountId i));
    ("appId", fun i => isNull (Intrinsics.appId i));
    ("sampled", fun i => present_and_NaN (Intrinsics.sampled i));
    ("priority", fun i => present_and_NaN (Intrinsics.priority i));
    ("timestamp", fun i => JS.isNaN (Intrinsics.timestamp i)) ].

(** The loop over the table: [entryValid] and [entryInvalidReason] after it. *)
Definition run_invalidations (table : list (string * (Intrinsics.t -> bool)))
  (intrinsics : Intrinsics.t) (start : bool * option string) : bool * option string :=
  fold_left
    (fun (state : bool * option string) (kv : string * (Intrinsics.t -> bool)) =>
       if snd kv intrinsics
       then (false, Some (fst kv ++ " failed invalidation test"))
       else state)
    table start.

(** The part of [_validateAndParseIntrinsics] after the call of
    [_parseIntrinsics]. *)
Definition validateIntrinsics (intrinsics : Intrinsics.t) : Validated.t :=
  (* If a field is found invalid, flag the entry as not valid *)
  let (entryValid, entryInvalidReason) :=
    run_invalidations intrinsicInvalidations intrinsics (true, None) in
  (* Convert to types expected by Transaction *)
  let sampled := truthy_opt_number (Intrinsics.sampled intrinsics) in
  let parentType := JSNum.array_at PARENT_TYPES (Intrinsics.parentType intrinsics) in
  let entryValid :=
    match parentType with
    | Some label => if JS.truthy_string label then entryValid else false
    | None => false
    end in
  Validated.mk
    (Intrinsics.version intrinsics) parentType
    (Intrinsics.accountId intrinsics) (Intrinsics.appId intrinsics)
    (Intrinsics.spanId intrinsics) (Intrinsics.transactionId intrinsics)
    sampled (Intrinsics.priority intrinsics) (Intrinsics.timestamp intrinsics)
    entryValid entryInvalidReason.

Definition _validateAndParseIntrinsics (nrTracestateValue : string) : Validated.t :=
  validateIntrinsics (_parseIntrinsics nrTracestateValue).

(** The callback of [listMembers.map]: the key of a well-formed member, and
    [undefined] with the flag lowered for any other. *)
Fixpoint map_members (listMembers : list string) : list (option string) * option bool :=
  match listMembers with
  | [] => ([], None)
  | lm :: rest =>
      let split := JS.split "=" lm in
      let (vendors, traceStateValid) := map_members rest in
      if negb (List.length split =? 2)%nat
      then (None :: vendors, Some false)
      else (nth_error split 0 :: vendors, traceStateValid)
  end.

Definition is_false (v : option bool) : bool :=
  match v with
  | Some false => true
  | _ => false
  end.

Definition same_key (key : string) (v : option string) : bool :=
  match v with
  | Some s => String.eqb s key
  | None => false
  end.

Definition _validateAndParseTraceStateHeader (self : TraceContext.t) (tracestate : string)
  : JS.completion TraceStateData.t :=
  let listMembers := JS.split "," tracestate in
  (* Verify key/value pairs are parsed correctly while getting vendors *)
  let (vendors, traceStateValid) := map_members listMembers in
  (* Verify all the key/value pairs were parsed correctly *)
  if is_false traceStateValid
  then JS.Normal (TraceStateData.mk false None None traceStateValid None None vendors)
  else
    (* See if there's a New Relic Trace State *)
    let trustedKey :=
      Config.trusted_account_key
        (Transaction.config (TraceContext.transaction self)) in
    match JS.findIndex (same_key (trustedKey ++ "@nr")) vendors with
    | Some nrVendorIndex =>
        (* Remove the new relic entry that we found from the vendors and
           listMembers array *)
        let vendors := snd (JS.splice1 nrVendorIndex vendors) in
        let (removed, listMembers) := JS.splice1 nrVendorIndex listMembers in
        match nth_error removed 0 with
        | Some nrTraceStateEntry =>
            match nth_error (JS.split "=" nrTraceStateEntry) 1 with
            | Some nrTraceStateValue =>
                let intrinsicsValidation :=
                  _validateAndParseIntrinsics nrTraceStateValue in
                let newTraceState := Some (JS.join "," listMembers) in
                if Validated.entryValid intrinsicsValidation
                then
                  (* [entryValid] is deleted from the stored intrinsics; here
                     the field stays, with the value [true] *)
                  JS.Normal (TraceStateData.mk true (Some true) None (Some true)
                                  (Some intrinsicsValidation) newTraceState vendors)
                else
                  (* the validator has no [invalidReason] property *)
                  JS.Normal (TraceStateData.mk true (Some false) None (Some true)
                               None newTraceState vendors)
            | None => JS.Throw JS.TypeError
            end
        | None => JS.Throw JS.TypeError
        end
    | None =>
        (* Rebuild the new strace state string without the new relic entry *)
        JS.Normal (TraceStateData.mk false None None (Some true) None
                     (Some (JS.join "," listMembers)) vendors)
    end.

Definition is_true (v : option bool) : bool :=
  match v with
  | Some true => true
  | _ => false
  end.

(** [Math.max(0, (Date.now() - timestamp) / 1000)] *)
Definition transport_duration (now : Z) (timestamp : JS.number) : JS.number :=
  JSNum.max (JS.of_Z 0) (JSNum.div_pos (JSNum.sub (JS.of_Z now) timestamp) 1000).

Definition initial_data : TraceContextData.t :=
  TraceContextData.mk false false false None None None None None None None None None.

Definition acceptTraceContextPayload (self : TraceContext.t) (now : Z)
  (traceparent tracestate : string)
  : JS.completion (TraceContextData.t * TraceContext.t) :=
  let traceContextData := initial_data in
  (* Parsing traceparent *)
  if negb (JS.truthy_string traceparent) then JS.Normal (traceContextData, self)
  else
    JS.bind (_validateAndParseTraceParentHeader traceparent) (fun parsedParent =>
    if TraceParentInfo.entryValid parsedParent then
      let traceContextData :=
        TraceContextData.mk true false false
          (TraceParentInfo.traceId parsedParent)
          (TraceParentInfo.parentId parsedParent)
          None None None None None None None in
      (* Parsing tracestate *)
      if negb (JS.truthy_string tracestate) then JS.Normal (traceContextData, self)
      else
        JS.bind (_validateAndParseTraceStateHeader self tracestate) (fun parsedState =>
        if negb (is_true (TraceStateData.traceStateValid parsedState))
        then JS.Normal (traceContextData, self)
        else
          (* Keep the raw, non-NewRelic tracestate string stored so that we
             can propogate it *)
          let self := TraceContext.set_traceStateRaw self
                        (TraceStateData.newTraceState parsedState) in
          (* These need to be kept to be added to root span events as an
             attribute *)
          let self := TraceContext.set_tracingVendors self
                        (Some (JS.join_opt "," (TraceStateData.vendors parsedState))) in
          if is_true (TraceStateData.entryValid parsedState) then
            match TraceStateData.intrinsics parsedState with
            | Some intrinsics =>
                let traceContextData :=
                  TraceContextData.mk true true false
                    (TraceParentInfo.traceId parsedParent)
                    (TraceParentInfo.parentId parsedParent)
                    (Validated.parentType intrinsics)
                    (Validated.accountId intrinsics)
                    (Validated.appId intrinsics)
                    (Validated.transactionId intrinsics)
                    (Some (Validated.sampled intrinsics))
                    (Validated.priority intrinsics)
                    (Some (transport_duration now (Validated.timestamp intrinsics))) in
                let self := TraceContext.set_trustedParentId self
                              (Validated.spanId intrinsics) in
                let self := TraceContext.set_traceStateRaw self
                              (TraceStateData.newTraceState parsedState) in
                let self := TraceContext.recordSupportability self
                              "TraceContext/Accept/Success" in
                JS.Normal (traceContextData, self)
            | None => JS.Throw JS.TypeError
            end
          else if TraceStateData.entryFound parsedState then
            JS.Normal (traceContextData,
                       TraceContext.recordSupportability self
                         "TraceContext/TraceState/InvalidNrEntry")
          else JS.Normal (traceContextData, self))
    else
      JS.Normal (traceContextData,
                 TraceContext.recordSupportability self
                   "TraceContext/TraceParent/Parse/Exception")).

(** ** Vocabulary of the properties *)

Definition has_char (c : ascii) (s : string) : bool :=
  JS.existsb_string (fun x => Ascii.eqb x c) s.

(** The list members of a tracestate value. *)
Definition members (tracestate : string) : list string := JS.split "," tracestate.

(** A list member that splits on [=] into exactly two parts. *)
Definition well_formed_member (lm : string) : bool :=
  (List.length (JS.split "=" lm) =? 2)%nat.

Definition syntactically_valid (tracestate : string) : bool :=
  forallb well_formed_member (members tracestate).

Definition key_of (lm : string) : option string := nth_error (JS.split "=" lm) 0.

Definition value_of (lm : string) : option string := nth_error (JS.split "=" lm) 1.

Definition trusted_key (self : TraceContext.t) : string :=
  Config.trusted_account_key (Transaction.config (TraceContext.transaction self)).

(** The list member is an entry of this vendor: its key is
    [<trustedAccountKey>@nr]. *)
Definition is_vendor_entry (self : TraceContext.t) (lm : string) : bool :=
  same_key (trusted_key self ++ "@nr") (key_of lm).

(** The list without its first element that satisfies [p]. *)
Fixpoint remove_first {A} (p : A -> bool) (l : list A) : list A :=
  match l with
  | [] => []
  | x :: r => if p x then r else x :: remove_first p r
  end.

(** A traceparent the parser accepts, with its two identifiers. *)
Definition accepted_traceparent (traceparent traceId parentId : string) : Prop :=
  exists version flags,
    _validateAndParseTraceParentHeader traceparent
    = JS.Normal (TraceParentInfo.mk true (Some version) (Some traceId)
                   (Some parentId) (Some flags)).

(** The answer of the parser on a well-formed list, in terms of the first
    entry of this vendor. *)
Definition parsed_state (self : TraceContext.t) (tracestate : string) : TraceStateData.t :=
  let rest := remove_first (is_vendor_entry self) (members tracestate) in
  match find (is_vendor_entry self) (members tracestate) with
  | None =>
      TraceStateData.mk false None None (Some true) None
        (Some tracestate) (map key_of (members tracestate))
  | Some entry =>
      let validation :=
        _validateAndParseIntrinsics
          (match value_of entry with Some v => v | None => "" end) in
      TraceStateData.mk true (Some (Validated.entryValid validation)) None (Some true)
        (if Validated.entryValid validation then Some validation else None)
        (Some (JS.join "," rest)) (map key_of rest)
  end.

(** The result when only the traceparent was accepted. *)
Definition traceparent_only (traceId parentId : string) : TraceContextData.t :=
  TraceContextData.mk true false false (Some traceId) (Some parentId)
    None None None None None None None.

(** The instance after a well-formed tracestate: pass-through value and
    vendor keys stored. *)
Definition stored (self : TraceContext.t) (rest : list string) : TraceContext.t :=
  TraceContext.set_tracingVendors
    (TraceContext.set_traceStateRaw self (Some (JS.join "," rest)))
    (Some (JS.join_opt "," (map key_of rest))).

(** A string made of the character [0] only. *)
Definition all_zero (s : string) : bool :=
  JS.forallb_string (fun c => Ascii.eqb c "0") s.

(** The fields of a traceparent that decide its refusal: a version [ff], a
    trace id or a parent id that is all-zero or not the right number of
    hexadecimal digits (lower-case ones, as the rules of the fields have
    them). *)
Definition refused_field (traceparent : string) : Prop :=
  let parts := JS.split "-" traceparent in
  nth_error parts 0 = Some "ff"
  \/ (exists t, nth_error parts 1 = Some t
                /\ (all_zero t = true \/ hex_exactly 32 t = false))
  \/ (exists p, nth_error parts 2 = Some p
                /\ (all_zero p = true \/ hex_exactly 16 p = false)).

Definition example_config : Config.t :=
  Config.mk "xyz" "33" "2827902" true true.

Definition example_transaction : Transaction.t :=
  Transaction.mk "e8b91a159289ff74" "4bf92f3577b34da6a3ce929d0e0e4736"
    (Some true) (Some (JS.Fin (1123456 # 1000000))) (Some "7d3efb1b173fecfa")
    example_config.

Definition example_instance : TraceContext.t :=
  TraceContext.constructor example_transaction.

(** A tracestate with a list member that does not split on [=] into exactly
    two parts. *)
Definition malformed_member (tracestate : string) : Prop :=
  exists lm, In lm (members tracestate)
             /\ List.length (JS.split "=" lm) <> 2%nat.

Definition example_traceparent : string :=
  "00-4bf92f3577b34da6a3ce929d0e0e4736-00f067aa0ba902b7-01".

(** The tracestate [other=1,<key>@nr=<value>,another=2] and its members. *)
Definition sandwiched (key value : string) : string :=
  "other=1," ++ key ++ "@nr=" ++ value ++ ",another=2".

(** The policy table in the words of the specification: for each of the
    seven fields, when it is invalid.  [parentType] is invalid when its
    index does not resolve to one of App, Browser, Mobile. *)
Definition policy : list (string * (Intrinsics.t -> bool)) :=
  [ ("version", fun i => JS.isNaN (Intrinsics.version i));
    ("parentType",
     fun i => isNull (JSNum.array_at PARENT_TYPES (Intrinsics.parentType i)));
    ("accountId", fun i => isNull (Intrinsics.accountId i));
    ("appId", fun i => isNull (Intrinsics.appId i));
    ("sampled", fun i => present_and_NaN (Intrinsics.sampled i));
    ("priority", fun i => present_and_NaN (Intrinsics.priority i));
    ("timestamp", fun i => JS.isNaN (Intrinsics.timestamp i)) ].

(** The names of the fields of a table that fail on [i], in table order. *)
Definition failing_fields (table : list (string * (Intrinsics.t -> bool)))
  (i : Intrinsics.t) : list string :=
  map fst (filter (fun kv => snd kv i) table).

Fixpoint last_opt {A} (l : list A) : option A :=
  match l with
  | [] => None
  | [x] => Some x
  | _ :: r => last_opt r
  end.

(** The reason recorded for a failing field. *)
Definition reason_of (field : option string) : option string :=
  match field with
  | Some key => Some (key ++ " failed invalidation test")
  | None => None
  end.

(** The policy table without the row of [parentType]. *)
Definition recorded_policy : list (string * (Intrinsics.t -> bool)) :=
  filter (fun kv => negb (String.eqb (fst kv) "parentType")) policy.

(** An entry whose only fault is a parent type index outside the table. *)
Definition unknown_parent_type : Intrinsics.t :=
  Intrinsics.mk (JS.of_Z 0) (JS.of_Z 7) (Some "33") (Some "2827902")
    (Some "7d3efb1b173fecfa") (Some "e8b91a159289ff74")
    (Some (JS.of_Z 1)) (Some (JS.Fin (1123456 # 1000000)))
    (JS.of_Z 1569367663277).

Definition is_decimal_char (c : ascii) : bool :=
  let n := nat_of_ascii c in ((48 <=? n) && (n <=? 57))%nat.

Definition decimal (s : string) : bool := JS.forallb_string is_decimal_char s.

(** The value of the leading decimal digits of [s], continuing from [a]. *)
Fixpoint eval10 (a : Z) (s : string) : Z :=
  match s with
  | EmptyString => a
  | String c r =>
      match JS.radix_digit 10 c with
      | Some d => eval10 (a * 10 + d) r
      | None => a
      end
  end.

(** No character of [s] is one of the three delimiters of the formats. *)
Definition free_of_delimiters (s : string) : bool :=
  negb (has_char "-" s || has_char "," s || has_char "=" s).

(** An identifier as the agent generates them: lower-case hexadecimal, at
    most [n] digits, not zero. *)
Definition identifier (n : nat) (s : string) : bool :=
  JS.forallb_string lower_hex s && (String.length s <=? n)%nat
  && negb (all_zero s).

(** The parent id the traceparent getter uses. *)
Definition parent_id_used (self : TraceContext.t) (makeId : string) : string :=
  match Transaction.segment (TraceContext.transaction self) with
  | Some segment_id => if JS.truthy_string segment_id then segment_id else makeId
  | None => makeId
  end.

(** The positional fields the tracestate getter renders. *)
Definition encoded_span (self : TraceContext.t) : string :=
  let tx := TraceContext.transaction self in
  if Config.span_events_enabled (Transaction.config tx) then
    match Transaction.segment tx with
    | Some segment_id => segment_id
    | None => ""
    end
  else "".

Definition encoded_transaction_id (self : TraceContext.t) : string :=
  let tx := TraceContext.transaction self in
  if Config.transaction_events_enabled (Transaction.config tx)
  then Transaction.id tx else "".

Definition encoded_sampled (self : TraceContext.t) : string :=
  if truthy_flag (Transaction.sampled (TraceContext.transaction self))
  then "1" else "0".

Definition encoded_priority (self : TraceContext.t) : string :=
  match Transaction.priority (TraceContext.transaction self) with
  | Some p => if JS.truthy_number p then JS.toFixed 6 p else ""
  | None => ""
  end.

Definition vendor_value (self : TraceContext.t) (now : Z) : string :=
  let config := Transaction.config (TraceContext.transaction self) in
  JS.join "-"
    [ "0"; "0"; Config.account_id config; Config.primary_application_id config;
      encoded_span self; encoded_transaction_id self; encoded_sampled self;
      encoded_priority self; JS.string_of_Z now ].

Definition vendor_entry (self : TraceContext.t) (now : Z) : string :=
  trusted_key self ++ "@nr=" ++ vendor_value self now.

(** Two numbers of the same value. *)
Definition same_number (a b : JS.number) : Prop :=
  match a, b with
  | JS.NaN, JS.NaN => True
  | JS.Infinity s, JS.Infinity t => s = t
  | JS.Fin x, JS.Fin y => x == y
  | _, _ => False
  end.

Definition same_opt_number (a b : option JS.number) : Prop :=
  match a, b with
  | None, None => True
  | Some x, Some y => same_number x y
  | _, _ => False
  end.

(** A priority the agent can hold: none, or a positive number below 10^21
    with at most six decimals. *)
Definition well_formed_priority (p : option JS.number) : Prop :=
  match p with
  | None => True
  | Some (JS.Fin q) =>
      (0 < q)%Q /\ (q < inject_Z (10 ^ 21))%Q /\ exists k : Z, q == k # 1000000
  | Some _ => False
  end.

(** A unit of work with well-formed identifiers: trace id and parent id as
    the agent generates them; account id, application id and transaction id
    non-empty and free of the delimiters; a trusted account key without [,]
    and [=]; a well-formed priority; a clock after the epoch; and a stored
    pass-through value that is empty or a well-formed list. *)
Definition well_formed_unit_of_work (self : TraceContext.t) (makeId : string)
  (now : Z) : Prop :=
  let tx := TraceContext.transaction self in
  let config := Transaction.config tx in
  identifier 32 (Transaction.traceId tx) = true
  /\ identifier 16 (parent_id_used self makeId) = true
  /\ (Config.account_id config <> ""
      /\ free_of_delimiters (Config.account_id config) = true)
  /\ (Config.primary_application_id config <> ""
      /\ free_of_delimiters (Config.primary_application_id config) = true)
  /\ (Transaction.id tx <> "" /\ free_of_delimiters (Transaction.id tx) = true)
  /\ (has_char "," (Config.trusted_account_key config) = false
      /\ has_char "=" (Config.trusted_account_key config) = false)
  /\ well_formed_priority (Transaction.priority tx)
  /\ 0 <= now < 10 ^ 21
  /\ match TraceContext._traceStateRaw self with
     | Some raw => raw = "" \/ syntactically_valid raw = true
     | None => True
     end.

(** A sender that holds a pass-through value from an earlier request. *)
Definition example_sender : TraceContext.t :=
  TraceContext.mk example_transaction None None (Some "other=1,another=2") [].

(** A traceparent of a version other than [00] that ends before its fourth
    field, every field it has passing its rule. *)
Definition missing_field (traceparent : string) : Prop :=
  let parts := JS.split "-" traceparent in
  exists v,
    nth_error parts 0 = Some v /\ VERSION_VALID_RGX v = true /\ v <> "00"
    /\ (List.length parts = 1%nat
        \/ (List.length parts = 2%nat
            /\ exists t, nth_error parts 1 = Some t /\ TRACEID_VALID_RGX t = true)
        \/ (List.length parts = 3%nat
            /\ exists t p, nth_error parts 1 = Some t /\ TRACEID_VALID_RGX t = true
                           /\ nth_error parts 2 = Some p
                           /\ PARENTID_VALID_RGX p = true)).

Definition example_tracestate : string :=
  "other=1,xyz@nr=0-0-33-2827902-7d3efb1b173fecfa-e8b91a159289ff74-1-1.123456-1569367663277,another=2".

(** What the example instance answers on the example pair, a tenth of a
    second after the timestamp of the entry. *)
Definition example_outcome : TraceContextData.t * TraceContext.t :=
  Eval vm_compute in
    match acceptTraceContextPayload example_instance 1569367663377
            example_traceparent example_tracestate with
    | JS.Normal x => x
    | JS.Throw _ => (initial_data, example_instance)
    end.

Definition example_entry : string :=
  "xyz@nr=0-0-33-2827902-7d3efb1b173fecfa-e8b91a159289ff74-1-1.123456-1569367663277".

Definition example_value : string :=
  "0-0-33-2827902-7d3efb1b173fecfa-e8b91a159289ff74-1-1.123456-1569367663277".

(** The conditions of [well_formed_unit_of_work] other than the one on the
    priority. *)
Definition well_formed_identifiers (self : TraceContext.t) (makeId : string)
  (now : Z) : Prop :=
  let tx := TraceContext.transaction self in
  let config := Transaction.config tx in
  identifier 32 (Transaction.traceId tx) = true
  /\ identifier 16 (parent_id_used self makeId) = true
  /\ (Config.account_id config <> ""
      /\ free_of_delimiters (Config.account_id config) = true)
  /\ (Config.primary_application_id config <> ""
      /\ free_of_delimiters (Config.primary_application_id config) = true)
  /\ (Transaction.id tx <> "" /\ free_of_delimiters (Transaction.id tx) = true)
  /\ (has_char "," (Config.trusted_account_key config) = false
      /\ has_char "=" (Config.trusted_account_key config) = false)
  /\ 0 <= now < 10 ^ 21
  /\ match TraceContext._traceStateRaw self with
     | Some raw => raw = "" \/ syntactically_valid raw = true
     | None => True
     end.

(** What the receiver reads in the priority field the sender rendered. *)
Definition priority_read (self : TraceContext.t) : option JS.number :=
  unless_null JS.parseFloat
    (if String.eqb (encoded_priority self) "" then None
     else Some (encoded_priority self)).

(** The list members of the pass-through value the sender renders. *)
Definition forwarded_members (self : TraceContext.t) : list string :=
  match TraceContext._traceStateRaw self with
  | Some raw => if JS.truthy_string raw then members raw else []
  | None => []
  end.





(** The example sender with a priority of zero. *)
Definition zero_priority_sender : TraceContext.t :=
  TraceContext.constructor
    (Transaction.mk "e8b91a159289ff74" "4bf92f3577b34da6a3ce929d0e0e4736"
       (Some true) (Some (JS.of_Z 0))
       (Some "7d3efb1b173fecfa") example_config).


(** A vendor value without its parent type field, and one whose parent type
    is an index outside the table. *)
Definition missing_parent_type : string :=
  "0--33-2827902-7d3efb1b173fecfa-e8b91a159289ff74-1-1.123456-1569367663277".

Definition parent_type_out_of_range : string :=
  "0-7-33-2827902-7d3efb1b173fecfa-e8b91a159289ff74-1-1.123456-1569367663277".

(** ** The built-ins on sample inputs *)

Example split_trailing : JS.split "," "a,b," = ["a"; "b"; ""].
Proof. reflexivity. Qed.

Example split_empty : JS.split "-" "" = [""].
Proof. reflexivity. Qed.

Example parseInt_prefix : JS.parseInt "12abc" 0 = JS.of_Z 12.
Proof. reflexivity. Qed.

Example parseInt_hex : JS.parseInt "0x1f" 0 = JS.of_Z 31.
Proof. reflexivity. Qed.

Example parseInt_null : JS.parseInt (JS.ToString None) 0 = JS.NaN.
Proof. reflexivity. Qed.

Example parseFloat_priority : JS.parseFloat "1.123456" = JS.Fin (1123456 # 1000000).
Proof. reflexivity. Qed.

Example parseFloat_exponent : JS.parseFloat "  +2.5e+3x" = JS.Fin (inject_Z 2500).
Proof. reflexivity. Qed.

Example toFixed_priority : JS.toFixed 6 (JS.Fin (1123456 # 1000000)) = "1.123456".
Proof. reflexivity. Qed.

Example toFixed_small : JS.toFixed 6 (JS.Fin (5 # 10000000)) = "0.000001".
Proof. reflexivity. Qed.

Example string_of_Z_timestamp : JS.string_of_Z 1569367663277 = "1569367663277".
Proof. reflexivity. Qed.

(** ** Strings and arrays *)

Section SplitJoin.

Variable sep : ascii.

Lemma split_not_nil (s : string) : JS.split sep s <> [].
Proof.
  destruct s as [|c r]; simpl; [discriminate|].
  destruct (Ascii.eqb c sep); [discriminate|].
  destruct (JS.split sep r); discriminate.
Qed.

Lemma join_cons (x : string) (l : list string) :
  l <> [] ->
  JS.join (String sep "") (x :: l) = x ++ String sep (JS.join (String sep "") l).
Proof.
  destruct l; [congruence|reflexivity].
Qed.

Lemma join_head (c : ascii) (h : string) (t : list string) :
  JS.join (String sep "") (String c h :: t)
  = String c (JS.join (String sep "") (h :: t)).
Proof.
  destruct t; reflexivity.
Qed.

Lemma join_split (s : string) : JS.join (String sep "") (JS.split sep s) = s.
Proof.
  induction s as [|c r IH]; [reflexivity|].
  simpl. destruct (Ascii.eqb_spec c sep) as [->|Hne].
  - rewrite join_cons by apply split_not_nil. simpl. now rewrite IH.
  - pose proof (split_not_nil r) as Hnil.
    destruct (JS.split sep r) as [|h t]; [congruence|].
    now rewrite join_head, IH.
Qed.

Lemma split_no_sep (a : string) :
  has_char sep a = false -> JS.split sep a = [a].
Proof.
  induction a as [|c r IH]; [reflexivity|].
  unfold has_char; simpl. intros H.
  apply orb_false_iff in H as [Hc Hr].
  rewrite Hc. fold (has_char sep r) in Hr. now rewrite (IH Hr).
Qed.

Lemma split_app (a b : string) :
  has_char sep a = false ->
  JS.split sep (a ++ String sep b) = a :: JS.split sep b.
Proof.
  induction a as [|c r IH]; intros H.
  - simpl. now rewrite Ascii.eqb_refl.
  - unfold has_char in H; simpl in H.
    apply orb_false_iff in H as [Hc Hr].
    simpl. rewrite Hc. fold (has_char sep r) in Hr. now rewrite (IH Hr).
Qed.

Lemma split_join (l : list string) :
  l <> [] ->
  Forall (fun x => has_char sep x = false) l ->
  JS.split sep (JS.join (String sep "") l) = l.
Proof.
  induction l as [|x l IH]; [congruence|].
  intros _ Hall. inversion Hall as [|? ? Hx Hl]; subst.
  destruct l as [|y l'].
  - simpl. now apply split_no_sep.
  - rewrite join_cons by discriminate.
    rewrite split_app by assumption.
    f_equal. apply IH; [discriminate|assumption].
Qed.

End SplitJoin.

Lemma has_char_app (c : ascii) (a b : string) :
  has_char c (a ++ b) = has_char c a || has_char c b.
Proof.
  unfold has_char. induction a as [|x r IH]; [reflexivity|].
  simpl. now rewrite IH, orb_assoc.
Qed.

Lemma forallb_string_app (p : ascii -> bool) (a b : string) :
  JS.forallb_string p (a ++ b) = JS.forallb_string p a && JS.forallb_string p b.
Proof.
  induction a as [|x r IH]; [reflexivity|].
  simpl. now rewrite IH, andb_assoc.
Qed.

Lemma forallb_string_no_char (p : ascii -> bool) (c : ascii) (s : string) :
  p c = false -> JS.forallb_string p s = true -> has_char c s = false.
Proof.
  intros Hc. unfold has_char. induction s as [|x r IH]; [reflexivity|].
  simpl. intros H. apply andb_true_iff in H as [Hx Hr].
  rewrite (IH Hr), orb_false_r.
  destruct (Ascii.eqb_spec x c); [congruence|reflexivity].
Qed.

Section FindSplice.

Context {A B : Type}.
Variable f : A -> B.
Variable p : B -> bool.

Lemma findIndex_none (l : list A) :
  JS.findIndex p (map f l) = None ->
  find (fun x => p (f x)) l = None /\ remove_first (fun x => p (f x)) l = l.
Proof.
  induction l as [|x r IH]; [now split|].
  simpl. destruct (p (f x)); [discriminate|].
  destruct (JS.findIndex p (map f r)); [discriminate|].
  intros _. destruct (IH eq_refl) as [H1 H2]. now rewrite H2.
Qed.

Lemma findIndex_some (l : list A) (i : nat) :
  JS.findIndex p (map f l) = Some i ->
  exists e,
    find (fun x => p (f x)) l = Some e /\
    JS.splice1 i l = ([e], remove_first (fun x => p (f x)) l) /\
    snd (JS.splice1 i (map f l)) = map f (remove_first (fun x => p (f x)) l).
Proof.
  revert i. induction l as [|x r IH]; [discriminate|].
  intros i. simpl. destruct (p (f x)) eqn:Hp.
  - intros [= <-]. exists x. now repeat split.
  - destruct (JS.findIndex p (map f r)) as [j|]; [|discriminate].
    intros [= <-]. destruct (IH j eq_refl) as (e & He & Hs & Hm).
    exists e. simpl. rewrite Hs. repeat split; [assumption|].
    destruct (JS.splice1 j (map f r)) as [rem rest]. simpl in *. now rewrite Hm.
Qed.

End FindSplice.

Lemma remove_first_map {A B} (f : A -> B) (p : B -> bool) (l : list A) :
  map f (remove_first (fun x => p (f x)) l) = remove_first p (map f l).
Proof.
  induction l as [|x r IH]; [reflexivity|].
  simpl. destruct (p (f x)); [reflexivity|]. simpl. now rewrite IH.
Qed.

(** ** The tracestate parser *)

Lemma map_members_valid (l : list string) :
  forallb well_formed_member l = true ->
  map_members l = (map key_of l, None).
Proof.
  induction l as [|lm r IH]; [reflexivity|].
  simpl. intros H. apply andb_true_iff in H as [Hlm Hr].
  rewrite (IH Hr). unfold well_formed_member in Hlm. now rewrite Hlm.
Qed.

Lemma map_members_invalid (l : list string) :
  forallb well_formed_member l = false ->
  snd (map_members l) = Some false.
Proof.
  induction l as [|lm r IH]; [discriminate|].
  simpl. intros H. destruct (map_members r) as [vs valid].
  unfold well_formed_member in H.
  destruct (List.length (JS.split "=" lm) =? 2)%nat; simpl in *; [|reflexivity].
  now apply IH.
Qed.

(** What the parser answers on a tracestate with a malformed list member. *)
Lemma parse_tracestate_invalid (self : TraceContext.t) (tracestate : string) :
  syntactically_valid tracestate = false ->
  exists vendors,
    _validateAndParseTraceStateHeader self tracestate
    = JS.Normal (TraceStateData.mk false None None (Some false) None None vendors).
Proof.
  intros H. unfold _validateAndParseTraceStateHeader.
  unfold syntactically_valid, members in H.
  pose proof (map_members_invalid _ H) as Hm.
  destruct (map_members (JS.split "," tracestate)) as [vs valid].
  simpl in Hm. subst valid. simpl. now exists vs.
Qed.

Lemma find_forallb {A} (p q : A -> bool) (l : list A) (e : A) :
  forallb q l = true -> find p l = Some e -> q e = true.
Proof.
  induction l as [|x r IH]; [discriminate|].
  simpl. intros H. apply andb_true_iff in H as [Hx Hr].
  destruct (p x); [now intros [= <-]|now apply IH].
Qed.

Lemma well_formed_member_value (lm : string) :
  well_formed_member lm = true -> exists v, value_of lm = Some v.
Proof.
  unfold well_formed_member, value_of.
  destruct (JS.split "=" lm) as [|a [|b l]]; try discriminate.
  intros _. now exists b.
Qed.

Lemma parse_tracestate_valid (self : TraceContext.t) (tracestate : string) :
  syntactically_valid tracestate = true ->
  _validateAndParseTraceStateHeader self tracestate
  = JS.Normal (parsed_state self tracestate).
Proof.
  intros H. unfold _validateAndParseTraceStateHeader, parsed_state.
  unfold syntactically_valid, members in *.
  rewrite (map_members_valid _ H). simpl.
  fold (trusted_key self).
  destruct (JS.findIndex (same_key (trusted_key self ++ "@nr"))
              (map key_of (JS.split "," tracestate))) as [i|] eqn:Hi.
  - destruct (findIndex_some key_of _ _ _ Hi) as (e & He & Hs & Hm).
    fold (is_vendor_entry self) in He, Hs, Hm.
    rewrite Hm, Hs, He. simpl.
    destruct (well_formed_member_value e (find_forallb _ _ _ _ H He)) as [v Hv].
    unfold value_of in *.
    destruct (JS.split "=" e) as [|a [|b l]]; simpl in Hv; try discriminate.
    injection Hv as ->. simpl.
    now destruct (Validated.entryValid (_validateAndParseIntrinsics v)).
  - destruct (findIndex_none key_of _ _ Hi) as [Hf Hr].
    fold (is_vendor_entry self) in Hf. rewrite Hf.
    now rewrite join_split.
Qed.

(** The tracestate parser answers on every input. *)
Lemma parse_tracestate_total (self : TraceContext.t) (tracestate : string) :
  exists tsd, _validateAndParseTraceStateHeader self tracestate = JS.Normal tsd.
Proof.
  destruct (syntactically_valid tracestate) eqn:H.
  - eexists. now apply parse_tracestate_valid.
  - destruct (parse_tracestate_invalid self _ H) as [vs Hvs]. eauto.
Qed.

(** ** The orchestrator, case by case *)

Lemma accepted_traceparent_truthy (traceparent traceId parentId : string) :
  accepted_traceparent traceparent traceId parentId ->
  JS.truthy_string traceparent = true.
Proof.
  intros (v & f & H). destruct traceparent; [discriminate H|reflexivity].
Qed.

Lemma syntactically_valid_truthy (tracestate : string) :
  syntactically_valid tracestate = true -> JS.truthy_string tracestate = true.
Proof.
  destruct tracestate; [discriminate|reflexivity].
Qed.

Ltac enter_accept Htp :=
  unfold acceptTraceContextPayload;
  rewrite (accepted_traceparent_truthy _ _ _ Htp);
  let Hparse := fresh "Hparse" in
  destruct Htp as (?version & ?flags & Hparse); rewrite Hparse;
  cbn [negb JS.bind TraceParentInfo.entryValid TraceParentInfo.traceId
       TraceParentInfo.parentId].

Section Accept.

Variables (self : TraceContext.t) (now : Z).
Variables (traceparent traceId parentId : string).
Hypothesis Htp : accepted_traceparent traceparent traceId parentId.

Lemma accept_traceparent_only :
  acceptTraceContextPayload self now traceparent ""
  = JS.Normal (traceparent_only traceId parentId, self).
Proof.
  enter_accept Htp. reflexivity.
Qed.

Lemma accept_malformed_tracestate (tracestate : string) :
  syntactically_valid tracestate = false ->
  acceptTraceContextPayload self now traceparent tracestate
  = JS.Normal (traceparent_only traceId parentId, self).
Proof.
  intros Hts. enter_accept Htp.
  destruct (JS.truthy_string tracestate); [|reflexivity].
  destruct (parse_tracestate_invalid self _ Hts) as [vs ->].
  reflexivity.
Qed.

Lemma accept_no_entry (tracestate : string) :
  syntactically_valid tracestate = true ->
  find (is_vendor_entry self) (members tracestate) = None ->
  acceptTraceContextPayload self now traceparent tracestate
  = JS.Normal (traceparent_only traceId parentId,
               TraceContext.set_tracingVendors
                 (TraceContext.set_traceStateRaw self (Some tracestate))
                 (Some (JS.join_opt "," (map key_of (members tracestate))))).
Proof.
  intros Hts Hfind. enter_accept Htp.
  rewrite (syntactically_valid_truthy _ Hts).
  rewrite (parse_tracestate_valid self _ Hts).
  unfold parsed_state. rewrite Hfind. reflexivity.
Qed.

Lemma accept_entry_invalid (tracestate entry value : string) :
  syntactically_valid tracestate = true ->
  find (is_vendor_entry self) (members tracestate) = Some entry ->
  value_of entry = Some value ->
  Validated.entryValid (_validateAndParseIntrinsics value) = false ->
  acceptTraceContextPayload self now traceparent tracestate
  = JS.Normal (traceparent_only traceId parentId,
               TraceContext.recordSupportability
                 (stored self (remove_first (is_vendor_entry self) (members tracestate)))
                 "TraceContext/TraceState/InvalidNrEntry").
Proof.
  intros Hts Hfind Hval Hinvalid. enter_accept Htp.
  rewrite (syntactically_valid_truthy _ Hts).
  rewrite (parse_tracestate_valid self _ Hts).
  unfold parsed_state. rewrite Hfind, Hval, Hinvalid. reflexivity.
Qed.

Lemma accept_entry_valid (tracestate entry value : string) :
  syntactically_valid tracestate = true ->
  find (is_vendor_entry self) (members tracestate) = Some entry ->
  value_of entry = Some value ->
  Validated.entryValid (_validateAndParseIntrinsics value) = true ->
  let intrinsics := _validateAndParseIntrinsics value in
  acceptTraceContextPayload self now traceparent tracestate
  = JS.Normal
      (TraceContextData.mk true true false (Some traceId) (Some parentId)
         (Validated.parentType intrinsics) (Validated.accountId intrinsics)
         (Validated.appId intrinsics) (Validated.transactionId intrinsics)
         (Some (Validated.sampled intrinsics)) (Validated.priority intrinsics)
         (Some (transport_duration now (Validated.timestamp intrinsics))),
       TraceContext.recordSupportability
         (TraceContext.set_trustedParentId
            (stored self (remove_first (is_vendor_entry self) (members tracestate)))
            (Validated.spanId intrinsics))
         "TraceContext/Accept/Success").
Proof.
  intros Hts Hfind Hval Hvalid. enter_accept Htp.
  rewrite (syntactically_valid_truthy _ Hts).
  rewrite (parse_tracestate_valid self _ Hts).
  unfold parsed_state. rewrite Hfind, Hval, Hvalid. reflexivity.
Qed.

End Accept.

(** The orchestrator answers whenever the traceparent parser does: an
    exception can only come from there. *)
Lemma accept_total (self : TraceContext.t) (now : Z)
  (traceparent tracestate : string) (info : TraceParentInfo.t) :
  _validateAndParseTraceParentHeader traceparent = JS.Normal info ->
  exists result, acceptTraceContextPayload self now traceparent tracestate
                 = JS.Normal result.
Proof.
  intros H. unfold acceptTraceContextPayload. rewrite H. cbn [JS.bind].
  destruct (JS.truthy_string traceparent); cbn [negb]; [|eauto].
  destruct (TraceParentInfo.entryValid info); [|eauto].
  destruct (JS.truthy_string tracestate); cbn [negb]; [|eauto].
  destruct (syntactically_valid tracestate) eqn:Hts.
  - rewrite (parse_tracestate_valid self _ Hts). cbn [JS.bind].
    unfold parsed_state.
    destruct (find (is_vendor_entry self) (members tracestate)); cbn; [|eauto].
    destruct (Validated.entryValid _); cbn; eauto.
  - destruct (parse_tracestate_invalid self _ Hts) as [vs ->]. cbn. eauto.
Qed.

(** ** The traceparent parser *)

Lemma append_assoc (a b c : string) : (a ++ b) ++ c = a ++ (b ++ c).
Proof.
  induction a as [|x a IH]; [reflexivity|]. simpl. now rewrite IH.
Qed.

Lemma length_append (a b : string) :
  String.length (a ++ b) = (String.length a + String.length b)%nat.
Proof.
  induction a as [|x a IH]; [reflexivity|]. simpl. now rewrite IH.
Qed.

Lemma length_repeat_char (c : ascii) (n : nat) :
  String.length (JS.repeat_char c n) = n.
Proof.
  induction n as [|n IH]; [reflexivity|]. simpl. now rewrite IH.
Qed.

Lemma prefix_repeat_all (c : ascii) (s : string) :
  JS.forallb_string (fun x => Ascii.eqb x c) s = true ->
  String.prefix (JS.repeat_char c (String.length s)) s = true.
Proof.
  induction s as [|x r IH]; [reflexivity|].
  simpl. intros H. apply andb_true_iff in H as [Hx Hr].
  apply Ascii.eqb_eq in Hx. subst x.
  destruct (ascii_dec c c); [now apply IH|congruence].
Qed.

Lemma prefix_repeat_inv (c : ascii) (s : string) :
  String.prefix (JS.repeat_char c (String.length s)) s = true ->
  JS.forallb_string (fun x => Ascii.eqb x c) s = true.
Proof.
  induction s as [|x r IH]; [reflexivity|].
  simpl. destruct (ascii_dec c x) as [->|]; [|discriminate].
  intros H. now rewrite Ascii.eqb_refl, IH.
Qed.

(** The identifier rule refuses the all-zero value and anything that is not
    [n] lower-case hexadecimal digits. *)
Lemma identifier_rule_refuses (n : nat) (s : string) :
  all_zero s = true \/ hex_exactly n s = false ->
  not_repeat "0" n s && hex_exactly n s = false.
Proof.
  intros [Hz|Hh]; [|now rewrite Hh, andb_false_r].
  destruct (hex_exactly n s) eqn:Hh; [|now rewrite andb_false_r].
  unfold hex_exactly in Hh. apply andb_true_iff in Hh as [Hlen _].
  apply Nat.eqb_eq in Hlen. subst n.
  unfold not_repeat. now rewrite (prefix_repeat_all "0" s Hz).
Qed.

Lemma nth_error_before {A} (l : list A) (i j : nat) (x : A) :
  nth_error l j = Some x -> (i <= j)%nat -> exists y, nth_error l i = Some y.
Proof.
  intros Hj Hle.
  destruct (nth_error l i) as [y|] eqn:Hi; [eauto|].
  apply nth_error_None in Hi.
  assert (nth_error l j <> None) as Hlt by congruence.
  apply nth_error_Some in Hlt. lia.
Qed.

Lemma parse_traceparent_refused (traceparent : string) :
  refused_field traceparent ->
  _validateAndParseTraceParentHeader traceparent
  = JS.Normal TraceParentInfo.invalid.
Proof.
  unfold refused_field, _validateAndParseTraceParentHeader.
  set (parts := JS.split "-" traceparent). intros H.
  destruct (negb (JS.truthy_string traceparent)); [reflexivity|].
  match goal with |- (if ?c then _ else _) = _ => destruct c end;
    [reflexivity|].
  destruct H as [Hv | [(t & Ht & Hbad) | (p & Hp & Hbad)]].
  - rewrite Hv. reflexivity.
  - rewrite Ht.
    destruct (nth_error_before parts 0 1 t Ht) as [v Hv]; [lia|]. rewrite Hv.
    apply identifier_rule_refuses in Hbad.
    unfold match_rgx at 1 2. unfold TRACEID_VALID_RGX. rewrite Hbad.
    now destruct (VERSION_VALID_RGX v).
  - rewrite Hp.
    destruct (nth_error_before parts 0 2 p Hp) as [v Hv]; [lia|]. rewrite Hv.
    destruct (nth_error_before parts 1 2 p Hp) as [t Ht]; [lia|]. rewrite Ht.
    apply identifier_rule_refuses in Hbad.
    unfold match_rgx at 1 2 3. unfold PARENTID_VALID_RGX. rewrite Hbad.
    now destruct (VERSION_VALID_RGX v), (TRACEID_VALID_RGX t).
Qed.

(** ** Properties of the codec *)

(** C1 (the decode path never raises): fails on the code.  A traceparent
    whose version field passes the version rule, is not [00], and is
    followed by fewer than three further fields makes the parser call
    [match] on [undefined]; the exception leaves
    [_validateAndParseTraceParentHeader] and [acceptTraceContextPayload]
    alike, whatever the tracestate. *)
Theorem C1_short_traceparent_raises (self : TraceContext.t) (now : Z)
  (tracestate : string) :
  _validateAndParseTraceParentHeader "01" = JS.Throw JS.TypeError
  /\ acceptTraceContextPayload self now "01" tracestate = JS.Throw JS.TypeError
  /\ acceptTraceContextPayload self now
       "cc-4bf92f3577b34da6a3ce929d0e0e4736-00f067aa0ba902b7" tracestate
     = JS.Throw JS.TypeError.
Proof.
  repeat split; reflexivity.
Qed.

(** C3 (end-to-end example): with trusted account key [xyz], the example
    pair of the specification decodes to the listed trace id, parent span
    id, parent type, account id, application id, transaction id, sampled
    flag and priority, with the tracestate accepted. *)
Theorem C3_example_decodes (self : TraceContext.t) (now : Z) :
  trusted_key self = "xyz" ->
  exists result self',
    acceptTraceContextPayload self now
      "00-4bf92f3577b34da6a3ce929d0e0e4736-00f067aa0ba902b7-01"
      "xyz@nr=0-0-33-2827902-7d3efb1b173fecfa-e8b91a159289ff74-1-1.123456-1569367663277"
    = JS.Normal (result, self')
    /\ TraceContextData.traceId result = Some "4bf92f3577b34da6a3ce929d0e0e4736"
    /\ TraceContextData.parentSpanId result = Some "00f067aa0ba902b7"
    /\ TraceContextData.parentType result = Some "App"
    /\ TraceContextData.accountId result = Some "33"
    /\ TraceContextData.appId result = Some "2827902"
    /\ TraceContextData.transactionId result = Some "e8b91a159289ff74"
    /\ TraceContextData.sampled result = Some true
    /\ TraceContextData.priority result = Some (JS.Fin (1123456 # 1000000))
    /\ TraceContextData.acceptedTracestate result = true.
Proof.
  intros Hkey.
  assert (accepted_traceparent
            "00-4bf92f3577b34da6a3ce929d0e0e4736-00f067aa0ba902b7-01"
            "4bf92f3577b34da6a3ce929d0e0e4736" "00f067aa0ba902b7") as Htp
    by (exists "00", "01"; reflexivity).
  assert (find (is_vendor_entry self)
            (members "xyz@nr=0-0-33-2827902-7d3efb1b173fecfa-e8b91a159289ff74-1-1.123456-1569367663277")
          = Some "xyz@nr=0-0-33-2827902-7d3efb1b173fecfa-e8b91a159289ff74-1-1.123456-1569367663277")
    as Hfind
    by (unfold is_vendor_entry; rewrite Hkey; reflexivity).
  pose proof (accept_entry_valid self now _ _ _ Htp
                "xyz@nr=0-0-33-2827902-7d3efb1b173fecfa-e8b91a159289ff74-1-1.123456-1569367663277"
                _ "0-0-33-2827902-7d3efb1b173fecfa-e8b91a159289ff74-1-1.123456-1569367663277"
                eq_refl Hfind eq_refl eq_refl) as H.
  cbv zeta in H. do 2 eexists. split; [exact H|].
  repeat split; reflexivity.
Qed.

Lemma C3_example_decodes_witness :
  exists result self',
    acceptTraceContextPayload example_instance 1569367663377
      "00-4bf92f3577b34da6a3ce929d0e0e4736-00f067aa0ba902b7-01"
      "xyz@nr=0-0-33-2827902-7d3efb1b173fecfa-e8b91a159289ff74-1-1.123456-1569367663277"
    = JS.Normal (result, self')
    /\ TraceContextData.traceId result = Some "4bf92f3577b34da6a3ce929d0e0e4736"
    /\ TraceContextData.parentSpanId result = Some "00f067aa0ba902b7"
    /\ TraceContextData.parentType result = Some "App"
    /\ TraceContextData.accountId result = Some "33"
    /\ TraceContextData.appId result = Some "2827902"
    /\ TraceContextData.transactionId result = Some "e8b91a159289ff74"
    /\ TraceContextData.sampled result = Some true
    /\ TraceContextData.priority result = Some (JS.Fin (1123456 # 1000000))
    /\ TraceContextData.acceptedTracestate result = true.
Proof.
  apply (C3_example_decodes example_instance 1569367663377). reflexivity.
Defined.

(** C4 (refused traceparent fields): a traceparent whose trace id field is
    all-zero or not exactly 32 hexadecimal digits, whose parent id field is
    all-zero or not exactly 16 hexadecimal digits, or whose version field is
    [ff], is answered with [acceptedTraceparent = false], whatever the other
    fields and the tracestate. *)
Theorem C4_refused_fields (self : TraceContext.t) (now : Z)
  (traceparent tracestate : string) :
  refused_field traceparent ->
  exists result self',
    acceptTraceContextPayload self now traceparent tracestate
    = JS.Normal (result, self')
    /\ TraceContextData.acceptedTraceparent result = false.
Proof.
  intros H. apply parse_traceparent_refused in H.
  unfold acceptTraceContextPayload. rewrite H.
  destruct (JS.truthy_string traceparent); cbn; eauto.
Qed.

Lemma C4_refused_fields_witness :
  refused_field "00-00000000000000000000000000000000-00f067aa0ba902b7-01"
  /\ exists result self',
       acceptTraceContextPayload example_instance 0
         "00-00000000000000000000000000000000-00f067aa0ba902b7-01" "a=1"
       = JS.Normal (result, self')
       /\ TraceContextData.acceptedTraceparent result = false.
Proof.
  assert (refused_field "00-00000000000000000000000000000000-00f067aa0ba902b7-01")
    as H.
  { right; left. exists "00000000000000000000000000000000".
    split; [reflexivity|left; reflexivity]. }
  split; [exact H|].
  exact (C4_refused_fields example_instance 0 _ "a=1" H).
Defined.

Lemma malformed_member_invalid (tracestate : string) :
  malformed_member tracestate -> syntactically_valid tracestate = false.
Proof.
  intros (lm & Hin & Hlen).
  destruct (syntactically_valid tracestate) eqn:H; [|reflexivity].
  unfold syntactically_valid in H. rewrite forallb_forall in H.
  specialize (H lm Hin). unfold well_formed_member in H.
  apply Nat.eqb_eq in H. contradiction.
Qed.

Lemma accept_malformed_any (self : TraceContext.t) (now : Z)
  (traceparent tracestate : string) :
  syntactically_valid tracestate = false ->
  acceptTraceContextPayload self now traceparent tracestate
  = acceptTraceContextPayload self now traceparent "".
Proof.
  intros Hts. unfold acceptTraceContextPayload.
  destruct (JS.truthy_string traceparent); [|reflexivity].
  destruct (_validateAndParseTraceParentHeader traceparent) as [info|e];
    [|reflexivity].
  cbn [negb JS.bind]. destruct (TraceParentInfo.entryValid info); [|reflexivity].
  destruct (JS.truthy_string tracestate); [|reflexivity].
  destruct (parse_tracestate_invalid self _ Hts) as [vs ->]. reflexivity.
Qed.

(** C5 (a malformed list member): the parser marks the whole tracestate
    invalid and extracts nothing from it; the orchestrator answers as it
    does without a tracestate, so after an accepted traceparent the result
    has [acceptedTraceparent = true], the trace id and parent span id of the
    traceparent, and [acceptedTracestate = false], and the instance is left
    as it was. *)
Theorem C5_malformed_member (self : TraceContext.t) (now : Z)
  (traceparent tracestate : string) :
  malformed_member tracestate ->
  (exists vendors,
      _validateAndParseTraceStateHeader self tracestate
      = JS.Normal (TraceStateData.mk false None None (Some false) None None vendors))
  /\ acceptTraceContextPayload self now traceparent tracestate
     = acceptTraceContextPayload self now traceparent ""
  /\ forall traceId parentId,
       accepted_traceparent traceparent traceId parentId ->
       exists result,
         acceptTraceContextPayload self now traceparent tracestate
         = JS.Normal (result, self)
         /\ TraceContextData.acceptedTraceparent result = true
         /\ TraceContextData.traceId result = Some traceId
         /\ TraceContextData.parentSpanId result = Some parentId
         /\ TraceContextData.acceptedTracestate result = false.
Proof.
  intros H. apply malformed_member_invalid in H.
  split; [now apply parse_tracestate_invalid|].
  split; [now apply accept_malformed_any|].
  intros traceId parentId Htp.
  exists (traceparent_only traceId parentId).
  split; [now apply accept_malformed_tracestate|].
  now repeat split.
Qed.

Lemma example_traceparent_accepted :
  accepted_traceparent example_traceparent
    "4bf92f3577b34da6a3ce929d0e0e4736" "00f067aa0ba902b7".
Proof.
  exists "00", "01". reflexivity.
Defined.

Lemma C5_malformed_member_witness :
  malformed_member "a=1,b,c=2"
  /\ exists result,
       acceptTraceContextPayload example_instance 0 example_traceparent "a=1,b,c=2"
       = JS.Normal (result, example_instance)
       /\ TraceContextData.acceptedTraceparent result = true
       /\ TraceContextData.traceId result = Some "4bf92f3577b34da6a3ce929d0e0e4736"
       /\ TraceContextData.parentSpanId result = Some "00f067aa0ba902b7"
       /\ TraceContextData.acceptedTracestate result = false.
Proof.
  assert (malformed_member "a=1,b,c=2") as H.
  { exists "b". split; [simpl; tauto|simpl; lia]. }
  split; [exact H|].
  exact (proj2 (proj2 (C5_malformed_member example_instance 0
                         example_traceparent "a=1,b,c=2" H))
           _ _ example_traceparent_accepted).
Defined.

Lemma find_none_remove_first {A} (p : A -> bool) (l : list A) :
  find p l = None -> remove_first p l = l.
Proof.
  induction l as [|x r IH]; [reflexivity|].
  simpl. destruct (p x); [discriminate|]. intros H. now rewrite IH.
Qed.

(** What the parser returns as [newTraceState] and [vendors] on a
    well-formed list: the members, and their keys, without the first entry
    of this vendor. *)
Lemma parsed_state_rest (self : TraceContext.t) (tracestate : string) :
  let rest := remove_first (is_vendor_entry self) (members tracestate) in
  TraceStateData.newTraceState (parsed_state self tracestate)
  = Some (JS.join "," rest)
  /\ TraceStateData.vendors (parsed_state self tracestate) = map key_of rest.
Proof.
  unfold parsed_state.
  destruct (find (is_vendor_entry self) (members tracestate)) eqn:Hf.
  - now split.
  - cbn zeta. rewrite (find_none_remove_first _ _ Hf).
    unfold members. now rewrite join_split.
Qed.

(** After an accepted traceparent and a well-formed tracestate the instance
    holds the pass-through value and the vendor keys. *)
Lemma accept_stores (self : TraceContext.t) (now : Z)
  (traceparent traceId parentId tracestate : string) :
  accepted_traceparent traceparent traceId parentId ->
  syntactically_valid tracestate = true ->
  let rest := remove_first (is_vendor_entry self) (members tracestate) in
  exists result self',
    acceptTraceContextPayload self now traceparent tracestate
    = JS.Normal (result, self')
    /\ TraceContext._traceStateRaw self' = Some (JS.join "," rest)
    /\ TraceContext.tracingVendors self'
       = Some (JS.join_opt "," (map key_of rest)).
Proof.
  intros Htp Hts rest. subst rest.
  destruct (find (is_vendor_entry self) (members tracestate)) as [e|] eqn:Hf.
  - assert (well_formed_member e = true) as Hwf
      by (eapply find_forallb; [exact Hts|exact Hf]).
    destruct (well_formed_member_value e Hwf) as [v Hv].
    destruct (Validated.entryValid (_validateAndParseIntrinsics v)) eqn:Hvalid.
    + rewrite (accept_entry_valid self now _ _ _ Htp _ _ _ Hts Hf Hv Hvalid).
      do 2 eexists. split; [reflexivity|]. now split.
    + rewrite (accept_entry_invalid self now _ _ _ Htp _ _ _ Hts Hf Hv Hvalid).
      do 2 eexists. split; [reflexivity|]. now split.
  - rewrite (accept_no_entry self now _ _ _ Htp _ Hts Hf).
    rewrite (find_none_remove_first _ _ Hf).
    do 2 eexists. split; [reflexivity|]. cbn.
    unfold members. now rewrite join_split.
Qed.

Lemma key_entry_split (key value : string) :
  has_char "=" key = false -> has_char "=" value = false ->
  JS.split "=" (key ++ "@nr=" ++ value) = [key ++ "@nr"; value].
Proof.
  intros Hk Hv.
  replace (key ++ "@nr=" ++ value) with ((key ++ "@nr") ++ String "=" value)
    by (now rewrite append_assoc).
  rewrite split_app by (now rewrite has_char_app, Hk).
  now rewrite split_no_sep.
Qed.

Lemma sandwiched_members (key value : string) :
  has_char "," key = false -> has_char "," value = false ->
  members (sandwiched key value)
  = ["other=1"; key ++ "@nr=" ++ value; "another=2"].
Proof.
  intros Hk Hv. unfold members, sandwiched.
  replace ("other=1," ++ key ++ "@nr=" ++ value ++ ",another=2")
    with ("other=1" ++ String "," ((key ++ "@nr=" ++ value)
                                   ++ String "," "another=2"))
    by (now rewrite !append_assoc).
  rewrite split_app by reflexivity.
  rewrite split_app by (now rewrite !has_char_app, Hk, Hv).
  reflexivity.
Qed.

Lemma other_is_no_vendor_key (key : string) :
  String.eqb "other" (key ++ "@nr") = false.
Proof.
  apply String.eqb_neq. intros H.
  assert (String.length key = 2%nat) as Hlen.
  { apply (f_equal String.length) in H. rewrite length_append in H.
    simpl in H. lia. }
  destruct key as [|a [|b [|c k]]]; simpl in Hlen; try lia.
  discriminate H.
Qed.

Lemma other_not_vendor_entry (self : TraceContext.t) :
  is_vendor_entry self "other=1" = false.
Proof.
  unfold is_vendor_entry. change (key_of "other=1") with (Some "other").
  cbn [same_key]. apply other_is_no_vendor_key.
Qed.

Lemma own_vendor_entry (self : TraceContext.t) (value : string) :
  has_char "=" (trusted_key self) = false ->
  has_char "=" value = false ->
  is_vendor_entry self (trusted_key self ++ "@nr=" ++ value) = true.
Proof.
  intros Hk Hv. unfold is_vendor_entry, key_of.
  rewrite key_entry_split by assumption.
  cbn [nth_error same_key]. apply String.eqb_refl.
Qed.

(** C6 (pass-through): after an accepted traceparent and a well-formed
    tracestate, [newTraceState], and the value stored on the instance, is the
    comma-rejoin of the list members without the first one whose key is
    [<trustedAccountKey>@nr], the others in their original order; for
    [other=1,<key>@nr=<value>,another=2] the stored value is
    [other=1,another=2]. *)
Theorem C6_pass_through (self : TraceContext.t) (now : Z)
  (traceparent traceId parentId : string) :
  accepted_traceparent traceparent traceId parentId ->
  (forall tracestate,
      syntactically_valid tracestate = true ->
      let rest := remove_first (is_vendor_entry self) (members tracestate) in
      (exists tsd,
          _validateAndParseTraceStateHeader self tracestate = JS.Normal tsd
          /\ TraceStateData.newTraceState tsd = Some (JS.join "," rest))
      /\ exists result self',
           acceptTraceContextPayload self now traceparent tracestate
           = JS.Normal (result, self')
           /\ TraceContext._traceStateRaw self' = Some (JS.join "," rest))
  /\ (forall value,
         has_char "," (trusted_key self) = false ->
         has_char "=" (trusted_key self) = false ->
         has_char "," value = false ->
         has_char "=" value = false ->
         exists result self',
           acceptTraceContextPayload self now traceparent
             (sandwiched (trusted_key self) value)
           = JS.Normal (result, self')
           /\ TraceContext._traceStateRaw self' = Some "other=1,another=2").
Proof.
  intros Htp.
  assert (forall tracestate,
             syntactically_valid tracestate = true ->
             exists result self',
               acceptTraceContextPayload self now traceparent tracestate
               = JS.Normal (result, self')
               /\ TraceContext._traceStateRaw self'
                  = Some (JS.join ","
                            (remove_first (is_vendor_entry self)
                               (members tracestate)))) as Hstore.
  { intros ts Hts.
    destruct (accept_stores self now _ _ _ ts Htp Hts) as (r & s & H1 & H2 & _).
    eauto. }
  split.
  - intros ts Hts rest. split; [|now apply Hstore].
    exists (parsed_state self ts).
    split; [now apply parse_tracestate_valid|apply parsed_state_rest].
  - intros value Hk1 Hk2 Hv1 Hv2.
    pose proof (sandwiched_members _ _ Hk1 Hv1) as Hm.
    assert (syntactically_valid (sandwiched (trusted_key self) value) = true)
      as Hts.
    { unfold syntactically_valid. rewrite Hm. cbn [forallb].
      unfold well_formed_member. now rewrite key_entry_split. }
    destruct (Hstore _ Hts) as (r & s & H1 & H2).
    exists r, s. split; [exact H1|].
    rewrite H2, Hm. cbn [remove_first].
    now rewrite other_not_vendor_entry, own_vendor_entry.
Qed.

Lemma C6_pass_through_witness :
  exists result self',
    acceptTraceContextPayload example_instance 0 example_traceparent
      "other=1,xyz@nr=0-0-33-2827902-7d3efb1b173fecfa-e8b91a159289ff74-1-1.123456-1569367663277,another=2"
    = JS.Normal (result, self')
    /\ TraceContext._traceStateRaw self' = Some "other=1,another=2".
Proof.
  exact (proj2 (C6_pass_through example_instance 0 example_traceparent _ _
                  example_traceparent_accepted)
           "0-0-33-2827902-7d3efb1b173fecfa-e8b91a159289ff74-1-1.123456-1569367663277"
           eq_refl eq_refl eq_refl eq_refl).
Defined.

(** A timestamp that does not read as a number invalidates the entry. *)
Lemma timestamp_NaN_invalid (i : Intrinsics.t) :
  JS.isNaN (Intrinsics.timestamp i) = true ->
  Validated.entryValid (validateIntrinsics i) = false.
Proof.
  intros H. unfold validateIntrinsics, run_invalidations, intrinsicInvalidations.
  cbn [fold_left fst snd]. rewrite H.
  destruct (JSNum.array_at PARENT_TYPES (Intrinsics.parentType i)) as [l|];
    [|reflexivity].
  cbn. now destruct (JS.truthy_string l).
Qed.





(** C8 as stated fails: the matched key is spliced out of [vendors], so the
    list is not the list of all keys. *)
Lemma C8_vendors_counterexample :
  ~ (forall self tracestate,
        syntactically_valid tracestate = true ->
        exists tsd,
          _validateAndParseTraceStateHeader self tracestate = JS.Normal tsd
          /\ TraceStateData.vendors tsd = map key_of (members tracestate)).
Proof.
  intros H.
  destruct (H example_instance "other=1,xyz@nr=0-0-33,another=2" eq_refl)
    as (tsd & Hparse & Hvendors).
  vm_compute in Hparse. injection Hparse as <-.
  vm_compute in Hvendors. discriminate Hvendors.
Qed.

(** C8, amended (vendor keys): on a well-formed tracestate, [vendors] is the
    list of the keys of the list members, in order, without the first key
    equal to [<trustedAccountKey>@nr]; after an accepted traceparent its
    comma-join is stored on the instance. *)
Theorem C8_vendors (self : TraceContext.t) (tracestate : string) :
  syntactically_valid tracestate = true ->
  let keys := map key_of (members tracestate) in
  let kept := remove_first (same_key (trusted_key self ++ "@nr")) keys in
  (exists tsd,
      _validateAndParseTraceStateHeader self tracestate = JS.Normal tsd
      /\ TraceStateData.vendors tsd = kept)
  /\ forall now traceparent traceId parentId,
       accepted_traceparent traceparent traceId parentId ->
       exists result self',
         acceptTraceContextPayload self now traceparent tracestate
         = JS.Normal (result, self')
         /\ TraceContext.tracingVendors self' = Some (JS.join_opt "," kept).
Proof.
  intros Hts keys kept.
  assert (kept = map key_of (remove_first (is_vendor_entry self)
                               (members tracestate))) as ->
    by (subst kept keys; symmetry;
        exact (remove_first_map key_of (same_key (trusted_key self ++ "@nr"))
                 (members tracestate))).
  split.
  - exists (parsed_state self tracestate).
    split; [now apply parse_tracestate_valid|apply parsed_state_rest].
  - intros now traceparent traceId parentId Htp.
    destruct (accept_stores self now _ _ _ _ Htp Hts) as (r & s & H1 & _ & H2).
    eauto.
Qed.

Lemma C8_vendors_witness :
  exists result self',
    acceptTraceContextPayload example_instance 0 example_traceparent
      "other=1,xyz@nr=0-0-33,another=2"
    = JS.Normal (result, self')
    /\ TraceContext.tracingVendors self' = Some "other,another".
Proof.
  exact (proj2 (C8_vendors example_instance "other=1,xyz@nr=0-0-33,another=2"
                  eq_refl)
           0 example_traceparent _ _ example_traceparent_accepted).
Defined.

(** C10 (absent sampled field): when the vendor entry of record is accepted
    and its seventh positional field is the empty string, the result is
    produced with [sampled] the boolean [false]. *)
Theorem C10_absent_sampled (self : TraceContext.t) (now : Z)
  (traceparent traceId parentId tracestate entry value : string) :
  accepted_traceparent traceparent traceId parentId ->
  syntactically_valid tracestate = true ->
  find (is_vendor_entry self) (members tracestate) = Some entry ->
  value_of entry = Some value ->
  Validated.entryValid (_validateAndParseIntrinsics value) = true ->
  nth_error (JS.split "-" value) 6 = Some "" ->
  exists result self',
    acceptTraceContextPayload self now traceparent tracestate
    = JS.Normal (result, self')
    /\ TraceContextData.acceptedTracestate result = true
    /\ TraceContextData.sampled result = Some false.
Proof.
  intros Htp Hts Hfind Hval Hvalid Hsampled.
  rewrite (accept_entry_valid self now _ _ _ Htp _ _ _ Hts Hfind Hval Hvalid).
  do 2 eexists. split; [reflexivity|]. split; [reflexivity|].
  cbn [TraceContextData.sampled]. f_equal.
  unfold _validateAndParseIntrinsics, validateIntrinsics.
  destruct (run_invalidations _ _ _) as [ok reason].
  cbn [Validated.sampled].
  unfold _parseIntrinsics, _extractTraceStateIntrinsics.
  cbn [Intrinsics.sampled RawIntrinsics.sampled].
  unfold positional. now rewrite Hsampled.
Qed.

Lemma C10_absent_sampled_witness :
  exists result self',
    acceptTraceContextPayload example_instance 0 example_traceparent
      "xyz@nr=0-0-33-2827902-7d3efb1b173fecfa-e8b91a159289ff74--1.123456-1569367663277"
    = JS.Normal (result, self')
    /\ TraceContextData.acceptedTracestate result = true
    /\ TraceContextData.sampled result = Some false.
Proof.
  exact (C10_absent_sampled example_instance 0 example_traceparent _ _
           "xyz@nr=0-0-33-2827902-7d3efb1b173fecfa-e8b91a159289ff74--1.123456-1569367663277"
           "xyz@nr=0-0-33-2827902-7d3efb1b173fecfa-e8b91a159289ff74--1.123456-1569367663277"
           "0-0-33-2827902-7d3efb1b173fecfa-e8b91a159289ff74--1.123456-1569367663277"
           example_traceparent_accepted eq_refl eq_refl eq_refl eq_refl eq_refl).
Defined.

(** ** The intrinsics validator against its policy table *)

Lemma array_at_In {A} (a : list A) (n : JS.number) (x : A) :
  JSNum.array_at a n = Some x -> In x a.
Proof.
  destruct n as [| |q]; try discriminate. unfold JSNum.array_at.
  destruct (_ && _); [|discriminate]. apply nth_error_In.
Qed.

Lemma parent_type_truthy (n : JS.number) (label : string) :
  JSNum.array_at PARENT_TYPES n = Some label -> JS.truthy_string label = true.
Proof.
  intros H. apply array_at_In in H.
  simpl in H. destruct H as [<-|[<-|[<-|[]]]]; reflexivity.
Qed.

(** What the validator computes on every coerced struct: all seven rows of
    the table are evaluated; [entryValid] is true exactly when no field of
    the policy table fails; the recorded reason is that of the last failing
    field, in table order, among the six rows other than [parentType]. *)
Lemma validator_against_policy (i : Intrinsics.t) :
  List.length intrinsicInvalidations = 7%nat
  /\ map fst intrinsicInvalidations = map fst policy
  /\ Validated.entryValid (validateIntrinsics i)
     = forallb (fun kv => negb (snd kv i)) policy
  /\ Validated.entryInvalidReason (validateIntrinsics i)
     = reason_of (last_opt (failing_fields recorded_policy i))
  /\ Validated.parentType (validateIntrinsics i)
     = JSNum.array_at PARENT_TYPES (Intrinsics.parentType i).
Proof.
  split; [reflexivity|]. split; [reflexivity|].
  unfold validateIntrinsics, run_invalidations, intrinsicInvalidations,
    failing_fields, recorded_policy, policy, isNull_number.
  cbn [fold_left filter forallb map fst snd negb String.eqb Ascii.eqb
       Bool.eqb last_opt].
  pose proof (parent_type_truthy (Intrinsics.parentType i)) as Hlabel.
  destruct (JSNum.array_at PARENT_TYPES (Intrinsics.parentType i)) as [label|];
    [rewrite (Hlabel label eq_refl)|];
    destruct (JS.isNaN (Intrinsics.version i)),
             (isNull (Intrinsics.accountId i)),
             (isNull (Intrinsics.appId i)),
             (present_and_NaN (Intrinsics.sampled i)),
             (present_and_NaN (Intrinsics.priority i)),
             (JS.isNaN (Intrinsics.timestamp i));
    repeat split; reflexivity.
Qed.

(** C9 (validation policy), the defect: a vendor value whose parent type
    field is missing, and one whose parent type is the index 7, fail the
    policy table on [parentType] alone; the validator lowers [entryValid]
    on both and records no reason, where the policy names [parentType].
    The row [parentType: isNull] of the table is applied to the number
    [parseInt] has already made of the field, so it never fires; the lookup
    after the loop lowers [entryValid] and sets no reason. *)
Theorem C9_parent_type_records_no_reason :
  failing_fields policy (_parseIntrinsics missing_parent_type) = ["parentType"]
  /\ Validated.entryValid (_validateAndParseIntrinsics missing_parent_type)
     = false
  /\ Validated.entryInvalidReason
       (_validateAndParseIntrinsics missing_parent_type) = None
  /\ failing_fields policy (_parseIntrinsics parent_type_out_of_range)
     = ["parentType"]
  /\ Validated.entryValid
       (_validateAndParseIntrinsics parent_type_out_of_range) = false
  /\ Validated.entryInvalidReason
       (_validateAndParseIntrinsics parent_type_out_of_range) = None
  /\ _parseIntrinsics parent_type_out_of_range = unknown_parent_type.
Proof.
  repeat split; vm_compute; reflexivity.
Qed.

(** ** Decimal notation: printing and reading back *)

Lemma decimal_char_facts (c : ascii) :
  is_decimal_char c = true ->
  JS.is_white_space c = false
  /\ (exists d, JS.radix_digit 10 c = Some d /\ 0 <= d < 10)
  /\ (forall r, JS.strip_sign (String c r) = (1, String c r))
  /\ (forall r, String.prefix "Infinity" (String c r) = false)
  /\ (forall d r, JS.strip_hex_prefix (String d (String c r)) = None)
  /\ lower_hex c = true.
Proof.
  destruct c as [[] [] [] [] [] [] [] []]; try discriminate; intros _;
    (split; [reflexivity|]);
    (split; [eexists; split; [vm_compute; reflexivity|lia]|]);
    (split; [reflexivity|]); (split; [reflexivity|]);
    (split; [|reflexivity]);
    intros d r; destruct d as [[] [] [] [] [] [] [] []]; reflexivity.
Qed.

Lemma digit_char_decimal (d : Z) :
  0 <= d < 10 ->
  is_decimal_char (JS.digit_char d) = true
  /\ JS.radix_digit 10 (JS.digit_char d) = Some d.
Proof.
  intros H.
  assert (d = 0 \/ d = 1 \/ d = 2 \/ d = 3 \/ d = 4 \/ d = 5 \/ d = 6
          \/ d = 7 \/ d = 8 \/ d = 9) as Hd by lia.
  repeat (destruct Hd as [->|Hd]; [now split|]). subst d. now split.
Qed.

Lemma digits_of_decimal (fuel : nat) (n : Z) (acc : string) :
  0 <= n -> decimal acc = true -> decimal (JS.digits_of fuel n acc) = true.
Proof.
  revert n acc. induction fuel as [|f IH]; intros n acc Hn Hacc; [exact Hacc|].
  simpl.
  assert (decimal (String (JS.digit_char (n mod 10)) acc) = true) as Hacc'.
  { unfold decimal; simpl.
    destruct (digit_char_decimal (n mod 10)) as [-> _];
      [apply Z.mod_pos_bound; lia|exact Hacc]. }
  destruct (n / 10 =? 0); [exact Hacc'|].
  apply IH; [apply Z.div_pos; lia|exact Hacc'].
Qed.

Lemma digits_of_not_empty (fuel : nat) (n : Z) (acc : string) :
  JS.digits_of (S fuel) n acc <> "".
Proof.
  revert n acc. induction fuel as [|f IH]; intros n acc; simpl.
  - destruct (n / 10 =? 0); discriminate.
  - destruct (n / 10 =? 0); [discriminate|]. apply IH.
Qed.

Lemma eval10_digits_of (fuel : nat) (n : Z) (acc : string) :
  0 <= n < 10 ^ Z.of_nat fuel ->
  eval10 0 (JS.digits_of fuel n acc) = eval10 n acc.
Proof.
  revert n acc. induction fuel as [|f IH]; intros n acc Hn.
  - simpl in *. assert (n = 0) as -> by lia. reflexivity.
  - cbn [JS.digits_of].
    assert (0 <= n mod 10 < 10) as Hmod by (apply Z.mod_pos_bound; lia).
    destruct (digit_char_decimal (n mod 10) Hmod) as [_ Hd].
    destruct (Z.eqb_spec (n / 10) 0) as [Hz|Hz].
    + cbn [eval10]. rewrite Hd. f_equal.
      pose proof (Z.div_mod n 10). lia.
    + rewrite IH.
      * cbn [eval10]. rewrite Hd. f_equal. pose proof (Z.div_mod n 10). lia.
      * rewrite Nat2Z.inj_succ, Z.pow_succ_r in Hn by lia.
        split; [apply Z.div_pos; lia|].
        apply Z.div_lt_upper_bound; lia.
Qed.

Lemma string_of_Z_decimal (n : Z) :
  0 <= n ->
  decimal (JS.string_of_Z n) = true
  /\ JS.string_of_Z n <> ""
  /\ eval10 0 (JS.string_of_Z n) = n.
Proof.
  intros Hn. unfold JS.string_of_Z.
  destruct (Z.ltb_spec n 0) as [|_]; [lia|].
  rewrite Z.abs_eq by lia.
  split; [now apply digits_of_decimal|].
  split; [apply digits_of_not_empty|].
  rewrite eval10_digits_of; [reflexivity|].
  split; [lia|].
  rewrite Nat2Z.inj_succ, Z2Nat.id by apply Z.log2_nonneg.
  destruct (Z.eq_dec n 0) as [->|Hnz]; [reflexivity|].
  pose proof (Z.log2_spec n ltac:(lia)) as [_ Hlt].
  eapply Z.lt_le_trans; [exact Hlt|].
  apply Z.pow_le_mono_l. lia.
Qed.

(** Reading a run of decimal digits that ends the string or stops at a
    character that is no digit. *)
Lemma span_digits_decimal (a rest : string) :
  decimal a = true ->
  (match rest with
   | EmptyString => True
   | String c _ => JS.radix_digit 10 c = None
   end) ->
  exists ds,
    JS.span_digits 10 (a ++ rest) = (ds, rest)
    /\ List.length ds = String.length a
    /\ forall acc, fold_left (fun x d => x * 10 + d) ds acc = eval10 acc a.
Proof.
  intros Ha Hrest. induction a as [|c r IH].
  - exists []. simpl. destruct rest as [|c r]; [now repeat split|].
    simpl. rewrite Hrest. now repeat split.
  - unfold decimal in Ha; simpl in Ha. apply andb_true_iff in Ha as [Hc Hr].
    destruct (IH Hr) as (ds & Hspan & Hlen & Hval).
    destruct (decimal_char_facts c Hc) as (_ & (d & Hd & _) & _).
    exists (d :: ds). simpl. rewrite Hd, Hspan.
    split; [reflexivity|]. split; [now rewrite Hlen|].
    intros acc. simpl. apply Hval.
Qed.

Lemma eval10_app (a b : string) (acc : Z) :
  decimal a = true -> eval10 acc (a ++ b) = eval10 (eval10 acc a) b.
Proof.
  revert acc. induction a as [|c r IH]; intros acc Ha; [reflexivity|].
  unfold decimal in Ha; simpl in Ha. apply andb_true_iff in Ha as [Hc Hr].
  destruct (decimal_char_facts c Hc) as (_ & (d & Hd & _) & _).
  simpl. rewrite Hd. now apply IH.
Qed.

Lemma eval10_zeros (n : nat) (s : string) :
  eval10 0 (JS.repeat_char "0" n ++ s) = eval10 0 s.
Proof.
  induction n as [|n IH]; [reflexivity|]. exact IH.
Qed.

(** [parseInt] reads back a non-empty run of decimal digits, with or
    without the radix 10. *)
Lemma parseInt_decimal (s : string) (radix : Z) :
  radix = 0 \/ radix = 10 ->
  decimal s = true -> s <> "" ->
  JS.parseInt s radix = JS.of_Z (eval10 0 s).
Proof.
  intros Hradix Hs Hne. destruct s as [|c r]; [congruence|].
  pose proof Hs as Hs'.
  unfold decimal in Hs; simpl in Hs. apply andb_true_iff in Hs as [Hc Hr].
  destruct (decimal_char_facts c Hc) as (Hws & _ & Hsign & _ & Hhex & _).
  assert (JS.strip_hex_prefix (String c r) = None) as Hprefix.
  { destruct r as [|c' r'].
    - destruct c as [[] [] [] [] [] [] [] []]; reflexivity.
    - simpl in Hr. apply andb_true_iff in Hr as [Hc' _].
      destruct (decimal_char_facts c' Hc') as (_ & _ & _ & _ & H & _).
      apply H. }
  destruct (span_digits_decimal (String c r) "" Hs' I) as (ds & Hspan & Hlen & Hval).
  assert (String c r ++ "" = String c r) as Hnil
    by (clear; induction (String c r) as [|x s IH]; [reflexivity|simpl; now rewrite IH]).
  rewrite Hnil in Hspan.
  unfold JS.parseInt. cbn [JS.trim_start]. rewrite Hws, Hsign.
  assert (JS.of_Z (1 * JS.digits_value 10 ds) = JS.of_Z (eval10 0 (String c r)))
    as Hvalue
    by (unfold JS.digits_value; now rewrite Hval, Z.mul_1_l).
  destruct ds as [|d ds']; [discriminate Hlen|].
  destruct Hradix as [-> | ->]; cbn [Z.eqb negb andb orb Z.ltb Z.compare];
    rewrite ?Hprefix; cbn [Z.eqb Pos.eqb]; rewrite Hspan; exact Hvalue.
Qed.

Lemma append_empty (s : string) : s ++ "" = s.
Proof.
  induction s as [|c r IH]; [reflexivity|]. simpl. now rewrite IH.
Qed.

Lemma fold_digits_app (ds1 ds2 : list Z) (acc : Z) :
  fold_left (fun x d => x * 10 + d) (ds1 ++ ds2)%list acc
  = fold_left (fun x d => x * 10 + d) ds2
      (fold_left (fun x d => x * 10 + d) ds1 acc).
Proof.
  apply fold_left_app.
Qed.

(** [parseFloat] on digits, a point, digits. *)
Lemma parseFloat_point (a b : string) :
  decimal a = true -> a <> "" -> decimal b = true ->
  JS.parseFloat (a ++ String "." b)
  = JS.Fin (JS.scale10 (eval10 0 (a ++ b)) (- Z.of_nat (String.length b))).
Proof.
  intros Ha Hne Hb.
  destruct (span_digits_decimal a (String "." b) Ha eq_refl)
    as (ds1 & Hspan1 & Hlen1 & Hval1).
  destruct (span_digits_decimal b "" Hb I) as (ds2 & Hspan2 & Hlen2 & Hval2).
  rewrite append_empty in Hspan2.
  destruct a as [|c r]; [congruence|].
  unfold decimal in Ha; simpl in Ha. apply andb_true_iff in Ha as [Hc Hr].
  destruct (decimal_char_facts c Hc) as (Hws & _ & Hsign & Hinf & _).
  unfold JS.parseFloat.
  change (String c r ++ String "." b) with (String c (r ++ String "." b)) in *.
  cbn [JS.trim_start]. rewrite Hws, Hsign, Hinf, Hspan1, Hspan2.
  destruct ds1 as [|d1 ds1']; [discriminate Hlen1|].
  cbn [app JS.exponent_part]. f_equal.
  rewrite Hlen2, Z.mul_1_l. f_equal.
  unfold JS.digits_value.
  change (d1 :: (ds1' ++ ds2)%list) with ((d1 :: ds1') ++ ds2)%list.
  rewrite fold_digits_app, Hval1, Hval2.
  symmetry. apply eval10_app.
  unfold decimal. simpl. now rewrite Hc, Hr.
Qed.

Lemma substring_split (m : string) (j : nat) :
  (j <= String.length m)%nat ->
  m = substring 0 j m ++ substring j (String.length m - j) m
  /\ String.length (substring 0 j m) = j
  /\ String.length (substring j (String.length m - j) m)
     = (String.length m - j)%nat.
Proof.
  revert j. induction m as [|c r IH]; intros j Hj.
  - simpl in Hj. assert (j = 0%nat) as -> by lia. now repeat split.
  - destruct j as [|j].
    + simpl. clear IH Hj.
      assert (forall s, substring 0 (String.length s) s = s) as Hall
        by (induction s as [|x s IHs]; [reflexivity|simpl; now rewrite IHs]).
      rewrite Hall. now repeat split.
    + simpl in Hj. destruct (IH j ltac:(lia)) as (H1 & H2 & H3).
      simpl. rewrite H2, H3. repeat split. now rewrite <- H1.
Qed.

Lemma padStart_length (n : nat) (c : ascii) (s : string) :
  (n <= String.length (JS.padStart n c s))%nat
  /\ ((String.length s <= n)%nat -> String.length (JS.padStart n c s) = n).
Proof.
  unfold JS.padStart. rewrite length_append, length_repeat_char. lia.
Qed.

Lemma Qfloor_half (k : Z) (q : Q) :
  q == k # 1000000 ->
  Qfloor (q * inject_Z 1000000 + (1 # 2)) = k.
Proof.
  intros Hq. rewrite Hq.
  unfold Qfloor, Qplus, Qmult, inject_Z. cbn [Qnum Qden].
  symmetry. apply (Z.div_unique _ _ k 1000000); lia.
Qed.

(** A priority with at most six decimals is printed by [toFixed(6)] as
    digits, a point and six digits, which read back as the same number. *)
Lemma toFixed_shape (q : Q) (k : Z) :
  0 < k -> q == k # 1000000 ->
  exists a b,
    JS.toFixed 6 (JS.Fin q) = a ++ String "." b
    /\ decimal a = true /\ a <> "" /\ decimal b = true
    /\ String.length b = 6%nat
    /\ eval10 0 (a ++ b) = k.
Proof.
  intros Hk Hq. unfold JS.toFixed, JS.toFixed_Q.
  destruct (Qlt_le_dec q 0) as [Hneg|_].
  { exfalso. rewrite Hq in Hneg. unfold Qlt in Hneg. simpl in Hneg. lia. }
  change (10 ^ Z.of_nat 6) with 1000000.
  rewrite (Qfloor_half k q Hq).
  destruct (string_of_Z_decimal k ltac:(lia)) as (Hdec & _ & Hval).
  set (m := JS.padStart 7 "0" (JS.string_of_Z k)).
  assert (decimal m = true) as Hm.
  { subst m. unfold JS.padStart, decimal. rewrite forallb_string_app.
    fold (decimal (JS.string_of_Z k)). rewrite Hdec, andb_true_r.
    clear. induction (7 - String.length (JS.string_of_Z k))%nat as [|n IH];
      [reflexivity|exact IH]. }
  assert (eval10 0 m = k) as Hmk
    by (subst m; unfold JS.padStart; now rewrite eval10_zeros).
  destruct (padStart_length 7 "0" (JS.string_of_Z k)) as [Hlen _].
  fold m in Hlen.
  destruct (substring_split m (String.length m - 6) ltac:(lia))
    as (Hsplit & Hla & Hlb).
  replace (String.length m - (String.length m - 6))%nat with 6%nat in * by lia.
  exists (substring 0 (String.length m - 6) m),
         (substring (String.length m - 6) 6 m).
  cbn [Nat.eqb].
  assert (decimal (substring 0 (String.length m - 6) m) = true
          /\ decimal (substring (String.length m - 6) 6 m) = true) as [Hda Hdb].
  { rewrite Hsplit in Hm. unfold decimal in Hm.
    rewrite forallb_string_app in Hm. now apply andb_true_iff in Hm. }
  split; [reflexivity|]. split; [exact Hda|].
  split.
  { intros Hempty. rewrite Hempty in Hla. simpl in Hla. lia. }
  split; [exact Hdb|]. split; [exact Hlb|].
  now rewrite <- Hsplit.
Qed.

(** ** Encoding, then decoding *)

Lemma pointwise_free (p : ascii -> bool) (s : string) :
  p "-"%char = false -> p ","%char = false -> p "="%char = false ->
  JS.forallb_string p s = true -> free_of_delimiters s = true.
Proof.
  intros H1 H2 H3 Hs. unfold free_of_delimiters.
  now rewrite !(forallb_string_no_char p) by assumption.
Qed.

Lemma decimal_free (s : string) : decimal s = true -> free_of_delimiters s = true.
Proof.
  now apply pointwise_free.
Qed.

Lemma identifier_free (n : nat) (s : string) :
  identifier n s = true -> free_of_delimiters s = true.
Proof.
  unfold identifier. intros H.
  apply andb_true_iff in H as [H _]. apply andb_true_iff in H as [H _].
  revert H. now apply pointwise_free.
Qed.

Lemma free_of_delimiters_app (a b : string) :
  free_of_delimiters (a ++ b) = free_of_delimiters a && free_of_delimiters b.
Proof.
  unfold free_of_delimiters. rewrite !has_char_app.
  destruct (has_char "-" a), (has_char "," a), (has_char "=" a),
           (has_char "-" b), (has_char "," b), (has_char "=" b); reflexivity.
Qed.

Lemma free_has_char (s : string) :
  free_of_delimiters s = true ->
  has_char "-" s = false /\ has_char "," s = false /\ has_char "=" s = false.
Proof.
  unfold free_of_delimiters.
  destruct (has_char "-" s), (has_char "," s), (has_char "=" s);
    try discriminate; now repeat split.
Qed.

Lemma has_char_join (c : ascii) (sep : string) (l : list string) :
  has_char c sep = false ->
  Forall (fun x => has_char c x = false) l ->
  has_char c (JS.join sep l) = false.
Proof.
  intros Hsep Hl. induction Hl as [|x l Hx Hl IH]; [reflexivity|].
  destruct l as [|y l']; [exact Hx|].
  change (JS.join sep (x :: y :: l')) with (x ++ sep ++ JS.join sep (y :: l')).
  now rewrite !has_char_app, Hx, Hsep, IH.
Qed.

(** A padded identifier passes the rule of its field. *)
Lemma padded_identifier (n : nat) (s : string) :
  identifier n s = true ->
  not_repeat "0" n (JS.padStart n "0" s) && hex_exactly n (JS.padStart n "0" s)
  = true
  /\ has_char "-" (JS.padStart n "0" s) = false.
Proof.
  unfold identifier. intros H.
  apply andb_true_iff in H as [H Hnz]. apply andb_true_iff in H as [Hhex Hlen].
  apply Nat.leb_le in Hlen. apply negb_true_iff in Hnz.
  assert (JS.forallb_string lower_hex (JS.padStart n "0" s) = true) as Hall.
  { unfold JS.padStart. rewrite forallb_string_app, Hhex, andb_true_r.
    clear. induction (n - String.length s)%nat as [|k IH]; [reflexivity|exact IH]. }
  destruct (padStart_length n "0" s) as [_ Hl]. specialize (Hl Hlen).
  split; [|now apply (forallb_string_no_char lower_hex)].
  unfold hex_exactly. rewrite Hl, Nat.eqb_refl, Hall.
  unfold not_repeat.
  destruct (String.prefix (JS.repeat_char "0" n) (JS.padStart n "0" s)) eqn:Hp;
    [|reflexivity].
  rewrite <- Hl in Hp at 1. apply prefix_repeat_inv in Hp.
  unfold JS.padStart in Hp. rewrite forallb_string_app in Hp.
  apply andb_true_iff in Hp as [_ Hp].
  unfold all_zero in Hnz. congruence.
Qed.

Lemma createFlagsHex_value (self : TraceContext.t) :
  createFlagsHex self
  = if truthy_flag (Transaction.sampled (TraceContext.transaction self))
    then "01" else "00".
Proof.
  unfold createFlagsHex, flags, FLAGS. cbn [fold_left fst snd String.eqb Ascii.eqb].
  change (String.eqb "sampled" "sampled") with true. cbn iota.
  now destruct (truthy_flag _).
Qed.

Lemma encoded_traceparent_accepted (self : TraceContext.t) (makeId : string) :
  identifier 32 (Transaction.traceId (TraceContext.transaction self)) = true ->
  identifier 16 (parent_id_used self makeId) = true ->
  accepted_traceparent (traceparent self makeId)
    (JS.padStart 32 "0" (Transaction.traceId (TraceContext.transaction self)))
    (JS.padStart 16 "0" (parent_id_used self makeId)).
Proof.
  intros Ht Hp.
  destruct (padded_identifier _ _ Ht) as [Hrule_t Hfree_t].
  destruct (padded_identifier _ _ Hp) as [Hrule_p Hfree_p].
  set (T := JS.padStart 32 "0" _) in *.
  set (P := JS.padStart 16 "0" _) in *.
  exists "00", (createFlagsHex self).
  assert (traceparent self makeId
          = JS.join "-" ["00"; T; P; createFlagsHex self]) as Hshape
    by reflexivity.
  assert (has_char "-" (createFlagsHex self) = false) as Hfree_f
    by (rewrite createFlagsHex_value; now destruct (truthy_flag _)).
  assert (JS.split "-" (traceparent self makeId)
          = ["00"; T; P; createFlagsHex self]) as Hparts.
  { rewrite Hshape. apply split_join; [discriminate|].
    repeat constructor; assumption. }
  unfold _validateAndParseTraceParentHeader. rewrite Hparts.
  assert (JS.truthy_string (traceparent self makeId) = true) as ->
    by reflexivity.
  cbn [negb nth_error List.length Nat.eqb andb match_rgx].
  change (String.eqb "00" W3C_TRACEPARENT_VERSION) with true.
  cbn [andb negb].
  unfold TRACEID_VALID_RGX, PARENTID_VALID_RGX. rewrite Hrule_t, Hrule_p.
  change (VERSION_VALID_RGX "00") with true.
  assert (FLAGS_VALID_RGX (createFlagsHex self) = true) as ->
    by (rewrite createFlagsHex_value; now destruct (truthy_flag _)).
  reflexivity.
Qed.

Lemma tracestate_shape (self : TraceContext.t) (now : Z) :
  tracestate self now
  = match TraceContext._traceStateRaw self with
    | Some raw => if JS.truthy_string raw
                  then vendor_entry self now ++ String "," raw
                  else vendor_entry self now
    | None => vendor_entry self now
    end.
Proof.
  reflexivity.
Qed.

Lemma not_empty_eqb (s : string) : s <> "" -> String.eqb s "" = false.
Proof.
  intros H. now apply String.eqb_neq.
Qed.

(** What the receiving side reads from the priority field. *)
Lemma encoded_priority_read (self : TraceContext.t) :
  well_formed_priority (Transaction.priority (TraceContext.transaction self)) ->
  let field := encoded_priority self in
  let read := unless_null JS.parseFloat
                (if String.eqb field "" then None else Some field) in
  free_of_delimiters field = true
  /\ present_and_NaN read = false
  /\ same_opt_number read (Transaction.priority (TraceContext.transaction self)).
Proof.
  unfold encoded_priority.
  destruct (Transaction.priority (TraceContext.transaction self))
    as [[| |q]|]; cbn [well_formed_priority]; try contradiction;
    [|now repeat split].
  intros (Hpos & _ & k & Hk).
  assert (0 < k) as Hkpos.
  { rewrite Hk in Hpos. unfold Qlt in Hpos. simpl in Hpos. lia. }
  assert (JS.truthy_number (JS.Fin q) = true) as ->.
  { cbn. apply negb_true_iff. destruct (Qeq_bool q 0) eqn:Hz; [|reflexivity].
    apply Qeq_bool_eq in Hz. rewrite Hz in Hpos. discriminate Hpos. }
  destruct (toFixed_shape q k Hkpos Hk) as (a & b & -> & Ha & Hne & Hb & Hlen & Hval).
  cbn zeta.
  assert (a ++ String "." b <> "") as Hfield
    by (destruct a; [congruence|discriminate]).
  rewrite (not_empty_eqb _ Hfield). cbn [unless_null present_and_NaN].
  rewrite (parseFloat_point a b Ha Hne Hb), Hval, Hlen.
  split.
  { change (String "." b) with ("." ++ b).
    now rewrite !free_of_delimiters_app, (decimal_free a Ha), (decimal_free b Hb). }
  split; [reflexivity|].
  cbn. now rewrite Hk.
Qed.

(** The validator on nine fields of which the first two are [0]. *)
Lemma validate_encoded (acct app span txid smp prio stamp : string) (t : Z) :
  Forall (fun x => has_char "-" x = false)
    [acct; app; span; txid; smp; prio; stamp] ->
  acct <> "" -> app <> "" -> smp = "1" \/ smp = "0" ->
  present_and_NaN (unless_null JS.parseFloat
                     (if String.eqb prio "" then None else Some prio)) = false ->
  stamp <> "" -> JS.parseInt stamp 0 = JS.of_Z t ->
  let v := _validateAndParseIntrinsics
             (JS.join "-" ["0"; "0"; acct; app; span; txid; smp; prio; stamp]) in
  Validated.entryValid v = true
  /\ Validated.parentType v = Some "App"
  /\ Validated.accountId v = Some acct
  /\ Validated.appId v = Some app
  /\ Validated.transactionId v = (if String.eqb txid "" then None else Some txid)
  /\ Validated.sampled v = String.eqb smp "1"
  /\ Validated.priority v
     = unless_null JS.parseFloat (if String.eqb prio "" then None else Some prio).
Proof.
  intros Hfree Hacct Happ Hsmp Hprio Hstamp Hparse v. subst v.
  unfold _validateAndParseIntrinsics, _parseIntrinsics,
    _extractTraceStateIntrinsics.
  rewrite split_join;
    [|discriminate|do 2 (constructor; [reflexivity|]); exact Hfree].
  unfold positional. cbn [nth_error].
  rewrite (not_empty_eqb _ Hacct), (not_empty_eqb _ Happ),
    (not_empty_eqb _ Hstamp).
  change (String.eqb "0" "") with false. cbn iota.
  unfold validateIntrinsics, run_invalidations, intrinsicInvalidations.
  cbn [fold_left fst snd Intrinsics.version Intrinsics.parentType
       Intrinsics.accountId Intrinsics.appId Intrinsics.sampled
       Intrinsics.priority Intrinsics.timestamp Intrinsics.transactionId
       Intrinsics.spanId
       RawIntrinsics.version RawIntrinsics.parentType RawIntrinsics.accountId
       RawIntrinsics.appId RawIntrinsics.sampled RawIntrinsics.priority
       RawIntrinsics.timestamp RawIntrinsics.transactionId RawIntrinsics.spanId
       JS.ToString isNull isNull_number].
  rewrite Hparse, Hprio.
  change (JS.parseInt "0" 0) with (JS.of_Z 0).
  change (JSNum.array_at PARENT_TYPES (JS.of_Z 0)) with (Some "App").
  destruct Hsmp as [-> | ->]; now repeat split.
Qed.

Lemma encoded_span_free (self : TraceContext.t) (makeId : string) :
  identifier 16 (parent_id_used self makeId) = true ->
  free_of_delimiters (encoded_span self) = true.
Proof.
  unfold parent_id_used, encoded_span.
  destruct (Config.span_events_enabled _); [|reflexivity].
  destruct (Transaction.segment _) as [sid|]; [|reflexivity].
  destruct sid as [|c r]; [reflexivity|].
  cbn [JS.truthy_string String.eqb negb]. apply identifier_free.
Qed.






Lemma example_sender_well_formed :
  well_formed_unit_of_work example_sender "00f067aa0ba902b7" 1569367663277.
Proof.
  unfold well_formed_unit_of_work. cbv zeta.
  repeat match goal with |- _ /\ _ => split end;
    try (vm_compute; reflexivity); try (now vm_compute).
  - change ((0 < 1123456 # 1000000)%Q
            /\ (1123456 # 1000000 < inject_Z (10 ^ 21))%Q
            /\ exists k : Z, 1123456 # 1000000 == k # 1000000).
    split; [now vm_compute|]. split; [now vm_compute|].
    exists 1123456. reflexivity.
  - right. vm_compute. reflexivity.
Defined.


(** Two boundaries of the round trip.  A priority of zero is falsy, so the
    getter renders the field empty and the receiver reads no priority; with
    transaction events disabled the transaction id is not sent. *)
Example zero_priority_is_sent_as_absent :
  let tx := Transaction.mk "e8b91a159289ff74" "4bf92f3577b34da6a3ce929d0e0e4736"
              (Some false) (Some (JS.of_Z 0)) None
              (Config.mk "xyz" "33" "2827902" true false) in
  let sender := TraceContext.constructor tx in
  tracestate sender 1569367663277 = "xyz@nr=0-0-33-2827902---0--1569367663277"
  /\ exists result receiver',
       acceptTraceContextPayload sender 1569367663377
         (traceparent sender "00f067aa0ba902b7") (tracestate sender 1569367663277)
       = JS.Normal (result, receiver')
       /\ TraceContextData.acceptedTracestate result = true
       /\ TraceContextData.priority result = None
       /\ TraceContextData.transactionId result = None.
Proof.
  cbv zeta. split; [reflexivity|].
  do 2 eexists. split; [vm_compute; reflexivity|]. now repeat split.
Qed.

(** ** Further properties of the traceparent parser *)

Lemma falsy_parts (traceparent : string) :
  JS.truthy_string traceparent = false -> JS.split "-" traceparent = [""].
Proof.
  destruct traceparent; [reflexivity|discriminate].
Qed.

Ltac refute_missing :=
  let H0 := fresh in let Hl := fresh in
  intros (? & H0 & ? & ? & [Hl|[(Hl & ? & ? & ?)|(Hl & ? & ? & ? & ? & ? & ?)]]);
  cbn in *; try discriminate Hl; congruence.

Lemma parser_raises_iff (traceparent : string) :
  _validateAndParseTraceParentHeader traceparent = JS.Throw JS.TypeError
  <-> missing_field traceparent.
Proof.
  unfold _validateAndParseTraceParentHeader, missing_field.
  destruct (JS.truthy_string traceparent) eqn:Htruthy.
  2:{ rewrite (falsy_parts _ Htruthy).
      split; [discriminate|].
      intros (v & [= <-] & Hver & _). discriminate Hver. }
  cbn [negb].
  destruct (JS.split "-" traceparent) as [|v [|t [|p [|f rest]]]] eqn:Hparts;
    [exfalso; now apply (split_not_nil "-" traceparent)|..];
    cbn [nth_error List.length Nat.eqb negb match_rgx andb];
    unfold W3C_TRACEPARENT_VERSION.
  - destruct (String.eqb_spec v "00") as [->|Hv]; cbn [andb];
      [split; [discriminate|refute_missing]|].
    destruct (VERSION_VALID_RGX v) eqn:Hver; cbn;
      (split; [try discriminate|try refute_missing]).
    intros _. exists v. repeat split; auto.
  - destruct (String.eqb_spec v "00") as [->|Hv]; cbn [andb];
      [split; [discriminate|refute_missing]|].
    destruct (VERSION_VALID_RGX v) eqn:Hver, (TRACEID_VALID_RGX t) eqn:Htid; cbn;
      (split; [try discriminate|try refute_missing]).
    intros _. exists v. repeat split; auto.
    right; left. split; [reflexivity|]. now exists t.
  - destruct (String.eqb_spec v "00") as [->|Hv]; cbn [andb];
      [split; [discriminate|refute_missing]|].
    destruct (VERSION_VALID_RGX v) eqn:Hver, (TRACEID_VALID_RGX t) eqn:Htid,
             (PARENTID_VALID_RGX p) eqn:Hpid; cbn;
      (split; [try discriminate|try refute_missing]).
    intros _. exists v. repeat split; auto.
    right; right. split; [reflexivity|]. now exists t, p.
  - destruct (String.eqb v "00" && negb (List.length rest =? 0)%nat);
      [split; [discriminate|refute_missing]|].
    destruct (VERSION_VALID_RGX v), (TRACEID_VALID_RGX t),
             (PARENTID_VALID_RGX p), (FLAGS_VALID_RGX f); cbn;
      (split; [discriminate|refute_missing]).
Qed.

(** X1 (when the parser raises): [_validateAndParseTraceParentHeader] raises
    a TypeError exactly on a traceparent whose version field passes the
    version rule and is not [00], and which has fewer than four fields, all
    of them passing their rules; on every other string it returns. *)
Theorem X1_parser_raises_iff (traceparent : string) :
  _validateAndParseTraceParentHeader traceparent = JS.Throw JS.TypeError
  <-> missing_field traceparent.
Proof.
  apply parser_raises_iff.
Qed.

(** X2 (when the orchestrator raises): [acceptTraceContextPayload] raises
    exactly on those traceparents, whatever the tracestate, the clock and
    the instance; on every other input it returns a result. *)
Theorem X2_accept_raises_iff (self : TraceContext.t) (now : Z)
  (traceparent tracestate : string) :
  (acceptTraceContextPayload self now traceparent tracestate
   = JS.Throw JS.TypeError
   <-> missing_field traceparent)
  /\ (~ missing_field traceparent ->
      exists result self',
        acceptTraceContextPayload self now traceparent tracestate
        = JS.Normal (result, self')).
Proof.
  assert (~ missing_field traceparent ->
          exists result self',
            acceptTraceContextPayload self now traceparent tracestate
            = JS.Normal (result, self')) as Hsafe.
  { intros Hno.
    destruct (_validateAndParseTraceParentHeader traceparent) as [info|[]] eqn:Hp.
    - destruct (accept_total self now traceparent tracestate info Hp)
        as [[r s] Hr]. eauto.
    - elim Hno. now apply parser_raises_iff. }
  split; [|exact Hsafe]. split.
  - intros Hthrow. apply parser_raises_iff.
    destruct (_validateAndParseTraceParentHeader traceparent) as [info|[]] eqn:Hp;
      [|reflexivity].
    destruct (accept_total self now traceparent tracestate info Hp) as [r Hr].
    congruence.
  - intros Hmissing. apply parser_raises_iff in Hmissing.
    unfold acceptTraceContextPayload.
    destruct (JS.truthy_string traceparent) eqn:Htruthy.
    + now rewrite Hmissing.
    + destruct traceparent; [discriminate Hmissing|discriminate Htruthy].
Qed.

Lemma parser_accepts_iff (traceparent T P : string) :
  accepted_traceparent traceparent T P
  <-> exists v f extra,
        JS.split "-" traceparent = v :: T :: P :: f :: extra
        /\ VERSION_VALID_RGX v = true /\ TRACEID_VALID_RGX T = true
        /\ PARENTID_VALID_RGX P = true /\ FLAGS_VALID_RGX f = true
        /\ (v = "00" -> extra = []).
Proof.
  unfold accepted_traceparent, _validateAndParseTraceParentHeader.
  destruct (JS.truthy_string traceparent) eqn:Htruthy.
  2:{ rewrite (falsy_parts _ Htruthy). split.
      - intros (v & f & H). discriminate H.
      - intros (v & f & extra & H & _). discriminate H. }
  cbn [negb].
  destruct (JS.split "-" traceparent) as [|v [|t [|p [|f rest]]]] eqn:Hparts;
    [exfalso; now apply (split_not_nil "-" traceparent)|..];
    cbn [nth_error List.length Nat.eqb negb match_rgx andb];
    unfold W3C_TRACEPARENT_VERSION.
  1-3: split;
    [ intros (v' & f' & H); revert H;
      destruct (String.eqb v "00"); cbn [andb]; try discriminate;
      destruct (VERSION_VALID_RGX v); cbn; try discriminate;
      try (destruct (TRACEID_VALID_RGX t); cbn; try discriminate);
      try (destruct (PARENTID_VALID_RGX p); cbn; discriminate)
    | intros (v' & f' & extra & H & _); discriminate H ].
  split.
  - intros (v' & f' & H). revert H.
    destruct (String.eqb_spec v "00") as [->|Hv]; cbn [andb].
    + destruct rest as [|x rest']; cbn [List.length Nat.eqb negb];
        [|discriminate].
      destruct (VERSION_VALID_RGX "00") eqn:Hver, (TRACEID_VALID_RGX t) eqn:Htid,
               (PARENTID_VALID_RGX p) eqn:Hpid, (FLAGS_VALID_RGX f) eqn:Hfl;
        cbn; try discriminate.
      intros [= <- <- <- <-]. exists "00", f, []. now repeat split.
    + destruct (VERSION_VALID_RGX v) eqn:Hver, (TRACEID_VALID_RGX t) eqn:Htid,
               (PARENTID_VALID_RGX p) eqn:Hpid, (FLAGS_VALID_RGX f) eqn:Hfl;
        cbn; try discriminate.
      intros [= <- <- <- <-]. exists v, f, rest. repeat split; auto.
      intros ->. congruence.
  - intros (v' & f' & extra & [= <- <- <- <- <-] & Hver & Htid & Hpid & Hfl & Hextra).
    exists v, f. rewrite Hver, Htid, Hpid, Hfl.
    destruct (String.eqb_spec v "00") as [Hv|Hv]; cbn [andb].
    + rewrite (Hextra Hv). reflexivity.
    + reflexivity.
Qed.

(** X3 (when the parser accepts): a traceparent is accepted, with trace id
    [T] and parent id [P], exactly when its first four dash-separated fields
    are a version, [T], [P] and flags that pass their rules, and no field
    follows them if the version is [00]; under another version further
    fields are ignored. *)
Theorem X3_parser_accepts_iff (traceparent T P : string) :
  accepted_traceparent traceparent T P
  <-> exists v f extra,
        JS.split "-" traceparent = v :: T :: P :: f :: extra
        /\ VERSION_VALID_RGX v = true /\ TRACEID_VALID_RGX T = true
        /\ PARENTID_VALID_RGX P = true /\ FLAGS_VALID_RGX f = true
        /\ (v = "00" -> extra = []).
Proof.
  apply parser_accepts_iff.
Qed.

(** ** Further properties of the orchestrator *)

Lemma parse_valid_shape (traceparent : string) (info : TraceParentInfo.t) :
  _validateAndParseTraceParentHeader traceparent = JS.Normal info ->
  TraceParentInfo.entryValid info = true ->
  exists v T P f, info = TraceParentInfo.mk true (Some v) (Some T) (Some P) (Some f).
Proof.
  unfold _validateAndParseTraceParentHeader.
  destruct (negb (JS.truthy_string traceparent)); [now intros [= <-]|].
  match goal with |- (if ?c then _ else _) = _ -> _ => destruct c end;
    [now intros [= <-]|].
  destruct (nth_error (JS.split "-" traceparent) 0) as [v|],
           (nth_error (JS.split "-" traceparent) 1) as [t|],
           (nth_error (JS.split "-" traceparent) 2) as [p|],
           (nth_error (JS.split "-" traceparent) 3) as [f|];
    cbn [match_rgx];
    repeat match goal with
      | |- context [VERSION_VALID_RGX ?x] => destruct (VERSION_VALID_RGX x)
      | |- context [TRACEID_VALID_RGX ?x] => destruct (TRACEID_VALID_RGX x)
      | |- context [PARENTID_VALID_RGX ?x] => destruct (PARENTID_VALID_RGX x)
      | |- context [FLAGS_VALID_RGX ?x] => destruct (FLAGS_VALID_RGX x)
      end;
    cbn; try discriminate; intros [= <-]; try discriminate; eauto.
Qed.

(** The ways [acceptTraceContextPayload] returns. *)
Lemma accept_cases (self self' : TraceContext.t) (now : Z)
  (traceparent tracestate : string) (r : TraceContextData.t) :
  acceptTraceContextPayload self now traceparent tracestate = JS.Normal (r, self') ->
  (traceparent = "" /\ r = initial_data /\ self' = self)
  \/ (traceparent <> "" /\ ~ (exists T P, accepted_traceparent traceparent T P)
      /\ r = initial_data
      /\ self' = TraceContext.recordSupportability self
                   "TraceContext/TraceParent/Parse/Exception")
  \/ exists T P,
       accepted_traceparent traceparent T P
       /\ ((syntactically_valid tracestate = false
            /\ r = traceparent_only T P /\ self' = self)
           \/ (syntactically_valid tracestate = true
               /\ find (is_vendor_entry self) (members tracestate) = None
               /\ r = traceparent_only T P
               /\ self' = TraceContext.set_tracingVendors
                            (TraceContext.set_traceStateRaw self (Some tracestate))
                            (Some (JS.join_opt ","
                                     (map key_of (members tracestate)))))
           \/ (exists entry value,
                  syntactically_valid tracestate = true
                  /\ find (is_vendor_entry self) (members tracestate) = Some entry
                  /\ value_of entry = Some value
                  /\ ((Validated.entryValid (_validateAndParseIntrinsics value) = false
                       /\ r = traceparent_only T P
                       /\ self' = TraceContext.recordSupportability
                                    (stored self (remove_first (is_vendor_entry self)
                                                    (members tracestate)))
                                    "TraceContext/TraceState/InvalidNrEntry")
                      \/ (Validated.entryValid (_validateAndParseIntrinsics value) = true
                          /\ r = (let intrinsics := _validateAndParseIntrinsics value in
                                  TraceContextData.mk true true false (Some T) (Some P)
                                    (Validated.parentType intrinsics)
                                    (Validated.accountId intrinsics)
                                    (Validated.appId intrinsics)
                                    (Validated.transactionId intrinsics)
                                    (Some (Validated.sampled intrinsics))
                                    (Validated.priority intrinsics)
                                    (Some (transport_duration now
                                             (Validated.timestamp intrinsics))))
                          /\ self' = TraceContext.recordSupportability
                                       (TraceContext.set_trustedParentId
                                          (stored self
                                             (remove_first (is_vendor_entry self)
                                                (members tracestate)))
                                          (Validated.spanId
                                             (_validateAndParseIntrinsics value)))
                                       "TraceContext/Accept/Success")))).
Proof.
  intros H.
  destruct traceparent as [|c tp]; [left; now injection H as <- <-|].
  right.
  destruct (_validateAndParseTraceParentHeader (String c tp)) as [info|e] eqn:Hp.
  2:{ unfold acceptTraceContextPayload in H. rewrite Hp in H. discriminate H. }
  destruct (TraceParentInfo.entryValid info) eqn:Hvalid.
  2:{ left. unfold acceptTraceContextPayload in H. rewrite Hp in H.
      cbn [JS.truthy_string String.eqb negb JS.bind] in H. rewrite Hvalid in H.
      injection H as <- <-. repeat split; [discriminate|].
      intros (T & P & v & f & Hacc). rewrite Hacc in Hp.
      injection Hp as <-. discriminate Hvalid. }
  right.
  destruct (parse_valid_shape _ _ Hp Hvalid) as (v & T & P & f & ->).
  assert (accepted_traceparent (String c tp) T P) as Htp by (now exists v, f).
  exists T, P. split; [exact Htp|].
  destruct (syntactically_valid tracestate) eqn:Hts.
  2:{ left. rewrite (accept_malformed_tracestate self now _ _ _ Htp _ Hts) in H.
      now injection H as <- <-. }
  right.
  destruct (find (is_vendor_entry self) (members tracestate)) as [e|] eqn:Hf.
  2:{ left. rewrite (accept_no_entry self now _ _ _ Htp _ Hts Hf) in H.
      now injection H as <- <-. }
  right.
  assert (well_formed_member e = true) as Hwf
    by (eapply find_forallb; [exact Hts|exact Hf]).
  destruct (well_formed_member_value e Hwf) as [value Hv].
  exists e, value. repeat (split; [assumption || reflexivity|]).
  destruct (Validated.entryValid (_validateAndParseIntrinsics value)) eqn:Hok.
  - right. rewrite (accept_entry_valid self now _ _ _ Htp _ _ _ Hts Hf Hv Hok) in H.
    now injection H as <- <-.
  - left. rewrite (accept_entry_invalid self now _ _ _ Htp _ _ _ Hts Hf Hv Hok) in H.
    now injection H as <- <-.
Qed.

(** X4 (fail fast): once the parser has returned a traceparent as not
    valid, the orchestrator answers the initial result for every
    tracestate and touches nothing of the instance but the counter of
    parse failures, which it records unless the traceparent is empty. *)
Theorem X4_rejected_traceparent (self : TraceContext.t) (now : Z)
  (traceparent tracestate : string) (info : TraceParentInfo.t) :
  _validateAndParseTraceParentHeader traceparent = JS.Normal info ->
  TraceParentInfo.entryValid info = false ->
  acceptTraceContextPayload self now traceparent tracestate
  = JS.Normal (initial_data,
               if JS.truthy_string traceparent
               then TraceContext.recordSupportability self
                      "TraceContext/TraceParent/Parse/Exception"
               else self).
Proof.
  intros Hp Hinvalid. unfold acceptTraceContextPayload. rewrite Hp.
  destruct (JS.truthy_string traceparent); [|reflexivity].
  cbn [negb JS.bind]. now rewrite Hinvalid.
Qed.

Lemma X4_rejected_traceparent_witness :
  acceptTraceContextPayload example_instance 0
    "00-4bf92f3577b34da6a3ce929d0e0e4736-00f067aa0ba902b7-01-more"
    example_tracestate
  = JS.Normal (initial_data,
               TraceContext.recordSupportability example_instance
                 "TraceContext/TraceParent/Parse/Exception").
Proof.
  exact (X4_rejected_traceparent example_instance 0
           "00-4bf92f3577b34da6a3ce929d0e0e4736-00f067aa0ba902b7-01-more"
           example_tracestate TraceParentInfo.invalid eq_refl eq_refl).
Defined.

Lemma example_outcome_returned :
  acceptTraceContextPayload example_instance 1569367663377
    example_traceparent example_tracestate
  = JS.Normal (fst example_outcome, snd example_outcome).
Proof.
  vm_compute. reflexivity.
Defined.

Lemma entry_valid_facts (i : Intrinsics.t) :
  Validated.entryValid (validateIntrinsics i) = true ->
  JS.isNaN (Intrinsics.version i) = false
  /\ (exists label,
         JSNum.array_at PARENT_TYPES (Intrinsics.parentType i) = Some label)
  /\ isNull (Intrinsics.accountId i) = false
  /\ isNull (Intrinsics.appId i) = false
  /\ present_and_NaN (Intrinsics.sampled i) = false
  /\ present_and_NaN (Intrinsics.priority i) = false
  /\ JS.isNaN (Intrinsics.timestamp i) = false.
Proof.
  unfold validateIntrinsics, run_invalidations, intrinsicInvalidations,
    isNull_number.
  cbn [fold_left fst snd].
  destruct (JSNum.array_at PARENT_TYPES (Intrinsics.parentType i)) as [label|];
    destruct (JS.isNaN (Intrinsics.version i)),
             (isNull (Intrinsics.accountId i)),
             (isNull (Intrinsics.appId i)),
             (present_and_NaN (Intrinsics.sampled i)),
             (present_and_NaN (Intrinsics.priority i)),
             (JS.isNaN (Intrinsics.timestamp i));
    cbn; try discriminate;
    try (destruct (JS.truthy_string label); discriminate);
    intros _; repeat split; eauto.
Qed.

Lemma positional_not_empty (l : list string) (i : nat) (s : string) :
  positional l i = Some s -> s <> "".
Proof.
  unfold positional. destruct (nth_error l i) as [v|]; [|discriminate].
  destruct (String.eqb_spec v ""); [discriminate|]. now intros [= <-].
Qed.

(** X5 (shape of the result): in every result, [acceptedNRTracestate] is
    false; a result without an accepted traceparent is the initial one; an
    accepted traceparent comes with a trace id and a parent span id that
    pass the rules of their fields; the tracestate is accepted only after
    the traceparent; and without an accepted tracestate all fields taken
    from the vendor entry, and the transport duration, are null. *)
Theorem X5_result_shape (self self' : TraceContext.t) (now : Z)
  (traceparent tracestate : string) (r : TraceContextData.t) :
  acceptTraceContextPayload self now traceparent tracestate = JS.Normal (r, self') ->
  TraceContextData.acceptedNRTracestate r = false
  /\ (TraceContextData.acceptedTraceparent r = false -> r = initial_data)
  /\ (TraceContextData.acceptedTraceparent r = true ->
      exists T P,
        TraceContextData.traceId r = Some T
        /\ TraceContextData.parentSpanId r = Some P
        /\ TRACEID_VALID_RGX T = true /\ PARENTID_VALID_RGX P = true)
  /\ (TraceContextData.acceptedTracestate r = true ->
      TraceContextData.acceptedTraceparent r = true)
  /\ (TraceContextData.acceptedTracestate r = false ->
      TraceContextData.parentType r = None
      /\ TraceContextData.accountId r = None
      /\ TraceContextData.appId r = None
      /\ TraceContextData.transactionId r = None
      /\ TraceContextData.sampled r = None
      /\ TraceContextData.priority r = None
      /\ TraceContextData.transportDuration r = None).
Proof.
  intros H. apply accept_cases in H.
  destruct H as [(_ & -> & _) | [(_ & _ & -> & _) | (T & P & Htp & H)]];
    [cbn; repeat split; intros; congruence..|].
  apply parser_accepts_iff in Htp.
  destruct Htp as (v & f & extra & _ & _ & Htid & Hpid & _).
  destruct H as [(_ & -> & _) | [(_ & _ & -> & _) | (e & value & _ & _ & _ & H)]];
    [cbn; repeat split; intros; (congruence || eauto 8)..|].
  destruct H as [(_ & -> & _) | (_ & -> & _)];
    cbn; repeat split; intros; (congruence || eauto 8).
Qed.

Lemma X5_result_shape_witness :
  TraceContextData.acceptedNRTracestate (fst example_outcome) = false
  /\ TraceContextData.acceptedTracestate (fst example_outcome) = true
  /\ exists T P,
       TraceContextData.traceId (fst example_outcome) = Some T
       /\ TraceContextData.parentSpanId (fst example_outcome) = Some P
       /\ TRACEID_VALID_RGX T = true /\ PARENTID_VALID_RGX P = true.
Proof.
  pose proof (X5_result_shape example_instance (snd example_outcome) 1569367663377
                example_traceparent example_tracestate (fst example_outcome)
                example_outcome_returned) as (H1 & _ & H3 & _).
  split; [exact H1|]. split; [reflexivity|]. exact (H3 eq_refl).
Defined.

Lemma parseInt_integer (s : string) (radix : Z) :
  JS.parseInt s radix = JS.NaN \/ exists z, JS.parseInt s radix = JS.of_Z z.
Proof.
  unfold JS.parseInt.
  destruct (JS.strip_sign (JS.trim_start s)) as [sign S1].
  destruct (negb (radix =? 0) && ((radix <? 2) || (36 <? radix))); [now left|].
  match goal with |- context [let (_, _) := ?x in _] => destruct x as [R S2] end.
  destruct (fst (JS.span_digits R S2)); [now left|right; eauto].
Qed.

(** X6 (what an accepted tracestate guarantees): when the result has
    [acceptedTracestate = true], its parent type is one of App, Browser,
    Mobile, its account id and application id are non-empty strings, its
    transaction id is not the empty string, [sampled] is a boolean and a
    priority, if there is one, is not NaN. *)
Theorem X6_accepted_entry (self self' : TraceContext.t) (now : Z)
  (traceparent tracestate : string) (r : TraceContextData.t) :
  acceptTraceContextPayload self now traceparent tracestate = JS.Normal (r, self') ->
  TraceContextData.acceptedTracestate r = true ->
  (exists label, TraceContextData.parentType r = Some label
                 /\ In label PARENT_TYPES)
  /\ (exists a, TraceContextData.accountId r = Some a /\ a <> "")
  /\ (exists a, TraceContextData.appId r = Some a /\ a <> "")
  /\ TraceContextData.transactionId r <> Some ""
  /\ (exists b, TraceContextData.sampled r = Some b)
  /\ (forall n, TraceContextData.priority r = Some n -> JS.isNaN n = false).
Proof.
  intros H Hacc. apply accept_cases in H.
  destruct H as [(_ & -> & _) | [(_ & _ & -> & _) | (T & P & _ & H)]];
    try discriminate Hacc.
  destruct H as [(_ & -> & _) | [(_ & _ & -> & _) | (e & value & _ & _ & _ & H)]];
    try discriminate Hacc.
  destruct H as [(_ & -> & _) | (Hok & -> & _)]; try discriminate Hacc.
  clear Hacc. unfold _validateAndParseIntrinsics in *.
  destruct (entry_valid_facts _ Hok)
    as (_ & (label & Hlabel) & Haccount & Happ & _ & Hprio & _).
  cbv zeta. unfold validateIntrinsics.
  destruct (run_invalidations _ _ _) as [ok reason].
  cbn [TraceContextData.parentType TraceContextData.accountId
       TraceContextData.appId TraceContextData.transactionId
       TraceContextData.sampled TraceContextData.priority
       Validated.parentType Validated.accountId Validated.appId
       Validated.transactionId Validated.sampled Validated.priority].
  split; [exists label; split; [exact Hlabel|eapply array_at_In; exact Hlabel]|].
  unfold _parseIntrinsics, _extractTraceStateIntrinsics in *.
  cbn [Intrinsics.accountId Intrinsics.appId Intrinsics.transactionId
       Intrinsics.priority RawIntrinsics.accountId RawIntrinsics.appId
       RawIntrinsics.transactionId RawIntrinsics.priority] in *.
  split.
  { destruct (positional (JS.split "-" value) 2) as [a|] eqn:Ha;
      [|discriminate Haccount].
    exists a. split; [reflexivity|now apply positional_not_empty in Ha]. }
  split.
  { destruct (positional (JS.split "-" value) 3) as [a|] eqn:Ha;
      [|discriminate Happ].
    exists a. split; [reflexivity|now apply positional_not_empty in Ha]. }
  split.
  { intros Hempty. now apply positional_not_empty in Hempty. }
  split; [eauto|].
  intros n Hn. rewrite Hn in Hprio. exact Hprio.
Qed.

Lemma X6_accepted_entry_witness :
  (exists label, TraceContextData.parentType (fst example_outcome) = Some label
                 /\ In label PARENT_TYPES)
  /\ (exists a, TraceContextData.accountId (fst example_outcome) = Some a /\ a <> "")
  /\ (exists a, TraceContextData.appId (fst example_outcome) = Some a /\ a <> "")
  /\ TraceContextData.transactionId (fst example_outcome) <> Some ""
  /\ (exists b, TraceContextData.sampled (fst example_outcome) = Some b)
  /\ (forall n, TraceContextData.priority (fst example_outcome) = Some n ->
                JS.isNaN n = false).
Proof.
  exact (X6_accepted_entry example_instance (snd example_outcome) 1569367663377
           example_traceparent example_tracestate (fst example_outcome)
           example_outcome_returned eq_refl).
Defined.

(** X7 (effects on the instance): a call never changes the transaction of
    the instance; the trusted parent id changes only when the tracestate is
    accepted; the pass-through value and the vendor keys change only after
    an accepted traceparent and a well-formed tracestate; and at most one
    counter is recorded: the success counter exactly when the tracestate is
    accepted, the parse-failure counter exactly when a non-empty
    traceparent is not accepted. *)
Theorem X7_instance_effects (self self' : TraceContext.t) (now : Z)
  (traceparent tracestate : string) (r : TraceContextData.t) :
  acceptTraceContextPayload self now traceparent tracestate = JS.Normal (r, self') ->
  TraceContext.transaction self' = TraceContext.transaction self
  /\ (TraceContextData.acceptedTracestate r = false ->
      TraceContext.trustedParentId self' = TraceContext.trustedParentId self)
  /\ (TraceContextData.acceptedTraceparent r = false
      \/ syntactically_valid tracestate = false ->
      TraceContext._traceStateRaw self' = TraceContext._traceStateRaw self
      /\ TraceContext.tracingVendors self' = TraceContext.tracingVendors self)
  /\ exists counters,
       TraceContext.supportability self'
       = (TraceContext.supportability self ++ counters)%list
       /\ (List.length counters <= 1)%nat
       /\ (counters = ["TraceContext/Accept/Success"]
           <-> TraceContextData.acceptedTracestate r = true)
       /\ (counters = ["TraceContext/TraceParent/Parse/Exception"]
           <-> traceparent <> ""
               /\ TraceContextData.acceptedTraceparent r = false).
Proof.
  intros H. apply accept_cases in H.
  destruct H as [(-> & -> & ->) | [(Hne & _ & -> & ->) | (T & P & Htp & H)]].
  - repeat split; try reflexivity. exists []. rewrite app_nil_r.
    repeat split; try (cbn; lia); try discriminate; intros []; congruence.
  - repeat split; try reflexivity. eexists. split; [reflexivity|].
    repeat split; try (cbn; lia); try discriminate; auto.
  - assert (traceparent <> "") as Hne.
    { intros ->. destruct Htp as (v & f & Hp). discriminate Hp. }
    destruct H as [(Hts & -> & ->) | [(Hts & _ & -> & ->)
                                     | (e & value & Hts & _ & _ & H)]].
    + repeat split; try reflexivity. exists []. rewrite app_nil_r.
      repeat split; try (cbn; lia); try discriminate; intros []; discriminate.
    + split; [reflexivity|]. split; [reflexivity|]. split.
      { intros [Hr|Hv]; [discriminate Hr|congruence]. }
      exists []. cbn [TraceContext.supportability TraceContext.set_tracingVendors
                      TraceContext.set_traceStateRaw]. rewrite app_nil_r.
      repeat split; try (cbn; lia); try discriminate; intros []; discriminate.
    + destruct H as [(_ & -> & ->) | (_ & -> & ->)].
      * split; [reflexivity|]. split; [reflexivity|]. split.
        { intros [Hr|Hv]; [discriminate Hr|congruence]. }
        eexists. split; [reflexivity|].
        repeat split; try (cbn; lia); try discriminate; intros []; discriminate.
      * split; [reflexivity|]. split; [discriminate|]. split.
        { intros [Hr|Hv]; [discriminate Hr|congruence]. }
        eexists. split; [reflexivity|].
        repeat split; try (cbn; lia); try discriminate; intros []; discriminate.
Qed.

Lemma X7_instance_effects_witness :
  TraceContext.transaction (snd example_outcome)
  = TraceContext.transaction example_instance
  /\ TraceContext.supportability (snd example_outcome)
     = ["TraceContext/Accept/Success"].
Proof.
  pose proof (X7_instance_effects example_instance (snd example_outcome)
                1569367663377 example_traceparent example_tracestate
                (fst example_outcome) example_outcome_returned) as (H1 & _).
  split; [exact H1|reflexivity].
Defined.

Lemma parse_tracestate_same_key (a b : TraceContext.t) (tracestate : string) :
  TraceContext.transaction a = TraceContext.transaction b ->
  _validateAndParseTraceStateHeader a tracestate
  = _validateAndParseTraceStateHeader b tracestate.
Proof.
  intros H. unfold _validateAndParseTraceStateHeader. now rewrite H.
Qed.

Lemma accept_keeps_transaction (self self' : TraceContext.t) (now : Z)
  (traceparent tracestate : string) (r : TraceContextData.t) :
  acceptTraceContextPayload self now traceparent tracestate = JS.Normal (r, self') ->
  TraceContext.transaction self' = TraceContext.transaction self.
Proof.
  intros H. apply accept_cases in H.
  destruct H as [(_ & _ & ->) | [(_ & _ & _ & ->) | (T & P & _ & H)]];
    try reflexivity.
  destruct H as [(_ & _ & ->) | [(_ & _ & _ & ->) | (e & value & _ & _ & _ & H)]];
    try reflexivity.
  destruct H as [(_ & _ & ->) | (_ & _ & ->)]; reflexivity.
Qed.

(** X8 (decoding twice): decoding the same pair again, at the same clock, on
    the instance the first call left gives the same result and leaves the
    pass-through value, the vendor keys and the trusted parent id as the
    first call set them. *)
Theorem X8_accept_twice (self s1 : TraceContext.t) (now : Z)
  (traceparent tracestate : string) (r : TraceContextData.t) :
  acceptTraceContextPayload self now traceparent tracestate = JS.Normal (r, s1) ->
  exists s2,
    acceptTraceContextPayload s1 now traceparent tracestate = JS.Normal (r, s2)
    /\ TraceContext._traceStateRaw s2 = TraceContext._traceStateRaw s1
    /\ TraceContext.tracingVendors s2 = TraceContext.tracingVendors s1
    /\ TraceContext.trustedParentId s2 = TraceContext.trustedParentId s1.
Proof.
  intros H.
  pose proof (parse_tracestate_same_key s1 self tracestate
                (accept_keeps_transaction _ _ _ _ _ _ H)) as Hkey.
  unfold acceptTraceContextPayload in *. rewrite Hkey. clear Hkey.
  destruct (JS.truthy_string traceparent); cbn [negb] in *.
  2:{ injection H as <- <-. eexists. now repeat split. }
  destruct (_validateAndParseTraceParentHeader traceparent) as [info|err];
    cbn [JS.bind] in *; [|discriminate H].
  destruct (TraceParentInfo.entryValid info).
  2:{ injection H as <- <-. eexists. now repeat split. }
  destruct (JS.truthy_string tracestate); cbn [negb] in *.
  2:{ injection H as <- <-. eexists. now repeat split. }
  destruct (_validateAndParseTraceStateHeader self tracestate) as [tsd|err];
    cbn [JS.bind] in *; [|discriminate H].
  destruct (is_true (TraceStateData.traceStateValid tsd)); cbn [negb] in *.
  2:{ injection H as <- <-. eexists. now repeat split. }
  destruct (is_true (TraceStateData.entryValid tsd)).
  - destruct (TraceStateData.intrinsics tsd) as [intrinsics|]; [|discriminate H].
    injection H as <- <-. eexists. now repeat split.
  - destruct (TraceStateData.entryFound tsd);
      injection H as <- <-; eexists; now repeat split.
Qed.

Lemma X8_accept_twice_witness :
  exists s2,
    acceptTraceContextPayload (snd example_outcome) 1569367663377
      example_traceparent example_tracestate
    = JS.Normal (fst example_outcome, s2)
    /\ TraceContext._traceStateRaw s2 = Some "other=1,another=2"
    /\ TraceContext.tracingVendors s2 = Some "other,another"
    /\ TraceContext.trustedParentId s2 = Some "7d3efb1b173fecfa".
Proof.
  exact (X8_accept_twice example_instance (snd example_outcome) 1569367663377
           example_traceparent example_tracestate (fst example_outcome)
           example_outcome_returned).
Defined.

Lemma transport_duration_clamped (now t : Z) :
  exists d,
    transport_duration now (JS.of_Z t) = JS.Fin d
    /\ (d == inject_Z (Z.max 0 (now - t)%Z) / inject_Z 1000)%Q.
Proof.
  unfold transport_duration, JS.of_Z, JSNum.sub, JSNum.div_pos, JSNum.max.
  set (x := ((inject_Z now - inject_Z t) / inject_Z 1000)%Q).
  assert (x == inject_Z (now - t)%Z / inject_Z 1000)%Q as Hx.
  { subst x. unfold Zminus. now rewrite inject_Z_plus, inject_Z_opp. }
  destruct (Qle_bool (inject_Z 0) x) eqn:Hle.
  - exists x. split; [reflexivity|]. rewrite Hx.
    apply Qle_bool_iff in Hle. rewrite Hx in Hle.
    assert (0 <= now - t) as Hpos.
    { unfold Qle, Qdiv, Qmult, Qinv, inject_Z in Hle. simpl in Hle. lia. }
    now rewrite Z.max_r.
  - exists (inject_Z 0). split; [reflexivity|].
    assert (~ inject_Z 0 <= x)%Q as Hnle
      by (intros Hc; apply Qle_bool_iff in Hc; congruence).
    rewrite Hx in Hnle.
    assert (now - t < 0) as Hneg.
    { destruct (Z.lt_ge_cases (now - t) 0) as [|Hge]; [assumption|].
      elim Hnle. unfold Qle, Qdiv, Qmult, Qinv, inject_Z. simpl. lia. }
    rewrite Z.max_l by lia. reflexivity.
Qed.

(** X9 (transport duration): when the vendor entry of record is accepted,
    the transport duration of the result is a number, never NaN and never
    negative; and when the clock and the timestamp read in the ninth
    positional field are integers a JavaScript number holds exactly (below
    2^53 in size), it is [max(0, now - t) / 1000]: zero for a timestamp
    ahead of the clock. *)
Theorem X9_transport_duration (self : TraceContext.t) (now : Z)
  (traceparent T P tracestate entry value : string) :
  accepted_traceparent traceparent T P ->
  syntactically_valid tracestate = true ->
  find (is_vendor_entry self) (members tracestate) = Some entry ->
  value_of entry = Some value ->
  Validated.entryValid (_validateAndParseIntrinsics value) = true ->
  exists field d result self',
    nth_error (JS.split "-" value) 8 = Some field
    /\ acceptTraceContextPayload self now traceparent tracestate
       = JS.Normal (result, self')
    /\ TraceContextData.transportDuration result = Some (JS.Fin d)
    /\ (0 <= d)%Q
    /\ forall t : Z,
         JS.parseInt field 0 = JS.of_Z t ->
         0 <= t < 2 ^ 53 -> - 2 ^ 53 < now < 2 ^ 53 ->
         (d == inject_Z (Z.max 0 (now - t)%Z) / inject_Z 1000)%Q.
Proof.
  intros Htp Hts Hfind Hval Hok.
  pose proof Hok as Hfacts. unfold _validateAndParseIntrinsics in Hfacts.
  apply entry_valid_facts in Hfacts.
  destruct Hfacts as (_ & _ & _ & _ & _ & _ & Hstamp).
  assert (exists field, nth_error (JS.split "-" value) 8 = Some field
                        /\ Intrinsics.timestamp (_parseIntrinsics value)
                           = JS.parseInt field 0) as (field & Hfield & Hread).
  { unfold _parseIntrinsics, _extractTraceStateIntrinsics in *.
    cbn [Intrinsics.timestamp RawIntrinsics.timestamp] in *.
    unfold positional in *.
    destruct (nth_error (JS.split "-" value) 8) as [field|];
      [|discriminate Hstamp].
    exists field. split; [reflexivity|].
    destruct (String.eqb field ""); [discriminate Hstamp|reflexivity]. }
  rewrite Hread in Hstamp.
  destruct (parseInt_integer field 0) as [Hnan|[t Ht]];
    [rewrite Hnan in Hstamp; discriminate Hstamp|].
  destruct (transport_duration_clamped now t) as (d & Hd & Hvalue).
  exists field, d.
  rewrite (accept_entry_valid self now _ _ _ Htp _ _ _ Hts Hfind Hval Hok).
  do 2 eexists. split; [exact Hfield|]. split; [reflexivity|].
  split.
  { cbn [TraceContextData.transportDuration]. f_equal.
    unfold _validateAndParseIntrinsics, validateIntrinsics.
    destruct (run_invalidations _ _ _) as [ok reason].
    cbn [Validated.timestamp]. now rewrite Hread, Ht. }
  split.
  { rewrite Hvalue. apply Qle_shift_div_l; [reflexivity|].
    rewrite Qmult_0_l. change 0%Q with (inject_Z 0).
    rewrite <- Zle_Qle. lia. }
  intros t' Ht' _ _. rewrite Ht in Ht'.
  unfold JS.of_Z, inject_Z in Ht'. injection Ht' as ->. exact Hvalue.
Qed.

Lemma X9_transport_duration_witness :
  exists d result self',
    acceptTraceContextPayload example_instance 1569367663377
      example_traceparent example_tracestate
    = JS.Normal (result, self')
    /\ TraceContextData.transportDuration result = Some (JS.Fin d)
    /\ (0 <= d)%Q
    /\ (d == 100 # 1000)%Q.
Proof.
  destruct (X9_transport_duration example_instance 1569367663377
              example_traceparent _ _ example_tracestate example_entry
              example_value
              example_traceparent_accepted eq_refl eq_refl eq_refl eq_refl)
    as (field & d & result & self' & Hfield & Haccept & Hduration & Hpos & Hd).
  exists d, result, self'.
  split; [exact Haccept|]. split; [exact Hduration|]. split; [exact Hpos|].
  injection Hfield as <-.
  exact (Hd 1569367663277 eq_refl ltac:(lia) ltac:(lia)).
Defined.

(** ** Further properties of the vendor entry *)

(** X10 (short vendor value): a vendor entry of record whose value has
    fewer than nine dash-separated fields is never accepted: the result
    keeps [acceptedTracestate = false] and the counter of invalid entries
    is recorded. *)
Theorem X10_short_vendor_value (self : TraceContext.t) (now : Z)
  (traceparent T P tracestate entry value : string) :
  accepted_traceparent traceparent T P ->
  syntactically_valid tracestate = true ->
  find (is_vendor_entry self) (members tracestate) = Some entry ->
  value_of entry = Some value ->
  (List.length (JS.split "-" value) < 9)%nat ->
  exists result self',
    acceptTraceContextPayload self now traceparent tracestate
    = JS.Normal (result, self')
    /\ TraceContextData.acceptedTracestate result = false
    /\ TraceContext.supportability self'
       = (TraceContext.supportability self
          ++ ["TraceContext/TraceState/InvalidNrEntry"])%list.
Proof.
  intros Htp Hts Hfind Hval Hshort.
  assert (Validated.entryValid (_validateAndParseIntrinsics value) = false)
    as Hinvalid.
  { apply timestamp_NaN_invalid.
    unfold _parseIntrinsics, _extractTraceStateIntrinsics.
    cbn [Intrinsics.timestamp RawIntrinsics.timestamp]. unfold positional.
    assert (nth_error (JS.split "-" value) 8 = None) as ->
      by (apply nth_error_None; lia).
    reflexivity. }
  rewrite (accept_entry_invalid self now _ _ _ Htp _ _ _ Hts Hfind Hval Hinvalid).
  do 2 eexists. split; [reflexivity|]. now split.
Qed.

Lemma X10_short_vendor_value_witness :
  exists result self',
    acceptTraceContextPayload example_instance 0 example_traceparent
      "xyz@nr=0-0-33-2827902-7d3efb1b173fecfa-e8b91a159289ff74-1-1.123456"
    = JS.Normal (result, self')
    /\ TraceContextData.acceptedTracestate result = false
    /\ TraceContext.supportability self'
       = (TraceContext.supportability example_instance
          ++ ["TraceContext/TraceState/InvalidNrEntry"])%list.
Proof.
  exact (X10_short_vendor_value example_instance 0 example_traceparent _ _
           "xyz@nr=0-0-33-2827902-7d3efb1b173fecfa-e8b91a159289ff74-1-1.123456"
           "xyz@nr=0-0-33-2827902-7d3efb1b173fecfa-e8b91a159289ff74-1-1.123456"
           "0-0-33-2827902-7d3efb1b173fecfa-e8b91a159289ff74-1-1.123456"
           example_traceparent_accepted eq_refl eq_refl eq_refl
           ltac:(cbn; lia)).
Defined.

Lemma split_app_any (sep : ascii) (a b : string) :
  JS.split sep (a ++ String sep b) = (JS.split sep a ++ JS.split sep b)%list.
Proof.
  induction a as [|c r IH]; simpl.
  - now rewrite Ascii.eqb_refl.
  - destruct (Ascii.eqb c sep); rewrite IH; [reflexivity|].
    pose proof (split_not_nil sep r) as Hnil.
    destruct (JS.split sep r) as [|h t]; [congruence|reflexivity].
Qed.

(** X11 (further positional fields): what follows the ninth field of a
    vendor value is not looked at: appending a dash and any text to a value
    of at least nine fields does not change what the validator returns. *)
Theorem X11_further_fields_ignored (value more : string) :
  (9 <= List.length (JS.split "-" value))%nat ->
  _validateAndParseIntrinsics (value ++ String "-" more)
  = _validateAndParseIntrinsics value.
Proof.
  intros Hlen.
  unfold _validateAndParseIntrinsics, _parseIntrinsics,
    _extractTraceStateIntrinsics, positional.
  rewrite split_app_any.
  now rewrite !nth_error_app1 by lia.
Qed.

Lemma X11_further_fields_ignored_witness :
  _validateAndParseIntrinsics (example_value ++ String "-" "12-ab")
  = _validateAndParseIntrinsics example_value.
Proof.
  exact (X11_further_fields_ignored example_value "12-ab" ltac:(cbn; lia)).
Defined.

(** ** Further properties of the encoder *)

Lemma split_singleton (sep : ascii) (s : string) :
  List.length (JS.split sep s) = 1%nat -> JS.split sep s = [s].
Proof.
  intros Hlen. pose proof (join_split sep s) as Hjoin.
  destruct (JS.split sep s) as [|x [|y l]]; try discriminate Hlen.
  cbn in Hjoin. now subst x.
Qed.

Lemma split_length_pos (sep : ascii) (s : string) :
  (1 <= List.length (JS.split sep s))%nat.
Proof.
  pose proof (split_not_nil sep s).
  destruct (JS.split sep s); [congruence|cbn; lia].
Qed.

Lemma padded_identifier_inv (n : nat) (s : string) :
  not_repeat "0" n (JS.padStart n "0" s) && hex_exactly n (JS.padStart n "0" s)
  = true ->
  identifier n s = true.
Proof.
  intros H. apply andb_true_iff in H as [Hnot Hhex].
  unfold hex_exactly in Hhex. apply andb_true_iff in Hhex as [Hlen Hall].
  apply Nat.eqb_eq in Hlen.
  unfold JS.padStart in *. rewrite forallb_string_app in Hall.
  apply andb_true_iff in Hall as [_ Hs].
  rewrite length_append, length_repeat_char in Hlen.
  unfold identifier. rewrite Hs. cbn [andb].
  assert (String.length s <= n)%nat as Hle by lia.
  apply Nat.leb_le in Hle as Hleb. rewrite Hleb. cbn [andb].
  apply negb_true_iff.
  destruct (all_zero s) eqn:Hz; [|reflexivity].
  exfalso. unfold not_repeat in Hnot. apply negb_true_iff in Hnot.
  assert (JS.forallb_string (fun x => Ascii.eqb x "0")
            (JS.repeat_char "0" (n - String.length s) ++ s) = true) as Hzeros.
  { rewrite forallb_string_app. unfold all_zero in Hz. rewrite Hz, andb_true_r.
    clear. induction (n - String.length s)%nat as [|k IH]; [reflexivity|exact IH]. }
  apply prefix_repeat_all in Hzeros.
  rewrite length_append, length_repeat_char in Hzeros.
  replace (n - String.length s + String.length s)%nat with n in Hzeros by lia.
  congruence.
Qed.

(** X12 (what the traceparent getter needs): the generated traceparent is
    accepted by the parser exactly when the trace id of the transaction and
    the parent id in use are lower-case hexadecimal, not zero, and at most
    32 and 16 digits long: the getter pads short identifiers and neither
    shortens nor checks the others. *)
Theorem X12_generated_traceparent (self : TraceContext.t) (makeId : string) :
  (exists T P, accepted_traceparent (traceparent self makeId) T P)
  <-> identifier 32 (Transaction.traceId (TraceContext.transaction self)) = true
      /\ identifier 16 (parent_id_used self makeId) = true.
Proof.
  split.
  2:{ intros [Ht Hp]. do 2 eexists.
      now apply encoded_traceparent_accepted. }
  intros (T & P & Hacc). apply parser_accepts_iff in Hacc.
  destruct Hacc as (v & f & extra & Hsplit & _ & Htid & Hpid & _ & Hextra).
  set (T0 := JS.padStart 32 "0" (Transaction.traceId (TraceContext.transaction self))) in *.
  set (P0 := JS.padStart 16 "0" (parent_id_used self makeId)) in *.
  assert (traceparent self makeId
          = "00" ++ String "-" (T0 ++ String "-" (P0 ++ String "-" (createFlagsHex self))))
    as Hshape by reflexivity.
  rewrite Hshape, !split_app_any in Hsplit.
  change (JS.split "-" "00") with ["00"] in Hsplit.
  pose proof (split_length_pos "-" T0) as HT.
  pose proof (split_length_pos "-" P0) as HP.
  pose proof (split_length_pos "-" (createFlagsHex self)) as HF.
  cbn [app] in Hsplit.
  assert (v = "00") as -> by (now injection Hsplit).
  rewrite (Hextra eq_refl) in Hsplit.
  injection Hsplit as Hsplit.
  assert (List.length (JS.split "-" T0) = 1%nat
          /\ List.length (JS.split "-" P0) = 1%nat) as [HT1 HP1].
  { apply (f_equal (@List.length string)) in Hsplit.
    rewrite !length_app in Hsplit. cbn [List.length] in Hsplit. lia. }
  rewrite (split_singleton _ _ HT1), (split_singleton _ _ HP1) in Hsplit.
  cbn [app] in Hsplit. injection Hsplit as <- <- _.
  split; apply padded_identifier_inv.
  - unfold TRACEID_VALID_RGX in Htid. exact Htid.
  - unfold PARENTID_VALID_RGX in Hpid. exact Hpid.
Qed.

Lemma vendor_entry_transaction (a b : TraceContext.t) (now : Z) :
  TraceContext.transaction a = TraceContext.transaction b ->
  vendor_entry a now = vendor_entry b now.
Proof.
  intros H.
  unfold vendor_entry, vendor_value, trusted_key, encoded_span,
    encoded_transaction_id, encoded_sampled, encoded_priority.
  now rewrite H.
Qed.

Lemma remove_first_forallb {A} (p q : A -> bool) (l : list A) :
  forallb q l = true -> forallb q (remove_first p l) = true.
Proof.
  induction l as [|x r IH]; [reflexivity|].
  simpl. intros H. apply andb_true_iff in H as [Hx Hr].
  destruct (p x); [exact Hr|]. simpl. now rewrite Hx, IH.
Qed.

Lemma join_truthy (x : string) (l : list string) :
  x <> "" -> JS.truthy_string (JS.join "," (x :: l)) = true.
Proof.
  intros Hx. destruct x as [|c r]; [congruence|].
  destruct l; reflexivity.
Qed.

Lemma well_formed_member_not_empty (lm : string) :
  well_formed_member lm = true -> lm <> "".
Proof.
  intros H ->. discriminate H.
Qed.

(** X13 (propagation): after a traceparent is accepted with a well-formed
    tracestate, the tracestate getter of the instance renders the entry of
    the agent first, followed by the inbound list members other than the
    first entry of this vendor, in their inbound order; when no other member
    is left it renders the entry of the agent alone. *)
Theorem X13_pass_through_propagates (self : TraceContext.t) (now : Z)
  (traceparent T P inbound : string) :
  accepted_traceparent traceparent T P ->
  syntactically_valid inbound = true ->
  exists result self',
    acceptTraceContextPayload self now traceparent inbound
    = JS.Normal (result, self')
    /\ forall later,
         tracestate self' later
         = match remove_first (is_vendor_entry self) (members inbound) with
           | [] => vendor_entry self later
           | rest => vendor_entry self later ++ String "," (JS.join "," rest)
           end.
Proof.
  intros Htp Hts.
  destruct (accept_stores self now _ _ _ _ Htp Hts) as (r & s & Hacc & Hraw & _).
  exists r, s. split; [exact Hacc|]. intros later.
  rewrite tracestate_shape, Hraw.
  rewrite (vendor_entry_transaction s self later
             (accept_keeps_transaction _ _ _ _ _ _ Hacc)).
  pose proof (remove_first_forallb (is_vendor_entry self) well_formed_member
                (members inbound) Hts) as Hrest.
  destruct (remove_first (is_vendor_entry self) (members inbound)) as [|x l];
    [reflexivity|].
  cbn [forallb] in Hrest. apply andb_true_iff in Hrest as [Hx _].
  now rewrite (join_truthy x l (well_formed_member_not_empty _ Hx)).
Qed.

Lemma X13_pass_through_propagates_witness :
  exists result self',
    acceptTraceContextPayload example_instance 1569367663377
      example_traceparent example_tracestate
    = JS.Normal (result, self')
    /\ forall later,
         tracestate self' later
         = vendor_entry example_instance later ++ ",other=1,another=2".
Proof.
  exact (X13_pass_through_propagates example_instance 1569367663377
           example_traceparent _ _ example_tracestate
           example_traceparent_accepted eq_refl).
Defined.

(** ** The flags byte *)

Lemma lower_hex_facts (c : ascii) :
  lower_hex c = true ->
  JS.is_white_space c = false
  /\ (exists d, JS.radix_digit 16 c = Some d /\ 0 <= d < 16)
  /\ (forall r, JS.strip_sign (String c r) = (1, String c r))
  /\ (forall d r, JS.strip_hex_prefix (String d (String c r)) = None).
Proof.
  destruct c as [[] [] [] [] [] [] [] []]; try discriminate; intros _;
    (split; [reflexivity|]);
    (split; [eexists; split; [vm_compute; reflexivity|lia]|]);
    (split; [reflexivity|]);
    intros d r; destruct d as [[] [] [] [] [] [] [] []]; reflexivity.
Qed.

Lemma sampled_bit (n : Z) :
  0 <= n < 256 ->
  JS.truthy_number (JSNum.bitand (JS.of_Z n) (JS.of_Z 1)) = Z.odd n.
Proof.
  intros Hn. unfold JSNum.bitand, JSNum.ToInt32, JS.of_Z, inject_Z.
  cbn [Qnum Qden]. rewrite !Z.quot_1_r.
  rewrite !Z.mod_small by lia.
  replace (n + 2 ^ 31 - 2 ^ 31) with n by lia.
  replace (1 + 2 ^ 31 - 2 ^ 31) with 1 by lia.
  change 1 with (Z.ones 1) at 1. rewrite Z.land_ones by lia.
  change (2 ^ 1) with 2. rewrite Zmod_odd.
  now destruct (Z.odd n).
Qed.

(** X14 (flags byte): on a flags field of two lower-case hexadecimal
    digits, [parseFlagsHex] reads the byte and answers [sampled] as its
    lowest bit; on what [createFlagsHex] renders it answers the sampled
    state of the transaction. *)
Theorem X14_flags (self : TraceContext.t) :
  (forall flags,
      FLAGS_VALID_RGX flags = true ->
      exists n, JS.parseInt flags 16 = JS.of_Z n /\ 0 <= n < 256
                /\ parseFlagsHex flags = [("sampled", Z.odd n)])
  /\ parseFlagsHex (createFlagsHex self)
     = [("sampled",
         truthy_flag (Transaction.sampled (TraceContext.transaction self)))].
Proof.
  split.
  - intros flags Hvalid. unfold FLAGS_VALID_RGX, hex_exactly in Hvalid.
    apply andb_true_iff in Hvalid as [Hlen Hhex].
    destruct flags as [|c1 [|c2 [|c3 r]]]; try discriminate Hlen.
    cbn in Hhex. rewrite andb_true_r in Hhex.
    apply andb_true_iff in Hhex as [H1 H2].
    destruct (lower_hex_facts c1 H1) as (Hws & (d1 & Hd1 & Hr1) & Hsign & _).
    destruct (lower_hex_facts c2 H2) as (_ & (d2 & Hd2 & Hr2) & _ & Hprefix).
    assert (JS.parseInt (String c1 (String c2 "")) 16 = JS.of_Z (d1 * 16 + d2))
      as Hparse.
    { unfold JS.parseInt. cbn [JS.trim_start]. rewrite Hws, Hsign.
      cbn [Z.eqb negb andb orb Z.ltb Z.compare Pos.compare Pos.compare_cont
           Pos.eqb].
      rewrite Hprefix. cbn [JS.span_digits]. rewrite Hd1, Hd2.
      cbn [fst JS.digits_value fold_left]. f_equal. lia. }
    exists (d1 * 16 + d2). split; [exact Hparse|]. split; [lia|].
    unfold parseFlagsHex, FLAGS. rewrite Hparse.
    cbn [fold_left fst snd JSObject.set]. now rewrite sampled_bit by lia.
  - rewrite createFlagsHex_value. now destruct (truthy_flag _).
Qed.

(** ** Adding the headers to a request *)

Lemma get_set_same {V} (o : JSObject.t V) (key : string) (value : V) :
  JSObject.get (JSObject.set o key value) key = Some value.
Proof.
  induction o as [|[k v] r IH]; simpl.
  - now rewrite String.eqb_refl.
  - destruct (String.eqb k key) eqn:Hk; simpl; now rewrite Hk.
Qed.

Lemma get_set_other {V} (o : JSObject.t V) (key other : string) (value : V) :
  other <> key ->
  JSObject.get (JSObject.set o key value) other = JSObject.get o other.
Proof.
  intros Hne. induction o as [|[k v] r IH]; simpl.
  - destruct (String.eqb_spec key other); [congruence|reflexivity].
  - destruct (String.eqb_spec k key) as [->|Hk]; simpl.
    + destruct (String.eqb_spec key other); [congruence|reflexivity].
    + destruct (String.eqb k other); [reflexivity|exact IH].
Qed.

(** X15 (headers of an outbound request): after [addTraceContextHeaders]
    the headers object holds the generated traceparent and tracestate under
    their names, whatever it held there before, every other header is as it
    was, and the instance differs only by the recorded creation counter. *)
Theorem X15_headers_added (self : TraceContext.t) (makeId : string) (now : Z)
  (headers : JSObject.t string) :
  let after := fst (addTraceContextHeaders self makeId now headers) in
  let self' := snd (addTraceContextHeaders self makeId now headers) in
  JSObject.get after "traceparent" = Some (traceparent self makeId)
  /\ JSObject.get after "tracestate" = Some (tracestate self now)
  /\ (forall name, name <> "traceparent" -> name <> "tracestate" ->
                   JSObject.get after name = JSObject.get headers name)
  /\ self' = TraceContext.recordSupportability self "TraceContext/Create/Success".
Proof.
  cbv zeta. unfold addTraceContextHeaders, createTraceContextPayload.
  cbn [fst snd JSObject.assign fold_left].
  unfold TRACE_CONTEXT_PARENT_HEADER, TRACE_CONTEXT_STATE_HEADER.
  repeat split.
  - rewrite get_set_other by discriminate. apply get_set_same.
  - apply get_set_same.
  - intros name H1 H2. now rewrite !get_set_other by assumption.
Qed.

(** ** Round trips beyond the well-formed priority *)

Lemma encoded_members_explicit (self : TraceContext.t) (now : Z) :
  has_char "," (vendor_entry self now) = false ->
  members (tracestate self now) = vendor_entry self now :: forwarded_members self.
Proof.
  intros Hfree. rewrite tracestate_shape. unfold members, forwarded_members.
  destruct (TraceContext._traceStateRaw self) as [raw|];
    [|now rewrite split_no_sep].
  destruct (JS.truthy_string raw);
    [now rewrite split_app|now rewrite split_no_sep].
Qed.

Lemma forwarded_members_valid (self : TraceContext.t) :
  match TraceContext._traceStateRaw self with
  | Some raw => raw = "" \/ syntactically_valid raw = true
  | None => True
  end ->
  forallb well_formed_member (forwarded_members self) = true
  /\ JS.join "," (forwarded_members self)
     = match TraceContext._traceStateRaw self with
       | Some raw => raw
       | None => ""
       end.
Proof.
  unfold forwarded_members.
  destruct (TraceContext._traceStateRaw self) as [raw|]; [|now split].
  destruct raw as [|c r]; [now split|].
  intros [Hraw|Hraw]; [discriminate|].
  cbn [JS.truthy_string String.eqb negb]. split; [exact Hraw|].
  unfold members. apply join_split.
Qed.

(** The round trip for any priority field that is free of delimiters and
    does not read as NaN. *)
Lemma round_trip_general (self receiver : TraceContext.t) (makeId : string)
  (now now' : Z) :
  well_formed_identifiers self makeId now ->
  trusted_key receiver = trusted_key self ->
  free_of_delimiters (encoded_priority self) = true ->
  present_and_NaN (priority_read self) = false ->
  exists result receiver',
    acceptTraceContextPayload receiver now'
      (traceparent self makeId) (tracestate self now)
    = JS.Normal (result, receiver')
    /\ TraceContextData.acceptedTraceparent result = true
    /\ TraceContextData.acceptedTracestate result = true
    /\ TraceContextData.priority result = priority_read self
    /\ TraceContext._traceStateRaw receiver'
       = Some (match TraceContext._traceStateRaw self with
               | Some raw => raw
               | None => ""
               end)
    /\ TraceContext.tracingVendors receiver'
       = Some (JS.join_opt "," (map key_of (forwarded_members self)))
    /\ TraceContext.trustedParentId receiver'
       = (if String.eqb (encoded_span self) "" then None
          else Some (encoded_span self)).
Proof.
  intros (Htid & Hpid & (Hacct & Hacct') & (Happ & Happ') & (Htx & Htx')
          & (Hkey1 & Hkey2) & Hnow & Hraw) Hkey Hprio_free Hprio_ok.
  pose proof (encoded_traceparent_accepted self makeId Htid Hpid) as Htp.
  destruct (string_of_Z_decimal now (proj1 Hnow)) as (Hstamp & Hstamp_ne & Hstamp_val).
  pose proof (decimal_free _ Hstamp) as Hstamp_free.
  pose proof (encoded_span_free self makeId Hpid) as Hspan_free.
  assert (free_of_delimiters (encoded_transaction_id self) = true) as Htx_free
    by (unfold encoded_transaction_id; now destruct (Config.transaction_events_enabled _)).
  assert (free_of_delimiters (encoded_sampled self) = true) as Hsmp_free
    by (unfold encoded_sampled; now destruct (truthy_flag _)).
  assert (forall c, c = "-"%char \/ c = ","%char \/ c = "="%char ->
            Forall (fun x => has_char c x = false)
              [Config.account_id (Transaction.config (TraceContext.transaction self));
               Config.primary_application_id
                 (Transaction.config (TraceContext.transaction self));
               encoded_span self; encoded_transaction_id self;
               encoded_sampled self; encoded_priority self;
               JS.string_of_Z now]) as Hfields.
  { intros c Hc.
    repeat (constructor;
            [match goal with
             | |- has_char _ ?s = false =>
                 let H := fresh in
                 assert (free_of_delimiters s = true) as H by assumption;
                 apply free_has_char in H;
                 destruct H as (? & ? & ?);
                 destruct Hc as [->|[->| ->]]; assumption
             end|]).
    constructor. }
  assert (forall c, c = ","%char \/ c = "="%char ->
            has_char c (vendor_value self now) = false) as Hvalue.
  { intros c Hc. unfold vendor_value. apply has_char_join.
    - destruct Hc as [->| ->]; reflexivity.
    - do 2 (constructor; [destruct Hc as [->| ->]; reflexivity|]).
      apply Hfields. tauto. }
  assert (JS.split "=" (vendor_entry self now)
          = [trusted_key self ++ "@nr"; vendor_value self now]) as Hentry
    by (apply key_entry_split; [exact Hkey2|apply Hvalue; now right]).
  assert (has_char "," (vendor_entry self now) = false) as Hcomma.
  { unfold vendor_entry. rewrite !has_char_app.
    unfold trusted_key at 1.
    rewrite Hkey1, (Hvalue ","%char (or_introl eq_refl)). reflexivity. }
  pose proof (encoded_members_explicit self now Hcomma) as Hmembers.
  destruct (forwarded_members_valid self Hraw) as [Hrest Hjoin].
  assert (syntactically_valid (tracestate self now) = true) as Hvalid.
  { unfold syntactically_valid. rewrite Hmembers. cbn [forallb].
    unfold well_formed_member at 1. now rewrite Hentry. }
  assert (is_vendor_entry receiver (vendor_entry self now) = true) as Hown.
  { unfold is_vendor_entry, key_of. rewrite Hentry, Hkey.
    cbn [nth_error same_key]. apply String.eqb_refl. }
  assert (find (is_vendor_entry receiver) (members (tracestate self now))
          = Some (vendor_entry self now)) as Hfind
    by (rewrite Hmembers; cbn [find]; now rewrite Hown).
  assert (remove_first (is_vendor_entry receiver) (members (tracestate self now))
          = forwarded_members self) as Hremoved
    by (rewrite Hmembers; cbn [remove_first]; now rewrite Hown).
  assert (value_of (vendor_entry self now) = Some (vendor_value self now))
    as Hval by (unfold value_of; now rewrite Hentry).
  destruct (validate_encoded _ _ _ _ _ _ _ now
              (Hfields "-"%char (or_introl eq_refl)) Hacct Happ
              (ltac:(unfold encoded_sampled; destruct (truthy_flag _); tauto))
              Hprio_ok Hstamp_ne
              (eq_trans (parseInt_decimal _ 0 (or_introl eq_refl) Hstamp Hstamp_ne)
                 (f_equal JS.of_Z Hstamp_val)))
    as (Hok & _ & _ & _ & _ & _ & Hpr).
  fold (vendor_value self now) in Hok, Hpr.
  rewrite (accept_entry_valid receiver now' _ _ _ Htp _ _ _ Hvalid Hfind Hval Hok).
  rewrite Hremoved.
  do 2 eexists. split; [reflexivity|].
  cbn [TraceContextData.acceptedTraceparent TraceContextData.acceptedTracestate
       TraceContextData.priority TraceContext._traceStateRaw
       TraceContext.tracingVendors TraceContext.trustedParentId
       TraceContext.recordSupportability TraceContext.set_trustedParentId
       TraceContext.set_tracingVendors TraceContext.set_traceStateRaw stored].
  rewrite Hpr, Hjoin.
  repeat (split; [reflexivity|]).
  unfold _validateAndParseIntrinsics, validateIntrinsics.
  destruct (run_invalidations _ _ _) as [ok reason]. cbn [Validated.spanId].
  unfold _parseIntrinsics, _extractTraceStateIntrinsics.
  cbn [Intrinsics.spanId RawIntrinsics.spanId].
  unfold vendor_value. rewrite split_join;
    [|discriminate|do 2 (constructor; [reflexivity|]);
                   exact (Hfields "-"%char (or_introl eq_refl))].
  reflexivity.
Qed.

(** X16 (one hop): when the header values of a well-formed unit of work are
    decoded under the same trusted account key, the receiver stores as
    pass-through value exactly what the sender held (the empty string when
    it held none), as vendor keys the keys of that value, and as trusted
    parent id the span id the sender rendered (null when it rendered
    none). *)
Theorem X16_hop (self receiver : TraceContext.t) (makeId : string)
  (now now' : Z) :
  well_formed_unit_of_work self makeId now ->
  trusted_key receiver = trusted_key self ->
  exists result receiver',
    acceptTraceContextPayload receiver now'
      (traceparent self makeId) (tracestate self now)
    = JS.Normal (result, receiver')
    /\ TraceContext._traceStateRaw receiver'
       = Some (match TraceContext._traceStateRaw self with
               | Some raw => raw
               | None => ""
               end)
    /\ TraceContext.tracingVendors receiver'
       = Some (JS.join_opt "," (map key_of (forwarded_members self)))
    /\ TraceContext.trustedParentId receiver'
       = (if String.eqb (encoded_span self) "" then None
          else Some (encoded_span self)).
Proof.
  intros (Htid & Hpid & Hacct & Happ & Htx & Hkeys & Hprio & Hnow & Hraw) Hkey.
  destruct (encoded_priority_read self Hprio) as (Hfree & Hok & _).
  destruct (round_trip_general self receiver makeId now now'
              (conj Htid (conj Hpid (conj Hacct (conj Happ (conj Htx
                 (conj Hkeys (conj Hnow Hraw)))))))
              Hkey Hfree Hok)
    as (r & s & Hacc & _ & _ & _ & H1 & H2 & H3).
  exists r, s. now repeat split.
Qed.

Lemma X16_hop_witness :
  exists result receiver',
    acceptTraceContextPayload example_instance 1569367663377
      (traceparent example_sender "00f067aa0ba902b7")
      (tracestate example_sender 1569367663277)
    = JS.Normal (result, receiver')
    /\ TraceContext._traceStateRaw receiver' = Some "other=1,another=2"
    /\ TraceContext.tracingVendors receiver' = Some "other,another"
    /\ TraceContext.trustedParentId receiver' = Some "7d3efb1b173fecfa".
Proof.
  exact (X16_hop example_sender example_instance "00f067aa0ba902b7"
           1569367663277 1569367663377 example_sender_well_formed eq_refl).
Defined.

Lemma toFixed_shape_rounded (q : Q) :
  (0 <= q)%Q ->
  exists a b,
    JS.toFixed 6 (JS.Fin q) = a ++ String "." b
    /\ decimal a = true /\ a <> "" /\ decimal b = true
    /\ String.length b = 6%nat
    /\ eval10 0 (a ++ b) = Qfloor (q * inject_Z 1000000 + (1 # 2)).
Proof.
  intros Hq. unfold JS.toFixed, JS.toFixed_Q.
  destruct (Qlt_le_dec q 0) as [Hneg|_].
  { exfalso. exact (Qlt_not_le _ _ Hneg Hq). }
  change (10 ^ Z.of_nat 6) with 1000000.
  set (n := Qfloor (q * inject_Z 1000000 + (1 # 2))).
  assert (0 <= n) as Hn.
  { change 0 with (Qfloor 0). apply Qfloor_resp_le.
    apply Qle_trans with (q * inject_Z 1000000)%Q.
    - apply Qmult_le_0_compat; [exact Hq|discriminate].
    - rewrite <- (Qplus_0_r (q * inject_Z 1000000)) at 1.
      apply Qplus_le_r. discriminate. }
  destruct (string_of_Z_decimal n Hn) as (Hdec & _ & Hval).
  set (m := JS.padStart 7 "0" (JS.string_of_Z n)).
  assert (decimal m = true) as Hm.
  { subst m. unfold JS.padStart, decimal. rewrite forallb_string_app.
    fold (decimal (JS.string_of_Z n)). rewrite Hdec, andb_true_r.
    clear. induction (7 - String.length (JS.string_of_Z n))%nat as [|k IH];
      [reflexivity|exact IH]. }
  assert (eval10 0 m = n) as Hmn
    by (subst m; unfold JS.padStart; now rewrite eval10_zeros).
  destruct (padStart_length 7 "0" (JS.string_of_Z n)) as [Hlen _].
  fold m in Hlen.
  destruct (substring_split m (String.length m - 6) ltac:(lia))
    as (Hsplit & Hla & Hlb).
  replace (String.length m - (String.length m - 6))%nat with 6%nat in * by lia.
  exists (substring 0 (String.length m - 6) m),
         (substring (String.length m - 6) 6 m).
  cbn [Nat.eqb].
  assert (decimal (substring 0 (String.length m - 6) m) = true
          /\ decimal (substring (String.length m - 6) 6 m) = true) as [Hda Hdb].
  { rewrite Hsplit in Hm. unfold decimal in Hm.
    rewrite forallb_string_app in Hm. now apply andb_true_iff in Hm. }
  split; [reflexivity|]. split; [exact Hda|].
  split.
  { intros Hempty. rewrite Hempty in Hla. simpl in Hla. lia. }
  split; [exact Hdb|]. split; [exact Hlb|].
  now rewrite <- Hsplit.
Qed.

(** X17 (a priority of zero through one hop): a priority that is not
    negative never makes the receiver refuse the entry, and the receiver
    reads no priority (null) exactly when the sender holds zero: zero is
    sent as an empty field, like no priority at all. *)
Theorem X17_zero_priority_lost (self receiver : TraceContext.t)
  (makeId : string) (now now' : Z) (q : Q) :
  well_formed_identifiers self makeId now ->
  trusted_key receiver = trusted_key self ->
  Transaction.priority (TraceContext.transaction self) = Some (JS.Fin q) ->
  (0 <= q)%Q -> (q < inject_Z (10 ^ 21))%Q ->
  exists result receiver',
    acceptTraceContextPayload receiver now'
      (traceparent self makeId) (tracestate self now)
    = JS.Normal (result, receiver')
    /\ TraceContextData.acceptedTracestate result = true
    /\ (TraceContextData.priority result = None <-> q == 0).
Proof.
  intros Hwf Hkey Hprio Hq _.
  set (n := Qfloor (q * inject_Z 1000000 + (1 # 2))).
  assert (free_of_delimiters (encoded_priority self) = true
          /\ present_and_NaN (priority_read self) = false
          /\ priority_read self
             = (if Qeq_bool q 0 then None else Some (JS.Fin (n # 1000000))))
    as (Hfree & Hok & Hread).
  { unfold priority_read, encoded_priority. rewrite Hprio.
    cbn [JS.truthy_number].
    destruct (Qeq_bool q 0); cbn [negb]; [now repeat split|].
    destruct (toFixed_shape_rounded q Hq)
      as (a & b & -> & Ha & Hne & Hb & Hlen & Hval).
    assert (a ++ String "." b <> "") as Hfield
      by (destruct a; [congruence|discriminate]).
    rewrite (not_empty_eqb _ Hfield). cbn [unless_null present_and_NaN].
    rewrite (parseFloat_point a b Ha Hne Hb), Hval, Hlen.
    split.
    { change (String "." b) with ("." ++ b).
      now rewrite !free_of_delimiters_app, (decimal_free a Ha), (decimal_free b Hb). }
    split; reflexivity. }
  destruct (round_trip_general self receiver makeId now now' Hwf Hkey Hfree Hok)
    as (r & s & Hacc & _ & Hts & Hp & _).
  exists r, s. split; [exact Hacc|]. split; [exact Hts|].
  rewrite Hp, Hread.
  destruct (Qeq_bool q 0) eqn:Hzero.
  - split; [intros _; now apply Qeq_bool_iff|reflexivity].
  - split; [discriminate|].
    intros Hc. apply Qeq_bool_iff in Hc. congruence.
Qed.

Lemma X17_zero_priority_lost_witness :
  exists result receiver',
    acceptTraceContextPayload example_instance 1569367663377
      (traceparent zero_priority_sender "00f067aa0ba902b7")
      (tracestate zero_priority_sender 1569367663277)
    = JS.Normal (result, receiver')
    /\ TraceContextData.acceptedTracestate result = true
    /\ (TraceContextData.priority result = None <-> inject_Z 0 == 0).
Proof.
  assert (well_formed_identifiers zero_priority_sender "00f067aa0ba902b7"
            1569367663277) as Hwf.
  { unfold well_formed_identifiers. cbv zeta.
    repeat match goal with |- _ /\ _ => split end;
      try (vm_compute; reflexivity); now vm_compute. }
  exact (X17_zero_priority_lost zero_priority_sender example_instance
           "00f067aa0ba902b7" 1569367663277 1569367663377
           (inject_Z 0) Hwf eq_refl eq_refl ltac:(discriminate)
           eq_refl).
Defined.

(** ** Further properties of the tracestate list *)

Lemma find_none_all {A} (p : A -> bool) (l : list A) :
  (forall x, In x l -> p x = false) -> find p l = None.
Proof.
  induction l as [|x r IH]; [reflexivity|].
  intros H. simpl. rewrite (H x (or_introl eq_refl)).
  apply IH. intros y Hy. apply H. now right.
Qed.

(** X18 (no entry of this vendor): when no list member of a well-formed
    tracestate has the key [<trustedAccountKey>@nr], entries of other
    vendors or accounts are not adopted: the result is the traceparent-only
    one, no counter is recorded, and the whole tracestate is stored
    verbatim as pass-through value, with the keys of all its members. *)
Theorem X18_no_vendor_entry (self : TraceContext.t) (now : Z)
  (traceparent T P tracestate : string) :
  accepted_traceparent traceparent T P ->
  syntactically_valid tracestate = true ->
  (forall lm, In lm (members tracestate) ->
              key_of lm <> Some (trusted_key self ++ "@nr")) ->
  exists self',
    acceptTraceContextPayload self now traceparent tracestate
    = JS.Normal (traceparent_only T P, self')
    /\ TraceContext._traceStateRaw self' = Some tracestate
    /\ TraceContext.tracingVendors self'
       = Some (JS.join_opt "," (map key_of (members tracestate)))
    /\ TraceContext.trustedParentId self' = TraceContext.trustedParentId self
    /\ TraceContext.supportability self' = TraceContext.supportability self.
Proof.
  intros Htp Hts Hnone.
  assert (find (is_vendor_entry self) (members tracestate) = None) as Hfind.
  { apply find_none_all. intros lm Hin. specialize (Hnone lm Hin).
    unfold is_vendor_entry. destruct (key_of lm) as [k|]; [|reflexivity].
    cbn [same_key]. apply String.eqb_neq. congruence. }
  rewrite (accept_no_entry self now _ _ _ Htp _ Hts Hfind).
  eexists. split; [reflexivity|]. now repeat split.
Qed.

Lemma X18_no_vendor_entry_witness :
  exists self',
    acceptTraceContextPayload example_instance 0 example_traceparent
      "abc@nr=0-0-33-2827902-7d3efb1b173fecfa-e8b91a159289ff74-1-1.123456-1569367663277,other=1"
    = JS.Normal (traceparent_only "4bf92f3577b34da6a3ce929d0e0e4736"
                   "00f067aa0ba902b7", self')
    /\ TraceContext._traceStateRaw self'
       = Some "abc@nr=0-0-33-2827902-7d3efb1b173fecfa-e8b91a159289ff74-1-1.123456-1569367663277,other=1"
    /\ TraceContext.tracingVendors self' = Some "abc@nr,other"
    /\ TraceContext.trustedParentId self' = None
    /\ TraceContext.supportability self' = [].
Proof.
  refine (X18_no_vendor_entry example_instance 0 example_traceparent _ _
            "abc@nr=0-0-33-2827902-7d3efb1b173fecfa-e8b91a159289ff74-1-1.123456-1569367663277,other=1"
            example_traceparent_accepted eq_refl _).
  intros lm [<-|[<-|[]]]; discriminate.
Defined.

(** X19 (the other list members): the result depends on the tracestate only
    through its first entry of this vendor: two well-formed tracestates
    with the same such entry, wherever it stands and whatever surrounds it,
    are answered with the same result. *)
Theorem X19_other_members_irrelevant (self : TraceContext.t) (now : Z)
  (traceparent T P tracestate1 tracestate2 entry : string) :
  accepted_traceparent traceparent T P ->
  syntactically_valid tracestate1 = true ->
  syntactically_valid tracestate2 = true ->
  find (is_vendor_entry self) (members tracestate1) = Some entry ->
  find (is_vendor_entry self) (members tracestate2) = Some entry ->
  exists result s1 s2,
    acceptTraceContextPayload self now traceparent tracestate1
    = JS.Normal (result, s1)
    /\ acceptTraceContextPayload self now traceparent tracestate2
       = JS.Normal (result, s2).
Proof.
  intros Htp Hts1 Hts2 Hf1 Hf2.
  assert (well_formed_member entry = true) as Hwf
    by (eapply find_forallb; [exact Hts1|exact Hf1]).
  destruct (well_formed_member_value entry Hwf) as [v Hv].
  destruct (Validated.entryValid (_validateAndParseIntrinsics v)) eqn:Hok.
  - rewrite (accept_entry_valid self now _ _ _ Htp _ _ _ Hts1 Hf1 Hv Hok).
    rewrite (accept_entry_valid self now _ _ _ Htp _ _ _ Hts2 Hf2 Hv Hok).
    do 3 eexists. split; reflexivity.
  - rewrite (accept_entry_invalid self now _ _ _ Htp _ _ _ Hts1 Hf1 Hv Hok).
    rewrite (accept_entry_invalid self now _ _ _ Htp _ _ _ Hts2 Hf2 Hv Hok).
    do 3 eexists. split; reflexivity.
Qed.

Lemma X19_other_members_irrelevant_witness :
  exists result s1 s2,
    acceptTraceContextPayload example_instance 1569367663377
      example_traceparent example_tracestate
    = JS.Normal (result, s1)
    /\ acceptTraceContextPayload example_instance 1569367663377
         example_traceparent example_entry
       = JS.Normal (result, s2).
Proof.
  exact (X19_other_members_irrelevant example_instance 1569367663377
           example_traceparent _ _ example_tracestate example_entry example_entry
           example_traceparent_accepted eq_refl eq_refl eq_refl eq_refl).
Defined.

Lemma split_parts_free (sep : ascii) (s : string) :
  Forall (fun x => has_char sep x = false) (JS.split sep s).
Proof.
  induction s as [|c r IH]; [repeat constructor|].
  simpl. destruct (Ascii.eqb c sep) eqn:Hc; [now constructor|].
  pose proof (split_not_nil sep r) as Hnil.
  destruct (JS.split sep r) as [|h t]; [congruence|].
  inversion IH as [|? ? Hh Ht]; subst.
  constructor; [|exact Ht].
  unfold has_char in *. simpl. now rewrite Hc, Hh.
Qed.

Lemma remove_first_Forall {A} (p : A -> bool) (Q : A -> Prop) (l : list A) :
  Forall Q l -> Forall Q (remove_first p l).
Proof.
  induction 1 as [|x r Hx Hr IH]; [constructor|].
  simpl. destruct (p x); [exact Hr|now constructor].
Qed.

Lemma second_match_stays {A} (p : A -> bool) (l : list A) :
  (2 <= List.length (filter p l))%nat ->
  exists x, In x (remove_first p l) /\ p x = true.
Proof.
  induction l as [|x r IH]; simpl; [lia|].
  destruct (p x) eqn:Hx; simpl.
  - intros Hlen. destruct (filter p r) as [|y f] eqn:Hf; [simpl in Hlen; lia|].
    exists y.
    assert (In y (filter p r)) as Hin by (rewrite Hf; now left).
    apply filter_In in Hin. exact Hin.
  - intros Hlen. destruct (IH Hlen) as (y & Hin & Hy).
    exists y. split; [now right|exact Hy].
Qed.

(** X20 (several entries of this vendor): only the first entry keyed
    [<trustedAccountKey>@nr] is taken out; when a well-formed tracestate
    holds two or more of them, the pass-through value stored on the
    instance still has a list member with that key. *)
Theorem X20_later_entries_stay (self : TraceContext.t) (now : Z)
  (traceparent T P tracestate : string) :
  accepted_traceparent traceparent T P ->
  syntactically_valid tracestate = true ->
  (2 <= List.length (filter (is_vendor_entry self) (members tracestate)))%nat ->
  exists result self' raw lm,
    acceptTraceContextPayload self now traceparent tracestate
    = JS.Normal (result, self')
    /\ TraceContext._traceStateRaw self' = Some raw
    /\ In lm (members raw)
    /\ key_of lm = Some (trusted_key self ++ "@nr").
Proof.
  intros Htp Hts Htwo.
  destruct (accept_stores self now _ _ _ _ Htp Hts) as (r & s & Hacc & Hraw & _).
  destruct (second_match_stays _ _ Htwo) as (lm & Hin & Hlm).
  exists r, s, (JS.join "," (remove_first (is_vendor_entry self) (members tracestate))), lm.
  split; [exact Hacc|]. split; [exact Hraw|]. split.
  - unfold members at 1. rewrite split_join; [exact Hin| |].
    + intros Hnil. rewrite Hnil in Hin. destruct Hin.
    + apply remove_first_Forall. apply split_parts_free.
  - unfold is_vendor_entry in Hlm. destruct (key_of lm) as [k|]; [|discriminate].
    cbn [same_key] in Hlm. apply String.eqb_eq in Hlm. now subst.
Qed.

Lemma X20_later_entries_stay_witness :
  exists result self' raw lm,
    acceptTraceContextPayload example_instance 0 example_traceparent
      "xyz@nr=0-0-33-1-a-b-1-0.5-7,other=1,xyz@nr=0-0-44-2-c-d-0-0.1-8"
    = JS.Normal (result, self')
    /\ TraceContext._traceStateRaw self' = Some raw
    /\ In lm (members raw)
    /\ key_of lm = Some (trusted_key example_instance ++ "@nr").
Proof.
  exact (X20_later_entries_stay example_instance 0 example_traceparent _ _
           "xyz@nr=0-0-33-1-a-b-1-0.5-7,other=1,xyz@nr=0-0-44-2-c-d-0-0.1-8"
           example_traceparent_accepted eq_refl ltac:(cbn; lia)).
Defined.
